(** * xsvftool-ft232r2: JTAG bit-banging through an FTDI 2xx chip

    A shallow embedding of [xsvftool-ft232r2.c] (the LINUX build, which is
    the one selected by [#define LINUX 1]) and the properties of its
    bit-bang layer, its libxsvf host callbacks and the rendering of the
    captured RMASK bits in [main].

    Conventions of the embedding:
    - [unsigned char] is a [Z] reduced modulo 256 after every assignment,
      [int] and [long] are [Z] reduced into the two's complement range
      ([wrap_int], [wrap_long]) after every arithmetic operation;
    - the static variables [bb_reg] and [u] live in a [world] record that
      is threaded through every function by a state monad;
    - everything the program does to the outside (libftdi calls, stdio,
      [gettimeofday], [usleep]) is appended to the [trace] of the world;
    - everything the outside answers (whether the device opens, the bytes
      read back from the chip, the wall clock) comes from an [env] oracle
      stored in the world and consumed through cursors. *)

From Stdlib Require Import ZArith Lia.
From stdpp Require Import base option list strings.

Local Open Scope Z_scope.

(** ** Machine integers *)

Definition to_uchar (z : Z) : Z := z mod 256.

Definition INT_MAX : Z := 2147483647.
Definition INT_MIN : Z := -2147483648.
Definition LONG_MAX : Z := 9223372036854775807.
Definition LONG_MIN : Z := -9223372036854775808.

Definition wrap_int (z : Z) : Z := (z + 2 ^ 31) mod 2 ^ 32 - 2 ^ 31.
Definition wrap_long (z : Z) : Z := (z + 2 ^ 63) mod 2 ^ 64 - 2 ^ 63.

(** [useconds_t], the type of the parameter of [usleep], is
    [unsigned int]: the value a [long] argument is converted to at the
    call. *)
Definition to_useconds (z : Z) : Z := z mod 2 ^ 32.

(** ** Pin assignment (the [#define]s of the bit-bang layer) *)

Definition MASK_TMS : Z := Z.shiftl 1 7.
Definition MASK_TDI : Z := Z.shiftl 1 3.
Definition MASK_TDO : Z := Z.shiftl 1 6.
Definition MASK_TCK : Z := Z.shiftl 1 5.

Definition MASK_IO : Z := Z.lor (Z.lor MASK_TMS MASK_TDI) MASK_TCK.

Definition BAUDRATE : Z := 62500.
Definition LATENCY : Z := 1.

(** ** Data *)

Record timeval := Timeval { tv_sec : Z; tv_usec : Z }.

(** [struct udata_s].  The stream [f] is [Some] of the bytes still to be
    read when [u.f] is an open stream, and [None] when it is the null
    pointer (as at the start of the process, or after an [fopen] that
    failed) or a stream that [fclose] has closed. *)
Record udata_s := Udata {
  f : option (list Z);
  verbose : Z;
  clockcount : Z;
  bitcount_tdi : Z;
  bitcount_tdo : Z;
  retval_i : Z;
  retval : list Z
}.

(** The formatted diagnostics of the program, one constructor per format
    string, carrying the values that fill the conversions. *)
Inductive diag :=
| D_setup
| D_shutdown
| D_delay (usecs tms num_tck : Z)
| D_delay_after_tck (usecs : Z)
| D_pulse (tms tdi tdo line_tdo rmask rc : Z)
| D_sck_ignored
| D_trst_ignored (v : Z)
| D_frequency_ignored (v : Z)
| D_status (message : string)
| D_error (file : string) (line : Z) (message : string).

Inductive event :=
| Ev_ftdi_init
| Ev_usb_open (vendor product : Z) (opened : bool)
| Ev_set_baudrate (baud : Z)
| Ev_set_latency_timer (latency : Z)
| Ev_set_bitmode (mask mode : Z)
| Ev_write (buf : list Z)
| Ev_read (buf : list Z)
| Ev_gettimeofday (tv : timeval)
| Ev_usleep (usecs : Z)
| Ev_puts (s : string)
| Ev_stderr (d : diag)
| Ev_report_device (idcode revision part manufactor : Z)
| Ev_fgetc_no_stream.

(** What the outside world answers: whether the n-th [ftdi_usb_open] finds
    the chip, the content of the n-th byte that [ftdi_read_data] leaves in
    its buffer, and the reading of the n-th [gettimeofday]. *)
Record env := Env {
  dev_present : nat -> bool;
  dev_rx : nat -> Z;
  wall_clock : nat -> timeval
}.

Record world := World {
  w_env : env;
  n_open : nat;
  n_rx : nat;
  n_clk : nat;
  bb_reg : Z;
  u : udata_s;
  trace : list event
}.

(** The session state when [main] starts playing: every field of the
    static [u] is zero, except the verbosity (one per [-v]) and the input
    stream. *)
Definition u_start (verbosity : Z) (input : option (list Z)) : udata_s :=
  {| f := input; verbose := verbosity; clockcount := 0; bitcount_tdi := 0;
     bitcount_tdo := 0; retval_i := 0; retval := replicate 256 0 |}.

Definition u_init : udata_s := u_start 0 None.

(** The process before its first callback: the pin register is zero,
    nothing has been said to or heard from the outside. *)
Definition world_boot (e : env) (x : udata_s) : world :=
  {| w_env := e; n_open := 0; n_rx := 0; n_clk := 0; bb_reg := 0;
     u := x; trace := [] |}.

Definition world_init (e : env) : world := world_boot e u_init.

(** ** The state monad *)

Definition M (A : Type) : Type := world -> A * world.

#[global] Instance M_ret : MRet M := fun A a w => (a, w).
#[global] Instance M_bind : MBind M :=
  fun A B k m w => let (a, w') := m w in k a w'.

Definition get_reg : M Z := fun w => (bb_reg w, w).

Definition put_reg (r : Z) : M unit := fun w =>
  (tt, {| w_env := w_env w; n_open := n_open w; n_rx := n_rx w;
          n_clk := n_clk w; bb_reg := r; u := u w; trace := trace w |}).

Definition get_u : M udata_s := fun w => (u w, w).

Definition put_u (x : udata_s) : M unit := fun w =>
  (tt, {| w_env := w_env w; n_open := n_open w; n_rx := n_rx w;
          n_clk := n_clk w; bb_reg := bb_reg w; u := x; trace := trace w |}).

Definition emit (e : event) : M unit := fun w =>
  (tt, {| w_env := w_env w; n_open := n_open w; n_rx := n_rx w;
          n_clk := n_clk w; bb_reg := bb_reg w; u := u w;
          trace := trace w ++ [e] |}).

(** ** The library and system calls the program makes *)

Definition ftdi_init : M unit := emit Ev_ftdi_init.

Definition ftdi_usb_open (vendor product : Z) : M Z := fun w =>
  let ok := dev_present (w_env w) (n_open w) in
  (if ok then 0 else -1,
   {| w_env := w_env w; n_open := S (n_open w); n_rx := n_rx w;
      n_clk := n_clk w; bb_reg := bb_reg w; u := u w;
      trace := trace w ++ [Ev_usb_open vendor product ok] |}).

Definition ftdi_set_baudrate (baud : Z) : M unit := emit (Ev_set_baudrate baud).
Definition ftdi_set_latency_timer (l : Z) : M unit := emit (Ev_set_latency_timer l).
Definition ftdi_set_bitmode (mask mode : Z) : M unit := emit (Ev_set_bitmode mask mode).

Definition ftdi_write_data (buf : list Z) : M unit := emit (Ev_write buf).

(** The buffer after [ftdi_read_data(.., buf, size)]. *)
Definition ftdi_read_data (size : nat) : M (list Z) := fun w =>
  let buf := (fun i => dev_rx (w_env w) (n_rx w + i)%nat) <$> seq 0 size in
  (buf,
   {| w_env := w_env w; n_open := n_open w; n_rx := (n_rx w + size)%nat;
      n_clk := n_clk w; bb_reg := bb_reg w; u := u w;
      trace := trace w ++ [Ev_read buf] |}).

Definition gettimeofday : M timeval := fun w =>
  let tv := wall_clock (w_env w) (n_clk w) in
  (tv,
   {| w_env := w_env w; n_open := n_open w; n_rx := n_rx w;
      n_clk := S (n_clk w); bb_reg := bb_reg w; u := u w;
      trace := trace w ++ [Ev_gettimeofday tv] |}).

(** [usleep(usecs)]: the [long] argument is converted to [useconds_t] at
    the call; the event records the value the function receives. *)
Definition usleep (usecs : Z) : M unit := emit (Ev_usleep (to_useconds usecs)).
Definition puts (s : string) : M unit := emit (Ev_puts s).
Definition fprintf_stderr (d : diag) : M unit := emit (Ev_stderr d).

Definition when (b : bool) (c : M unit) : M unit := if b then c else mret tt.

(** ** Low-level bit-bang implementation *)

Definition bb_setup : M unit :=
  ftdi_init;;
  rc ← ftdi_usb_open 0x0403 0x6001;
  if rc <? 0 then
    puts "Can't open device"
  else
    ftdi_set_baudrate BAUDRATE;;
    ftdi_set_latency_timer LATENCY;;
    ftdi_set_bitmode MASK_IO 0x4;;
    put_reg 0.

Definition bb_shutdown : M unit := ftdi_set_bitmode 0 0.

Definition bb_tms (val : Z) : M unit :=
  r ← get_reg;
  if val =? 0 then put_reg (to_uchar (Z.land r (Z.lnot MASK_TMS)))
  else put_reg (to_uchar (Z.lor r MASK_TMS)).

Definition bb_tdi (val : Z) : M unit :=
  r ← get_reg;
  if val =? 0 then put_reg (to_uchar (Z.land r (Z.lnot MASK_TDI)))
  else put_reg (to_uchar (Z.lor r MASK_TDI)).

Definition bb_pulse_tck : M Z :=
  r ← get_reg;
  let b0 := to_uchar (Z.land r (Z.lnot MASK_TCK)) in
  let b1 := to_uchar (Z.lor r MASK_TCK) in
  let b2 := b0 in
  ftdi_write_data [b0; b1; b2];;
  buf_in ← ftdi_read_data 3;
  mret (if Z.land (default 0 (buf_in !! 2%nat)) MASK_TDO =? 0 then 0 else 1).

(** ** libxsvf host callbacks

    The [struct libxsvf_host *h] argument only serves to reach the static
    [u] through [h->user_data]; here [u] is a field of the world. *)

Definition verbose_ge (level : Z) : M bool :=
  x ← get_u; mret (level <=? verbose x).

Definition set_clockcount (v : Z) (x : udata_s) : udata_s :=
  {| f := f x; verbose := verbose x; clockcount := v;
     bitcount_tdi := bitcount_tdi x; bitcount_tdo := bitcount_tdo x;
     retval_i := retval_i x; retval := retval x |}.

Definition set_bitcount_tdi (v : Z) (x : udata_s) : udata_s :=
  {| f := f x; verbose := verbose x; clockcount := clockcount x;
     bitcount_tdi := v; bitcount_tdo := bitcount_tdo x;
     retval_i := retval_i x; retval := retval x |}.

Definition set_bitcount_tdo (v : Z) (x : udata_s) : udata_s :=
  {| f := f x; verbose := verbose x; clockcount := clockcount x;
     bitcount_tdi := bitcount_tdi x; bitcount_tdo := v;
     retval_i := retval_i x; retval := retval x |}.

Definition set_f (s : option (list Z)) (x : udata_s) : udata_s :=
  {| f := s; verbose := verbose x; clockcount := clockcount x;
     bitcount_tdi := bitcount_tdi x; bitcount_tdo := bitcount_tdo x;
     retval_i := retval_i x; retval := retval x |}.

(** [u->retval[u->retval_i++] = v].  The array has 256 cells; the source
    guards the upper bound itself, and the index is never negative (see
    [retval_i_bounds]), so the negative case, outside the array in C,
    is left as no store. *)
Definition push_retval (v : Z) (x : udata_s) : udata_s :=
  {| f := f x; verbose := verbose x; clockcount := clockcount x;
     bitcount_tdi := bitcount_tdi x; bitcount_tdo := bitcount_tdo x;
     retval_i := wrap_int (retval_i x + 1);
     retval := if 0 <=? retval_i x
               then <[Z.to_nat (retval_i x) := v]> (retval x)
               else retval x |}.

Definition modify_u (g : udata_s -> udata_s) : M unit :=
  x ← get_u; put_u (g x).

Definition h_setup : M Z :=
  b ← verbose_ge 2;
  when b (fprintf_stderr D_setup);;
  bb_setup;;
  mret 0.

Definition h_shutdown : M Z :=
  b ← verbose_ge 2;
  when b (fprintf_stderr D_shutdown);;
  bb_shutdown;;
  mret 0.

(** [while (num_tck > 0) { bb_pulse_tck(); num_tck--; }], by recursion on
    the number of iterations left. *)
Fixpoint tck_loop (num_tck : nat) : M unit :=
  match num_tck with
  | O => mret tt
  | S n => bb_pulse_tck;; tck_loop n
  end.

Definition h_udelay (usecs tms num_tck : Z) : M unit :=
  b ← verbose_ge 3;
  when b (fprintf_stderr (D_delay usecs tms num_tck));;
  usecs ← (if 0 <? num_tck then
             tv1 ← gettimeofday;
             bb_tms tms;;
             tck_loop (Z.to_nat num_tck);;
             tv2 ← gettimeofday;
             let '(usecs, tv1_usec) :=
               if tv_sec tv1 <? tv_sec tv2 then
                 (wrap_long (usecs -
                    wrap_long (wrap_long (1000000 - tv_usec tv1) +
                      wrap_long (wrap_long (wrap_long (tv_sec tv2 - tv_sec tv1) - 1)
                                 * 1000000))),
                  0)
               else (usecs, tv_usec tv1) in
             let usecs := wrap_long (usecs - wrap_long (tv_usec tv2 - tv1_usec)) in
             b ← verbose_ge 3;
             when b (fprintf_stderr
                       (D_delay_after_tck (if 0 <? usecs then usecs else 0)));;
             mret usecs
           else mret usecs);
  when (0 <? usecs) (usleep usecs).

(** [return fgetc(u->f)].  On an open stream: the next byte, or [EOF]
    (-1) when none is left.  When [u.f] is no open stream the call has no
    defined behaviour in C, and in practice ends the process; the model
    records it by [Ev_fgetc_no_stream], from where on a run has no
    counterpart in the C program, and goes on with [EOF]. *)
Definition h_getbyte : M Z :=
  x ← get_u;
  match f x with
  | Some (c :: rest) => put_u (set_f (Some rest) x);; mret c
  | Some [] => mret (-1)
  | None => emit Ev_fgetc_no_stream;; mret (-1)
  end.

Definition h_pulse_tck (tms tdi tdo rmask sync : Z) : M Z :=
  bb_tms tms;;
  when (0 <=? tdi)
    (modify_u (fun x => set_bitcount_tdi (wrap_int (bitcount_tdi x + 1)) x);;
     bb_tdi tdi);;
  line_tdo ← bb_pulse_tck;
  let rc := if 0 <=? line_tdo then line_tdo else 0 in
  x ← get_u;
  when ((rmask =? 1) && (retval_i x <? 256)) (put_u (push_retval line_tdo x));;
  rc ← (if (0 <=? tdo) && (0 <=? line_tdo) then
          modify_u (fun x => set_bitcount_tdo (wrap_int (bitcount_tdo x + 1)) x);;
          mret (if tdo =? line_tdo then rc else -1)
        else mret rc);
  b ← verbose_ge 4;
  when b (fprintf_stderr (D_pulse tms tdi tdo line_tdo rmask rc));;
  modify_u (fun x => set_clockcount (wrap_int (clockcount x + 1)) x);;
  mret rc.

Definition h_pulse_sck : M unit := fprintf_stderr D_sck_ignored.

Definition h_set_trst (v : Z) : M unit := fprintf_stderr (D_trst_ignored v).

Definition h_set_frequency (v : Z) : M Z :=
  fprintf_stderr (D_frequency_ignored v);; mret 0.

Definition h_report_device (idcode : Z) : M unit :=
  emit (Ev_report_device idcode
          (Z.land (Z.shiftr idcode 28) 0xf)
          (Z.land (Z.shiftr idcode 12) 0xffff)
          (Z.land (Z.shiftr idcode 1) 0x7ff)).

Definition h_report_status (message : string) : M unit :=
  b ← verbose_ge 2;
  when b (fprintf_stderr (D_status message)).

Definition h_report_error (file : string) (line : Z) (message : string) : M unit :=
  fprintf_stderr (D_error file line message).

(** The calls the sequencing engine can make through the callback table
    [h], and their dispatch; callbacks returning [void] yield 0. *)
Inductive host_call :=
| Call_setup
| Call_shutdown
| Call_udelay (usecs tms num_tck : Z)
| Call_getbyte
| Call_pulse_tck (tms tdi tdo rmask sync : Z)
| Call_pulse_sck
| Call_set_trst (v : Z)
| Call_set_frequency (v : Z)
| Call_report_device (idcode : Z)
| Call_report_status (message : string)
| Call_report_error (file : string) (line : Z) (message : string).

Definition dispatch (c : host_call) : M Z :=
  match c with
  | Call_setup => h_setup
  | Call_shutdown => h_shutdown
  | Call_udelay usecs tms num_tck => h_udelay usecs tms num_tck;; mret 0
  | Call_getbyte => h_getbyte
  | Call_pulse_tck tms tdi tdo rmask sync => h_pulse_tck tms tdi tdo rmask sync
  | Call_pulse_sck => h_pulse_sck;; mret 0
  | Call_set_trst v => h_set_trst v;; mret 0
  | Call_set_frequency v => h_set_frequency v
  | Call_report_device idcode => h_report_device idcode;; mret 0
  | Call_report_status m => h_report_status m;; mret 0
  | Call_report_error fl ln m => h_report_error fl ln m;; mret 0
  end.

Fixpoint run_calls (cs : list host_call) : M (list Z) :=
  match cs with
  | [] => mret []
  | c :: cs' => r ← dispatch c; rs ← run_calls cs'; mret (r :: rs)
  end.

(** ** Printing the captured RMASK bits at the end of [main] *)

(** [u.retval[idx]] as an rvalue: [None] when [idx] is outside the array. *)
Definition retval_read (x : udata_s) (idx : Z) : option Z :=
  if (0 <=? idx) && (idx <? 256) then retval x !! Z.to_nat idx else None.

(** The subscript [hex_mode > 1 ? j : u.retval_i - j - 1]. *)
Definition hex_index (hex_mode : Z) (x : udata_s) (j : Z) : Z :=
  if 1 <? hex_mode then j else wrap_int (wrap_int (retval_i x - j) - 1).

(** [for (j=i; j<i+4; j++) val = val << 1 | u.retval[...]]. *)
Fixpoint hex_inner (fuel : nat) (hex_mode : Z) (x : udata_s) (i j val : Z)
  : option Z :=
  match fuel with
  | O => Some val
  | S k =>
      if j <? i + 4 then
        b ← retval_read x (hex_index hex_mode x j);
        hex_inner k hex_mode x i (j + 1)
          (wrap_int (Z.lor (wrap_int (Z.shiftl val 1)) b))
      else Some val
  end.

(** [for (i=0; i < u.retval_i; i+=4) { int val = 0; ...; printf("%x", val); }]:
    the values printed, in order. *)
Fixpoint hex_outer (fuel : nat) (hex_mode : Z) (x : udata_s) (i : Z)
  : option (list Z) :=
  match fuel with
  | O => Some []
  | S k =>
      if i <? retval_i x then
        val ← hex_inner 4 hex_mode x i i 0;
        rest ← hex_outer k hex_mode x (i + 4);
        Some (val :: rest)
      else Some []
  end.

(** [for (i=0; i < u.retval_i; i++) printf(" %d", u.retval[i]);]. *)
Fixpoint dec_loop (fuel : nat) (x : udata_s) (i : Z) : option (list Z) :=
  match fuel with
  | O => Some []
  | S k =>
      if i <? retval_i x then
        b ← retval_read x i;
        rest ← dec_loop k x (i + 1);
        Some (b :: rest)
      else Some []
  end.

Inductive stdout_item :=
| Out_0x
| Out_hex (val : Z)
| Out_count (n : Z)
| Out_bit (b : Z)
| Out_newline.

(** The [if (u.retval_i) { ... }] block of [main]: what is printed on the
    standard output, or [None] when an array access leaves [u.retval]. *)
Definition print_retval (hex_mode : Z) (x : udata_s) : option (list stdout_item) :=
  if retval_i x =? 0 then Some []
  else if hex_mode =? 0 then
    bits ← dec_loop (Z.to_nat (retval_i x)) x 0;
    Some ([Out_count (retval_i x)] ++ (Out_bit <$> bits) ++ [Out_newline])
  else
    vals ← hex_outer (Z.to_nat (retval_i x)) hex_mode x 0;
    Some ([Out_0x] ++ (Out_hex <$> vals) ++ [Out_newline]).

(** A session that captured exactly the bits [bits] (at most 256). *)
Definition captured (bits : list Z) : udata_s :=
  {| f := None; verbose := 0; clockcount := 0; bitcount_tdi := 0;
     bitcount_tdo := 0; retval_i := Z.of_nat (length bits);
     retval := bits ++ replicate (256 - length bits)%nat 0 |}.

(** ** The allocator profile

    [realloc_maxsize] has [LIBXSVF_MEM_NUM] cells, a constant of
    [libxsvf.h]: here the length of the table.  [h_realloc] is modelled up
    to the pointer that [realloc] returns; its result is the table after
    the call and what it printed ([None] when [which] is outside the
    table). *)

Definition h_realloc (size which : Z) (maxsize : list Z) (x : udata_s)
  : option (list Z * list (Z * Z)) :=
  if (0 <=? which) && (which <? Z.of_nat (length maxsize)) then
    cur ← maxsize !! Z.to_nat which;
    Some (if cur <? size then <[Z.to_nat which := size]> maxsize else maxsize,
          if 3 <=? verbose x then [(which, size)] else [])
  else None.

(** The requests of a run, each [(which, size)], in the order they are
    made; the session state does not change in between as far as
    [h_realloc] is concerned. *)
Fixpoint profile_run (reqs : list (Z * Z)) (maxsize : list Z) (x : udata_s)
  : option (list Z) :=
  match reqs with
  | [] => Some maxsize
  | (which, size) :: reqs' =>
      r ← h_realloc size which maxsize x;
      profile_run reqs' r.1 x
  end.

(** [for (i = 0; i < LIBXSVF_MEM_NUM; i++) if (realloc_maxsize[i] > 0) num = i+1;]
    run over the cells from index [i] on. *)
Fixpoint num_loop (i : Z) (cells : list Z) (num : Z) : Z :=
  match cells with
  | [] => num
  | m :: rest => num_loop (i + 1) rest (if 0 <? m then i + 1 else num)
  end.

(** The three [for (i = 0; i < num; i++)] loops of the dump: the buffers
    declared (class and size), the entries of [buflist] (the class whose
    buffer it is, or the null pointer) and the entries of [sizelist]. *)
Fixpoint buf_loop (i : Z) (cells : list Z) : list (Z * Z) :=
  match cells with
  | [] => []
  | m :: rest => (if 0 <? m then [(i, m)] else []) ++ buf_loop (i + 1) rest
  end.

Fixpoint buflist_loop (i : Z) (cells : list Z) : list (option Z) :=
  match cells with
  | [] => []
  | m :: rest => (if 0 <? m then Some i else None) :: buflist_loop (i + 1) rest
  end.

Fixpoint sizelist_loop (cells : list Z) : list Z :=
  match cells with
  | [] => []
  | m :: rest => (if 0 <? m then m else 0) :: sizelist_loop rest
  end.

(** The generated allocator, as the data its text is printed from. *)
Record allocator_src := Allocator_src {
  gen_name : string;
  gen_bufs : list (Z * Z);
  gen_buflist : list (option Z);
  gen_sizelist : list Z;
  gen_num : Z
}.

(** The [if (realloc_name) { ... }] block of [main]. *)
Definition dump_allocator (realloc_name : string) (maxsize : list Z)
  : allocator_src :=
  let num := num_loop 0 maxsize 0 in
  let cells := take (Z.to_nat num) maxsize in
  {| gen_name := realloc_name;
     gen_bufs := buf_loop 0 cells;
     gen_buflist := buflist_loop 0 cells;
     gen_sizelist := sizelist_loop cells;
     gen_num := num |}.

(** ** The option loop of [main]

    [getopt], [fopen] and [libxsvf_play] are outside this file.  An option
    is what [getopt] returned together with what the outside then
    answered: whether the file opened and which bytes it holds, and for a
    play the calls the engine made through the callback table and the
    value it returned.  [u.f] is [Some] of the content from [fopen] (or
    of what [stdin] holds) until the [fclose] that follows the play, and
    [None] after it and after an [fopen] that failed. *)

Inductive cli_opt :=
| Opt_r (optarg : string)
| Opt_v
| Opt_file (svf : bool) (optarg : string) (opened : bool) (content : list Z)
           (calls : list host_call) (play_rc : Z)
| Opt_c (calls : list host_call) (play_rc : Z)
| Opt_L
| Opt_B
| Opt_other.

(** What [main] itself prints on the standard error. *)
Inductive main_msg :=
| Msg_copyleft
| Msg_usage
| Msg_playing (svf : bool) (optarg : string)
| Msg_cant_open (svf : bool) (optarg : string)
| Msg_error_playing (svf : bool) (optarg : string)
| Msg_error_scanning
| Msg_summary (clockcount bitcount_tdi bitcount_tdo : Z) (ok : bool).

(** The locals of [main] that the loop updates, the [already_printed]
    flag of [copyleft], and the messages printed so far. *)
Record main_vars := Main_vars {
  mv_rc : Z;
  mv_gotaction : Z;
  mv_hex_mode : Z;
  mv_realloc_name : option string;
  mv_already_printed : bool;
  mv_stderr : list main_msg
}.

Definition main_vars_init : main_vars :=
  {| mv_rc := 0; mv_gotaction := 0; mv_hex_mode := 0; mv_realloc_name := None;
     mv_already_printed := false; mv_stderr := [] |}.

Inductive main_ctl :=
| Running (v : main_vars)
| Exited (status : Z) (v : main_vars).

Definition say (m : main_msg) (v : main_vars) : main_vars :=
  {| mv_rc := mv_rc v; mv_gotaction := mv_gotaction v;
     mv_hex_mode := mv_hex_mode v; mv_realloc_name := mv_realloc_name v;
     mv_already_printed := mv_already_printed v;
     mv_stderr := mv_stderr v ++ [m] |}.

Definition set_rc (n : Z) (v : main_vars) : main_vars :=
  {| mv_rc := n; mv_gotaction := mv_gotaction v;
     mv_hex_mode := mv_hex_mode v; mv_realloc_name := mv_realloc_name v;
     mv_already_printed := mv_already_printed v; mv_stderr := mv_stderr v |}.

Definition set_gotaction (n : Z) (v : main_vars) : main_vars :=
  {| mv_rc := mv_rc v; mv_gotaction := n;
     mv_hex_mode := mv_hex_mode v; mv_realloc_name := mv_realloc_name v;
     mv_already_printed := mv_already_printed v; mv_stderr := mv_stderr v |}.

Definition set_hex_mode (n : Z) (v : main_vars) : main_vars :=
  {| mv_rc := mv_rc v; mv_gotaction := mv_gotaction v;
     mv_hex_mode := n; mv_realloc_name := mv_realloc_name v;
     mv_already_printed := mv_already_printed v; mv_stderr := mv_stderr v |}.

Definition set_realloc_name (s : string) (v : main_vars) : main_vars :=
  {| mv_rc := mv_rc v; mv_gotaction := mv_gotaction v;
     mv_hex_mode := mv_hex_mode v; mv_realloc_name := Some s;
     mv_already_printed := mv_already_printed v; mv_stderr := mv_stderr v |}.

Definition set_verbose (n : Z) (x : udata_s) : udata_s :=
  {| f := f x; verbose := n; clockcount := clockcount x;
     bitcount_tdi := bitcount_tdi x; bitcount_tdo := bitcount_tdo x;
     retval_i := retval_i x; retval := retval x |}.

Definition copyleft (v : main_vars) : main_vars :=
  if mv_already_printed v then v
  else
    {| mv_rc := mv_rc v; mv_gotaction := mv_gotaction v;
       mv_hex_mode := mv_hex_mode v; mv_realloc_name := mv_realloc_name v;
       mv_already_printed := true;
       mv_stderr := mv_stderr v ++ [Msg_copyleft] |}.

(** [help()] prints the usage and leaves the process with status 1. *)
Definition help (v : main_vars) : main_ctl :=
  Exited 1 (say Msg_usage (copyleft v)).

(** [libxsvf_play(&h, mode)]: the engine makes its calls and returns. *)
Definition libxsvf_play (calls : list host_call) (play_rc : Z) : M Z :=
  run_calls calls;; mret play_rc.

(** One turn of the [while ((opt = getopt(...)) != -1) switch (opt)] loop. *)
Definition main_opt (o : cli_opt) (v : main_vars) : M main_ctl :=
  match o with
  | Opt_r optarg => mret (Running (set_realloc_name optarg v))
  | Opt_v =>
      modify_u (fun x => set_verbose (wrap_int (verbose x + 1)) x);;
      mret (Running (copyleft v))
  | Opt_file svf optarg opened content calls play_rc =>
      let v := set_gotaction 1 v in
      x ← get_u;
      let v := if verbose x =? 0 then v else say (Msg_playing svf optarg) v in
      let is_stdin := String.eqb optarg "-" in
      if is_stdin || opened then
        modify_u (set_f (Some content));;
        r ← libxsvf_play calls play_rc;
        (if is_stdin then mret tt else modify_u (set_f None));;
        mret (Running (if r <? 0
                       then set_rc 1 (say (Msg_error_playing svf optarg) v)
                       else v))
      else
        modify_u (set_f None);;
        mret (Running (set_rc 1 (say (Msg_cant_open svf optarg) v)))
  | Opt_c calls play_rc =>
      let v := set_gotaction 1 v in
      r ← libxsvf_play calls play_rc;
      mret (Running (if r <? 0 then set_rc 1 (say Msg_error_scanning v) else v))
  | Opt_L => mret (Running (set_hex_mode 1 v))
  | Opt_B => mret (Running (set_hex_mode 2 v))
  | Opt_other => mret (help v)
  end.

Fixpoint main_loop (opts : list cli_opt) (v : main_vars) : M main_ctl :=
  match opts with
  | [] => mret (Running v)
  | o :: opts' =>
      c ← main_opt o v;
      match c with
      | Running v' => main_loop opts' v'
      | Exited status v' => mret (Exited status v')
      end
  end.

(** What [main] leaves behind: the exit status, the messages, and the
    line printed for the captured bits ([None] inside when printing reads
    outside [u.retval]; absent when the process left through [help]). *)
Record main_result := Main_result {
  exit_status : Z;
  final_vars : main_vars;
  retval_line : option (option (list stdout_item))
}.

(** [main], up to the dump of the allocator profile, which
    [dump_allocator] gives. *)
Definition main (opts : list cli_opt) : M main_result :=
  c ← main_loop opts main_vars_init;
  match c with
  | Exited status v =>
      mret {| exit_status := status; final_vars := v; retval_line := None |}
  | Running v =>
      if mv_gotaction v =? 0 then
        match help v with
        | Exited status v' =>
            mret {| exit_status := status; final_vars := v'; retval_line := None |}
        | Running v' =>
            mret {| exit_status := mv_rc v'; final_vars := v'; retval_line := None |}
        end
      else
        x ← get_u;
        let v := if verbose x =? 0 then v
                 else say (Msg_summary (clockcount x) (bitcount_tdi x)
                             (bitcount_tdo x) (mv_rc v =? 0)) v in
        mret {| exit_status := mv_rc v; final_vars := v;
                retval_line := Some (print_retval (mv_hex_mode v) x) |}
  end.

(** ** Vocabulary of the specification and of its proofs *)

(** An [unsigned char] value. *)
Definition is_byte (r : Z) : Prop := 0 <= r < 256.

(** An [int] that can still be incremented. *)
Definition can_incr (c : Z) : Prop := INT_MIN <= c < INT_MAX.

(** The bytes handed to [ftdi_write_data], in the order they were queued. *)
Definition written_bytes (tr : list event) : list Z :=
  flat_map (fun e => match e with Ev_write buf => buf | _ => [] end) tr.

(** A diagnostic that is printed only when its verbosity gate is open. *)
Definition diag_if (b : bool) (d : diag) : list event :=
  if b then [Ev_stderr d] else [].


(** What [if (usecs > 0) usleep(usecs)] does for [t >= 0] left to sleep:
    no call when [t] is zero, otherwise the call with [t] converted to
    [useconds_t]. *)
Definition sleep_call (t : Z) : list event :=
  if t =? 0 then [] else [Ev_usleep (to_useconds t)].

(** The TDO level carried by the third byte of a read-back that starts at
    position [k] of the device's answer stream. *)
Definition sampled_tdo (e : env) (k : nat) : Z :=
  Z.b2z (Z.testbit (dev_rx e (k + 2)%nat) 6).

(** The three phases of one clock pulse with pin register [reg], and the
    read-back that follows, when the device's answers start at [k]. *)
Definition pulse_events (e : env) (reg : Z) (k : nat) : list event :=
  [Ev_write [Z.clearbit reg 5; Z.setbit (Z.clearbit reg 5) 5; Z.clearbit reg 5];
   Ev_read [dev_rx e k; dev_rx e (k + 1)%nat; dev_rx e (k + 2)%nat]].

(** [n] consecutive pulses. *)
Fixpoint pulse_train (e : env) (reg : Z) (k : nat) (n : nat) : list event :=
  match n with
  | O => []
  | S n' => pulse_events e reg k ++ pulse_train e reg (k + 3)%nat n'
  end.

(** The pin register with pin [n] driven to the level [val] (C truth). *)
Definition drive (n : Z) (val : Z) (reg : Z) : Z :=
  if val =? 0 then Z.clearbit reg n else Z.setbit reg n.



(** The captured bits, in capture order. *)
Definition capture_seq (x : udata_s) : list Z :=
  take (Z.to_nat (retval_i x)) (retval x).

(** The capture buffer as the C program has it: 256 cells, a fill level
    between 0 and 256. *)
Definition capture_wf (x : udata_s) : Prop :=
  length (retval x) = 256%nat /\ 0 <= retval_i x <= 256.

Definition is_bit (b : Z) : Prop := b = 0 \/ b = 1.

(** The cells past the fill level still hold the zeros the static array
    starts with. *)
Definition capture_clean (x : udata_s) : Prop :=
  drop (Z.to_nat (retval_i x)) (retval x) =
  replicate (256 - Z.to_nat (retval_i x))%nat 0.

(** Four bits packed into a nibble, the first one in the high-order place;
    a trailing group of fewer than four bits yields nothing. *)
Fixpoint pack_be (bits : list Z) : list Z :=
  match bits with
  | b0 :: b1 :: b2 :: b3 :: rest => (8 * b0 + 4 * b1 + 2 * b2 + b3) :: pack_be rest
  | _ => []
  end.

(** Bits [hi] down to [lo] of [x], as a number. *)
Definition bitfield (hi lo : Z) (x : Z) : Z := (x / 2 ^ lo) mod 2 ^ (hi - lo + 1).

(** The convention of the callback table: a negative return value of the
    setup callback tells the engine that setup failed. *)
Definition setup_failed (rc : Z) : Prop := rc < 0.

Definition env_no_device : env :=
  {| dev_present := fun _ => false;
     dev_rx := fun _ => 0;
     wall_clock := fun n => Timeval (Z.of_nat n) 0 |}.

(** The arithmetic [h_udelay] performs on [usecs] between the second
    [gettimeofday] and the sleep. *)
Definition code_residual (usecs : Z) (tv1 tv2 : timeval) : Z :=
  let '(usecs, tv1_usec) :=
    if tv_sec tv1 <? tv_sec tv2 then
      (wrap_long (usecs -
         wrap_long (wrap_long (1000000 - tv_usec tv1) +
           wrap_long (wrap_long (wrap_long (tv_sec tv2 - tv_sec tv1) - 1)
                      * 1000000))),
       0)
    else (usecs, tv_usec tv1) in
  wrap_long (usecs - wrap_long (tv_usec tv2 - tv1_usec)).

(** The session state after one exchange, step by step as the callback
    updates it. *)
Definition exchange_udata (tdi tdo rmask line : Z) (x : udata_s) : udata_s :=
  let x1 := if 0 <=? tdi
            then set_bitcount_tdi (wrap_int (bitcount_tdi x + 1)) x else x in
  let x2 := if (rmask =? 1) && (retval_i x1 <? 256)
            then push_retval line x1 else x1 in
  let x3 := if 0 <=? tdo
            then set_bitcount_tdo (wrap_int (bitcount_tdo x2 + 1)) x2 else x2 in
  set_clockcount (wrap_int (clockcount x3 + 1)) x3.

(** The value an exchange returns for the expected bit [tdo] and the
    sampled bit [line]. *)
Definition exchange_rc (tdo line : Z) : Z :=
  if (0 <=? tdo) && negb (tdo =? line) then -1 else line.

Definition exchange_reg (tms tdi reg : Z) : Z :=
  if 0 <=? tdi then drive 3 tdi (drive 7 tms reg) else drive 7 tms reg.

(** The TDO bits sampled by [n] consecutive pulses. *)
Fixpoint sampled_bits (e : env) (k : nat) (n : nat) : list Z :=
  match n with
  | O => []
  | S n' => sampled_tdo e k :: sampled_bits e (k + 3)%nat n'
  end.

(** A clocked-bit exchange that asks for its bit to be retained; the
    quadruple is (tms, tdi, tdo, sync). *)
Definition capture_request (a : Z * Z * Z * Z) : host_call :=
  let '(tms, tdi, tdo, sync) := a in Call_pulse_tck tms tdi tdo 1 sync.

Definition expected_tdo (a : Z * Z * Z * Z) : Z :=
  let '(_, _, tdo, _) := a in tdo.

(** A byte whose set bits are all among TDI (3), TCK (5) and TMS (7). *)
Definition only_pins (b : Z) : Prop :=
  forall k, 0 <= k -> Z.testbit b k = true -> k = 3 \/ k = 5 \/ k = 7.

Definition pins_inv (w : world) : Prop :=
  is_byte (bb_reg w) /\ only_pins (bb_reg w) /\
  Forall only_pins (written_bytes (trace w)).

Definition session_inv (w : world) : Prop :=
  pins_inv w /\ capture_wf (u w) /\ Forall is_bit (capture_seq (u w)) /\
  capture_clean (u w).

(** The number of clocked-bit exchanges among the calls [cs]. *)
Fixpoint exchanges (cs : list host_call) : Z :=
  match cs with
  | [] => 0
  | Call_pulse_tck _ _ _ _ _ :: cs' => 1 + exchanges cs'
  | _ :: cs' => exchanges cs'
  end.

(** A device that answers 0xBF (every line high except TDO) at even
    positions and 0x40 (TDO alone) at odd ones, and a clock that crosses a
    second boundary between its first two readings. *)
Definition env_demo : env :=
  {| dev_present := fun _ => true;
     dev_rx := fun n => if Nat.odd n then 0x40 else 0xBF;
     wall_clock := fun n => match n with
                            | O => Timeval 10 999000
                            | _ => Timeval 11 1000
                            end |}.

(** The state after setup and one exchange with TMS = 1 and TDI = 1. *)
Definition w_demo : world :=
  (run_calls [Call_setup; Call_pulse_tck 1 1 (-1) 0 0] (world_init env_demo)).2.

(** Exchanges that drive TDI, that compare TDO, that ask for capture. *)
Definition drives_tdi (c : host_call) : bool :=
  match c with Call_pulse_tck _ tdi _ _ _ => 0 <=? tdi | _ => false end.

Definition compares_tdo (c : host_call) : bool :=
  match c with Call_pulse_tck _ _ tdo _ _ => 0 <=? tdo | _ => false end.

Definition asks_capture (c : host_call) : bool :=
  match c with Call_pulse_tck _ _ _ rmask _ => rmask =? 1 | _ => false end.

Definition count_calls (p : host_call -> bool) (cs : list host_call) : Z :=
  Z.of_nat (length (filter (fun c => p c = true) cs)).

(** The four values the pin register can hold: TMS and TDI, each high or
    low; TCK is never stored. *)
Definition reg_values : list Z := [0x00; 0x08; 0x80; 0x88].

(** The register that shows the levels [tms] and [tdi] (C truth). *)
Definition reg_of (tms tdi : Z) : Z :=
  (if tms =? 0 then 0 else 0x80) + (if tdi =? 0 then 0 else 0x08).

(** Reading a trace for its pulses.  The state says whether a write still
    waits for its read.  A write must come when none is pending, carry
    three bytes with TCK low, high, low; a read must answer a pending
    write with three bytes; nothing else may come in between.  [None]
    marks a trace that breaks one of these rules. *)
Definition pulse_step (pending : bool) (ev : event) : option bool :=
  match ev, pending with
  | Ev_write [a; b; c], false =>
      if negb (Z.testbit a 5) && Z.testbit b 5 && negb (Z.testbit c 5)
      then Some true else None
  | Ev_write _, _ => None
  | Ev_read [_; _; _], true => Some false
  | Ev_read _, _ => None
  | _, false => Some false
  | _, true => None
  end.

Fixpoint pulse_scan (pending : bool) (tr : list event) : option bool :=
  match tr with
  | [] => Some pending
  | ev :: tr' => s ← pulse_step pending ev; pulse_scan s tr'
  end.

Definition traffic_inv (w : world) : Prop :=
  is_byte (bb_reg w) /\ pulse_scan false (trace w) = Some false.

(** A trace without what went to the standard error. *)
Fixpoint quiet (tr : list event) : list event :=
  match tr with
  | [] => []
  | Ev_stderr _ :: tr' => quiet tr'
  | ev :: tr' => ev :: quiet tr'
  end.

(** A state with its verbosity and its diagnostics taken away. *)
Definition silence (w : world) : world :=
  {| w_env := w_env w; n_open := n_open w; n_rx := n_rx w; n_clk := n_clk w;
     bb_reg := bb_reg w; u := set_verbose 0 (u w); trace := quiet (trace w) |}.

(** The largest size requested for class [i] among [reqs], 0 when there
    is none above it. *)
Definition high_water (reqs : list (Z * Z)) (i : Z) : Z :=
  foldr (fun r acc => if r.1 =? i then Z.max r.2 acc else acc) 0 reqs.

(** Options that play a file or scan the chain; options whose action
    fails (the file does not open, or the engine returns a negative
    value); options [getopt] does not know. *)
Definition opt_is_action (o : cli_opt) : bool :=
  match o with
  | Opt_file _ _ _ _ _ _ | Opt_c _ _ => true
  | _ => false
  end.

Definition opt_fails (o : cli_opt) : bool :=
  match o with
  | Opt_file _ optarg opened _ _ play_rc =>
      negb (String.eqb optarg "-" || opened) || (play_rc <? 0)
  | Opt_c _ play_rc => play_rc <? 0
  | _ => false
  end.

Definition opt_is_other (o : cli_opt) : bool :=
  match o with Opt_other => true | _ => false end.

(** The sleeps requested in a trace, in microseconds. *)
Definition sleeps (tr : list event) : list Z :=
  flat_map (fun ev => match ev with Ev_usleep t => [t] | _ => [] end) tr.

(** Two readings of the clock that [h_udelay] can compute with inside
    [long], in whatever order they come. *)
Definition clock_readable (d : Z) (tv1 tv2 : timeval) : Prop :=
  0 <= tv_usec tv1 < 1000000 /\ 0 <= tv_usec tv2 < 1000000 /\
  0 <= tv_sec tv1 < 2 ^ 40 /\ 0 <= tv_sec tv2 < 2 ^ 40 /\
  - 2 ^ 62 <= d <= 2 ^ 62.

(** The calls the engine makes while an option is processed, and over a
    whole command line: none for a file that did not open. *)
Definition opt_calls (o : cli_opt) : list host_call :=
  match o with
  | Opt_file _ optarg opened _ calls _ =>
      if String.eqb optarg "-" || opened then calls else []
  | Opt_c calls _ => calls
  | _ => []
  end.

Definition calls_played (opts : list cli_opt) : list host_call :=
  flat_map opt_calls opts.

(** The counters of the session are in the order the exchange keeps them
    in. *)
Definition counters_inv (x : udata_s) : Prop :=
  0 <= bitcount_tdi x <= clockcount x /\ 0 <= bitcount_tdo x <= clockcount x.

(** The counters of [x'] are those of [x] advanced by the calls [cs]. *)
Definition advanced_by (cs : list host_call) (x x' : udata_s) : Prop :=
  clockcount x' = clockcount x + exchanges cs /\
  bitcount_tdi x' = bitcount_tdi x + count_calls drives_tdi cs /\
  bitcount_tdo x' = bitcount_tdo x + count_calls compares_tdo cs /\
  retval_i x' = Z.min 256 (retval_i x + count_calls asks_capture cs).

(** ** Machine integer lemmas *)

Lemma wrap_int_small z : INT_MIN <= z <= INT_MAX -> wrap_int z = z.
Proof.
  unfold wrap_int, INT_MIN, INT_MAX. intros H.
  rewrite Z.mod_small; lia.
Qed.

Lemma wrap_long_small z : LONG_MIN <= z <= LONG_MAX -> wrap_long z = z.
Proof.
  unfold wrap_long, LONG_MIN, LONG_MAX. intros H.
  rewrite Z.mod_small; lia.
Qed.

Lemma to_uchar_byte z : is_byte (to_uchar z).
Proof. unfold is_byte, to_uchar. apply Z.mod_pos_bound. lia. Qed.

Lemma testbit_to_uchar z k :
  Z.testbit (to_uchar z) k = (k <? 8) && Z.testbit z k.
Proof.
  unfold to_uchar. change 256 with (2 ^ 8). apply Z.testbit_mod_pow2. lia.
Qed.

Lemma testbit_byte_high r k : is_byte r -> 8 <= k -> Z.testbit r k = false.
Proof.
  intros Hr Hk.
  rewrite <- (Z.mod_small r 256) by exact Hr.
  fold (to_uchar r). rewrite testbit_to_uchar.
  destruct (Z.ltb_spec k 8); [lia | reflexivity].
Qed.

Lemma testbit_pin n k : 0 <= n -> Z.testbit (Z.shiftl 1 n) k = (n =? k).
Proof. intros Hn. rewrite Z.shiftl_1_l. now apply Z.pow2_bits_eqb. Qed.

(** Bit-level normalisation of the expressions the bit-bang layer builds. *)
Ltac bit_rewrite :=
  unfold MASK_IO, MASK_TMS, MASK_TDI, MASK_TDO, MASK_TCK, drive;
  repeat first
    [ rewrite testbit_to_uchar
    | rewrite Z.land_spec
    | rewrite Z.lor_spec
    | rewrite Z.lnot_spec by assumption
    | rewrite testbit_pin by lia
    | rewrite Z.clearbit_eqb
    | rewrite Z.setbit_eqb by lia ].

Lemma clear_pin_byte r n :
  is_byte r -> 0 <= n < 8 ->
  to_uchar (Z.land r (Z.lnot (Z.shiftl 1 n))) = Z.clearbit r n.
Proof.
  intros Hr Hn. apply Z.bits_inj'; intros k Hk. bit_rewrite.
  destruct (Z.ltb_spec k 8) as [Hlt|Hge]; simpl.
  - destruct (Z.eqb_spec n k); reflexivity.
  - rewrite (testbit_byte_high r k) by assumption. reflexivity.
Qed.

Lemma set_pin_byte r n :
  is_byte r -> 0 <= n < 8 ->
  to_uchar (Z.lor r (Z.shiftl 1 n)) = Z.setbit r n.
Proof.
  intros Hr Hn. apply Z.bits_inj'; intros k Hk. bit_rewrite.
  destruct (Z.ltb_spec k 8) as [Hlt|Hge]; simpl.
  - apply orb_comm.
  - rewrite (testbit_byte_high r k) by assumption.
    destruct (Z.eqb_spec n k); [lia | reflexivity].
Qed.

Lemma clearbit_byte r n : is_byte r -> 0 <= n < 8 -> is_byte (Z.clearbit r n).
Proof.
  intros Hr Hn. rewrite <- clear_pin_byte by assumption. apply to_uchar_byte.
Qed.

Lemma setbit_byte r n : is_byte r -> 0 <= n < 8 -> is_byte (Z.setbit r n).
Proof.
  intros Hr Hn. rewrite <- set_pin_byte by assumption. apply to_uchar_byte.
Qed.

Lemma drive_byte n val r : is_byte r -> 0 <= n < 8 -> is_byte (drive n val r).
Proof.
  intros Hr Hn. unfold drive.
  destruct (val =? 0); [now apply clearbit_byte | now apply setbit_byte].
Qed.

Lemma set_tck_byte r :
  is_byte r -> to_uchar (Z.lor r MASK_TCK) = Z.setbit (Z.clearbit r 5) 5.
Proof.
  intros Hr. unfold MASK_TCK. rewrite set_pin_byte by (auto; lia).
  apply Z.bits_inj'; intros k Hk. bit_rewrite.
  destruct (Z.eqb_spec 5 k); simpl; [reflexivity | now rewrite andb_true_r].
Qed.

Lemma tdo_of_byte b :
  (if Z.land b MASK_TDO =? 0 then 0 else 1) = Z.b2z (Z.testbit b 6).
Proof.
  destruct (Z.testbit b 6) eqn:Hb; simpl.
  - destruct (Z.eqb_spec (Z.land b MASK_TDO) 0) as [Hz|]; [|reflexivity].
    apply (f_equal (fun z => Z.testbit z 6)) in Hz.
    revert Hz. bit_rewrite. rewrite Hb. discriminate.
  - destruct (Z.eqb_spec (Z.land b MASK_TDO) 0) as [|Hnz]; [reflexivity|].
    exfalso. apply Hnz. apply Z.bits_inj'; intros k Hk. bit_rewrite.
    rewrite Z.bits_0. destruct (Z.eqb_spec 6 k); subst; [now rewrite Hb|].
    apply andb_false_r.
Qed.

(** ** Running the monad *)

Ltac run_prims :=
  cbv beta iota delta
    [mbind M_bind mret M_ret when get_reg put_reg get_u put_u modify_u emit
     verbose_ge ftdi_init ftdi_usb_open ftdi_set_baudrate
     ftdi_set_latency_timer ftdi_set_bitmode ftdi_write_data ftdi_read_data
     gettimeofday usleep puts fprintf_stderr];
  cbn [w_env n_open n_rx n_clk bb_reg u trace fst snd].

Lemma bb_tms_eq val w :
  is_byte (bb_reg w) ->
  bb_tms val w =
  (tt, {| w_env := w_env w; n_open := n_open w; n_rx := n_rx w;
          n_clk := n_clk w; bb_reg := drive 7 val (bb_reg w); u := u w;
          trace := trace w |}).
Proof.
  intros Hr. unfold bb_tms, drive, MASK_TMS. run_prims.
  destruct (val =? 0); run_prims.
  - now rewrite clear_pin_byte by (auto; lia).
  - now rewrite set_pin_byte by (auto; lia).
Qed.

Lemma bb_tdi_eq val w :
  is_byte (bb_reg w) ->
  bb_tdi val w =
  (tt, {| w_env := w_env w; n_open := n_open w; n_rx := n_rx w;
          n_clk := n_clk w; bb_reg := drive 3 val (bb_reg w); u := u w;
          trace := trace w |}).
Proof.
  intros Hr. unfold bb_tdi, drive, MASK_TDI. run_prims.
  destruct (val =? 0); run_prims.
  - now rewrite clear_pin_byte by (auto; lia).
  - now rewrite set_pin_byte by (auto; lia).
Qed.

Lemma bb_pulse_tck_eq w :
  is_byte (bb_reg w) ->
  bb_pulse_tck w =
  (sampled_tdo (w_env w) (n_rx w),
   {| w_env := w_env w; n_open := n_open w; n_rx := (n_rx w + 3)%nat;
      n_clk := n_clk w; bb_reg := bb_reg w; u := u w;
      trace := trace w ++ pulse_events (w_env w) (bb_reg w) (n_rx w) |}).
Proof.
  intros Hr. unfold bb_pulse_tck, pulse_events, sampled_tdo. run_prims.
  cbn [fmap list_fmap seq lookup list_lookup default].
  rewrite tdo_of_byte, Nat.add_0_r, set_tck_byte by assumption.
  unfold MASK_TCK. rewrite clear_pin_byte by (auto; lia).
  now rewrite <- app_assoc.
Qed.

Lemma tck_loop_eq n w :
  is_byte (bb_reg w) ->
  tck_loop n w =
  (tt, {| w_env := w_env w; n_open := n_open w; n_rx := (n_rx w + 3 * n)%nat;
          n_clk := n_clk w; bb_reg := bb_reg w; u := u w;
          trace := trace w ++ pulse_train (w_env w) (bb_reg w) (n_rx w) n |}).
Proof.
  revert w. induction n as [|n IH]; intros w Hr.
  - cbn [tck_loop pulse_train]. run_prims.
    rewrite Nat.add_0_r, app_nil_r. now destruct w.
  - cbn [tck_loop pulse_train]. unfold mbind, M_bind.
    rewrite bb_pulse_tck_eq by assumption.
    rewrite IH by assumption. cbn [w_env n_open n_rx n_clk bb_reg u trace].
    rewrite <- app_assoc.
    replace (n_rx w + 3 + 3 * n)%nat with (n_rx w + 3 * S n)%nat by lia.
    reflexivity.
Qed.

(** ** The pulse protocol *)

(** C1. Whatever byte the pin register holds, one pulse queues exactly
    three bytes: the register with TCK forced low, the same with exactly
    the TCK bit set, and the TCK-low byte again; it reads three bytes back
    and returns the TDO bit (bit 6) of the third one, as 0 or 1.  The pin
    register itself is left as it was. *)
Theorem C1_pulse_three_phases (w : world) :
  is_byte (bb_reg w) ->
  let e := w_env w in
  let k := n_rx w in
  let b1 := Z.clearbit (bb_reg w) 5 in
  let b2 := Z.setbit b1 5 in
  let b3 := b1 in
  let '(tdo, w') := bb_pulse_tck w in
  trace w' = trace w ++
    [Ev_write [b1; b2; b3];
     Ev_read [dev_rx e k; dev_rx e (k + 1)%nat; dev_rx e (k + 2)%nat]] /\
  written_bytes (trace w') = written_bytes (trace w) ++ [b1; b2; b3] /\
  Z.testbit b1 5 = false /\ Z.testbit b2 5 = true /\
  (forall j, j <> 5 -> Z.testbit b2 j = Z.testbit b1 j) /\
  (forall j, j <> 5 -> Z.testbit b1 j = Z.testbit (bb_reg w) j) /\
  tdo = (if Z.testbit (dev_rx e (k + 2)%nat) 6 then 1 else 0) /\
  bb_reg w' = bb_reg w.
Proof.
  intros Hr. cbv zeta. rewrite bb_pulse_tck_eq by assumption.
  cbn [trace bb_reg]. unfold pulse_events, sampled_tdo.
  repeat split.
  - unfold written_bytes. rewrite !flat_map_app. cbn [flat_map].
    now rewrite !app_nil_r.
  - rewrite Z.clearbit_eqb, Z.eqb_refl. apply andb_false_r.
  - rewrite Z.setbit_eqb, Z.eqb_refl by lia. reflexivity.
  - intros j Hj. rewrite Z.setbit_eqb by lia.
    destruct (Z.eqb_spec 5 j); [congruence | reflexivity].
  - intros j Hj. rewrite Z.clearbit_eqb.
    destruct (Z.eqb_spec 5 j); [congruence | apply andb_true_r].
Qed.

(** ** Device identification *)

Lemma field_extract x lo width :
  0 <= lo -> 0 <= width ->
  Z.land (Z.shiftr x lo) (Z.ones width) = bitfield (lo + width - 1) lo x.
Proof.
  intros Hlo Hw. unfold bitfield.
  rewrite Z.shiftr_div_pow2, Z.land_ones by assumption.
  do 2 f_equal. lia.
Qed.

Lemma bitfield_testbit hi lo x (k : nat) :
  0 <= lo <= hi ->
  Z.testbit (bitfield hi lo x) (Z.of_nat k) =
  (Z.of_nat k <=? hi - lo) && Z.testbit x (lo + Z.of_nat k).
Proof.
  intros H. unfold bitfield.
  rewrite Z.testbit_mod_pow2, Z.div_pow2_bits by lia.
  rewrite (Z.add_comm lo). f_equal.
  destruct (Z.ltb_spec (Z.of_nat k) (hi - lo + 1)),
           (Z.leb_spec (Z.of_nat k) (hi - lo)); (reflexivity || lia).
Qed.

(** C9. Device-ID reporting prints, next to the identifier, its bits 31-28
    as the revision, bits 27-12 as the part and bits 11-1 as the
    manufacturer (bit [k] of each printed field is bit [lo + k] of the
    identifier, for [k] up to the width of the field, and no higher bit is
    set); 0x12345678 is reported as revision 0x1, part 0x2345,
    manufacturer 0x33C. *)
Theorem C9_report_device_fields (idcode : Z) (w : world) :
  (exists revision part manufactor,
     trace (h_report_device idcode w).2 =
       trace w ++ [Ev_report_device idcode revision part manufactor] /\
     revision = bitfield 31 28 idcode /\
     part = bitfield 27 12 idcode /\
     manufactor = bitfield 11 1 idcode /\
     forall k : nat,
       Z.testbit revision (Z.of_nat k) =
         (Z.of_nat k <=? 3) && Z.testbit idcode (28 + Z.of_nat k) /\
       Z.testbit part (Z.of_nat k) =
         (Z.of_nat k <=? 15) && Z.testbit idcode (12 + Z.of_nat k) /\
       Z.testbit manufactor (Z.of_nat k) =
         (Z.of_nat k <=? 10) && Z.testbit idcode (1 + Z.of_nat k)) /\
  trace (h_report_device 0x12345678 w).2 =
    trace w ++ [Ev_report_device 0x12345678 0x1 0x2345 0x33C].
Proof.
  split; [|reflexivity].
  exists (bitfield 31 28 idcode), (bitfield 27 12 idcode), (bitfield 11 1 idcode).
  split.
  - unfold h_report_device. run_prims.
    change 0xf with (Z.ones 4). change 0xffff with (Z.ones 16).
    change 0x7ff with (Z.ones 11).
    now rewrite !field_extract by lia.
  - do 3 (split; [reflexivity|]). intros k.
    rewrite !bitfield_testbit by lia. auto.
Qed.

(** ** Setup without a device *)

Lemma h_setup_returns_0 w : (h_setup w).1 = 0.
Proof.
  unfold h_setup, bb_setup. run_prims.
  destruct (2 <=? verbose (u w)); run_prims;
    destruct (dev_present _ _); reflexivity.
Qed.

(** C3, as stated, fails: with no device attached the setup callback
    still reports success to the engine. *)
Lemma C3_setup_does_not_fail :
  let w := world_init env_no_device in
  dev_present (w_env w) (n_open w) = false /\
  (h_setup w).1 = 0 /\
  ~ setup_failed (h_setup w).1.
Proof.
  cbv zeta. rewrite h_setup_returns_0. unfold setup_failed.
  repeat split. lia.
Qed.

(** C3, amended. When no matching device is present, setup prints the
    diagnostic "Can't open device" and stops there: no baud rate, latency
    or bit mode is configured, the pin register and the session state are
    left as they were.  The setup callback nevertheless returns 0, the
    value it returns in every other state too, so the failure is not
    signalled to the engine; a clocked-bit exchange requested afterwards
    still queues its three bytes. *)
Theorem C3_setup_without_device (w : world) :
  dev_present (w_env w) (n_open w) = false ->
  let w1 := (h_setup w).2 in
  (h_setup w).1 = 0 /\
  (forall w0 : world, (h_setup w0).1 = (h_setup w).1) /\
  trace w1 = trace w ++ diag_if (2 <=? verbose (u w)) D_setup ++
             [Ev_ftdi_init; Ev_usb_open 0x0403 0x6001 false;
              Ev_puts "Can't open device"] /\
  bb_reg w1 = bb_reg w /\ u w1 = u w /\
  forall tms tdi tdo rmask sync,
    length (written_bytes (trace (h_pulse_tck tms tdi tdo rmask sync w1).2)) =
    (length (written_bytes (trace w1)) + 3)%nat.
Proof.
  intros Habs. cbv zeta. split; [apply h_setup_returns_0|].
  split; [intros w0; now rewrite !h_setup_returns_0|].
  assert (Hw1 : (h_setup w).2 =
    {| w_env := w_env w; n_open := S (n_open w); n_rx := n_rx w;
       n_clk := n_clk w; bb_reg := bb_reg w; u := u w;
       trace := trace w ++ diag_if (2 <=? verbose (u w)) D_setup ++
                [Ev_ftdi_init; Ev_usb_open 0x0403 0x6001 false;
                 Ev_puts "Can't open device"] |}).
  { unfold h_setup, bb_setup, diag_if. run_prims.
    destruct (2 <=? verbose (u w)); run_prims; rewrite Habs;
      cbn [Z.ltb Z.compare]; run_prims; rewrite <- ?app_assoc; reflexivity. }
  rewrite Hw1. cbn [trace bb_reg u]. repeat split.
  intros tms tdi tdo rmask sync.
  unfold h_pulse_tck, bb_tms, bb_tdi, bb_pulse_tck, written_bytes. run_prims.
  repeat match goal with
    | |- context [if ?c then _ else _] => destruct c; run_prims
    end;
    rewrite ?flat_map_app, ?length_app; cbn [flat_map length app]; lia.
Qed.

(** ** Hex rendering of the captured bits *)

Lemma hex_inner_four mode x i b0 b1 b2 b3 :
  retval_read x (hex_index mode x i) = Some b0 ->
  retval_read x (hex_index mode x (i + 1)) = Some b1 ->
  retval_read x (hex_index mode x (i + 2)) = Some b2 ->
  retval_read x (hex_index mode x (i + 3)) = Some b3 ->
  is_bit b0 -> is_bit b1 -> is_bit b2 -> is_bit b3 ->
  hex_inner 4 mode x i i 0 = Some (8 * b0 + 4 * b1 + 2 * b2 + b3).
Proof.
  intros R0 R1 R2 R3 B0 B1 B2 B3. cbn [hex_inner].
  replace (i + 1 + 1) with (i + 2) by lia.
  replace (i + 2 + 1) with (i + 3) by lia.
  rewrite !(proj2 (Z.ltb_lt _ (i + 4))) by lia.
  rewrite R0; cbn [mbind option_bind]. rewrite R1; cbn [mbind option_bind].
  rewrite R2; cbn [mbind option_bind]. rewrite R3; cbn [mbind option_bind].
  destruct B0 as [-> | ->], B1 as [-> | ->], B2 as [-> | ->], B3 as [-> | ->];
    reflexivity.
Qed.

Section HexOuter.
Variables (mode : Z) (x : udata_s) (l : list Z).
Hypothesis Hfill :
  Z.of_nat (length l) - 4 < retval_i x <= Z.of_nat (length l).
Hypothesis Hread : forall (j : nat) b,
  l !! j = Some b -> retval_read x (hex_index mode x (Z.of_nat j)) = Some b.
Hypothesis Hbits : Forall is_bit l.

Lemma hex_read_at (done rest : list Z) (t : nat) b :
  l = done ++ rest -> rest !! t = Some b ->
  retval_read x (hex_index mode x (Z.of_nat (length done) + Z.of_nat t)) = Some b
  /\ is_bit b.
Proof using Hread Hbits.
  intros Hl Ht. split.
  - rewrite <- Nat2Z.inj_add. apply Hread. rewrite Hl.
    rewrite lookup_app_r by lia.
    now replace (length done + t - length done)%nat with t by lia.
  - rewrite Forall_forall in Hbits. apply Hbits. rewrite Hl.
    apply list_elem_of_lookup. exists (length done + t)%nat.
    rewrite lookup_app_r by lia.
    now replace (length done + t - length done)%nat with t by lia.
Qed.

Lemma hex_outer_pack fuel : forall done rest,
  l = done ++ rest ->
  (exists m, length rest = 4 * m)%nat ->
  (length rest <= 4 * fuel)%nat ->
  hex_outer fuel mode x (Z.of_nat (length done)) = Some (pack_be rest).
Proof using Hfill Hread Hbits.
  induction fuel as [|k IH]; intros done rest Hl [m Hm] Hfuel.
  - destruct rest; [reflexivity | simpl in Hfuel; lia].
  - cbn [hex_outer].
    destruct rest as [|b0 [|b1 [|b2 [|b3 rest']]]]; cbn [length] in Hm; try lia.
    + assert (Hlen : length l = length done)
        by (rewrite Hl, app_nil_r; reflexivity).
      now rewrite (proj2 (Z.ltb_ge _ _)) by lia.
    + assert (Hlen : length l = (length done + (4 + length rest'))%nat)
        by (rewrite Hl, length_app; reflexivity).
      rewrite (proj2 (Z.ltb_lt _ _)) by lia.
      destruct (hex_read_at done _ 0 b0 Hl eq_refl) as [R0 B0].
      destruct (hex_read_at done _ 1 b1 Hl eq_refl) as [R1 B1].
      destruct (hex_read_at done _ 2 b2 Hl eq_refl) as [R2 B2].
      destruct (hex_read_at done _ 3 b3 Hl eq_refl) as [R3 B3].
      rewrite Z.add_0_r in R0.
      rewrite (hex_inner_four _ _ _ b0 b1 b2 b3) by assumption.
      cbn [mbind option_bind].
      replace (Z.of_nat (length done) + 4)
        with (Z.of_nat (length (done ++ [b0; b1; b2; b3])))
        by (rewrite length_app; cbn [length]; lia).
      rewrite (IH (done ++ [b0; b1; b2; b3]) rest').
      * reflexivity.
      * now rewrite <- app_assoc.
      * exists (m - 1)%nat. lia.
      * cbn [length] in Hfuel. lia.
Qed.
End HexOuter.

Lemma retval_read_capture x (j : nat) b :
  capture_wf x -> capture_seq x !! j = Some b ->
  retval_read x (Z.of_nat j) = Some b.
Proof.
  intros [Hlen Hi] Hj. unfold capture_seq in Hj.
  rewrite lookup_take in Hj. case_decide; [|discriminate].
  unfold retval_read. rewrite Nat2Z.id.
  destruct (Z.leb_spec 0 (Z.of_nat j)); [|lia].
  destruct (Z.ltb_spec (Z.of_nat j) 256); [exact Hj | lia].
Qed.

Lemma capture_seq_length x :
  capture_wf x -> Z.of_nat (length (capture_seq x)) = retval_i x.
Proof.
  intros [Hlen Hi]. unfold capture_seq. rewrite length_take. lia.
Qed.

Lemma hex_big_endian x :
  capture_wf x -> retval_i x mod 4 = 0 -> Forall is_bit (capture_seq x) ->
  hex_outer (Z.to_nat (retval_i x)) 2 x 0 = Some (pack_be (capture_seq x)).
Proof.
  intros Hwf Hm Hb. pose proof (capture_seq_length x Hwf) as Hlen.
  apply (hex_outer_pack 2 x (capture_seq x)) with (done := []); auto; try lia.
  - intros j b Hj. now apply retval_read_capture.
  - exists (Z.to_nat (retval_i x / 4)).
    apply Z.div_exact in Hm; lia.
Qed.

Lemma hex_little_endian x :
  capture_wf x -> retval_i x mod 4 = 0 -> Forall is_bit (capture_seq x) ->
  hex_outer (Z.to_nat (retval_i x)) 1 x 0 =
  Some (pack_be (reverse (capture_seq x))).
Proof.
  intros Hwf Hm Hb. pose proof (capture_seq_length x Hwf) as Hlen.
  apply (hex_outer_pack 1 x (reverse (capture_seq x))) with (done := []);
    rewrite ?length_reverse; auto; try lia.
  - intros j b Hj.
    assert (Hlt : (j < length (capture_seq x))%nat)
      by (apply lookup_lt_Some in Hj; now rewrite length_reverse in Hj).
    rewrite reverse_lookup in Hj by assumption.
    apply retval_read_capture in Hj; [|assumption].
    destruct Hwf as [_ Hi].
    unfold hex_index. cbn [Z.ltb Z.compare Pos.compare Pos.compare_cont].
    rewrite (wrap_int_small (retval_i x - Z.of_nat j))
      by (unfold INT_MIN, INT_MAX; lia).
    rewrite wrap_int_small by (unfold INT_MIN, INT_MAX; lia).
    rewrite <- Hj. f_equal. lia.
  - now apply Forall_reverse.
  - exists (Z.to_nat (retval_i x / 4)).
    apply Z.div_exact in Hm; lia.
Qed.

(** C2, as stated, fails: for the single group 1,0,0,0 the two modes print
    the nibbles the other way round, and with two groups -L prints the
    later group first. *)
Lemma C2_single_group_swapped :
  print_retval 1 (captured [1; 0; 0; 0]) = Some [Out_0x; Out_hex 1; Out_newline] /\
  print_retval 2 (captured [1; 0; 0; 0]) = Some [Out_0x; Out_hex 8; Out_newline] /\
  print_retval 1 (captured [1; 0; 0; 0; 0; 0; 0; 0]) =
    Some [Out_0x; Out_hex 0; Out_hex 1; Out_newline] /\
  ~ (print_retval 1 (captured [1; 0; 0; 0]) = Some [Out_0x; Out_hex 8; Out_newline] /\
     print_retval 2 (captured [1; 0; 0; 0]) = Some [Out_0x; Out_hex 1; Out_newline]).
Proof.
  repeat split. intros [H _]. vm_compute in H. discriminate H.
Qed.

(** C2, amended. For the single group 1,0,0,0, -L prints the nibble 0x1
    and -B prints 0x8.  In general, when the number of captured bits is a
    multiple of 4, -B packs the bits four at a time in capture order, the
    first bit of a group in the high-order place, and -L prints what -B
    prints for the captured sequence reversed as a whole: the last
    captured bit is the high-order bit of the first nibble, so the groups
    come out in reverse capture order. *)
Theorem C2_hex_rendering :
  (print_retval 1 (captured [1; 0; 0; 0]) = Some [Out_0x; Out_hex 1; Out_newline] /\
   print_retval 2 (captured [1; 0; 0; 0]) = Some [Out_0x; Out_hex 8; Out_newline]) /\
  forall x : udata_s,
    capture_wf x -> 0 < retval_i x -> retval_i x mod 4 = 0 ->
    Forall is_bit (capture_seq x) ->
    print_retval 2 x =
      Some ([Out_0x] ++ (Out_hex <$> pack_be (capture_seq x)) ++ [Out_newline]) /\
    print_retval 1 x =
      Some ([Out_0x] ++ (Out_hex <$> pack_be (reverse (capture_seq x))) ++
            [Out_newline]).
Proof.
  split; [split; reflexivity|].
  intros x Hwf Hpos Hm Hb. unfold print_retval.
  rewrite (proj2 (Z.eqb_neq _ 0)) by lia. cbn [Z.eqb].
  rewrite hex_big_endian, hex_little_endian by assumption.
  split; reflexivity.
Qed.

Lemma pack_be_length (l : list Z) : forall m : nat,
  length l = (4 * m)%nat -> length (pack_be l) = m.
Proof.
  induction l as [l IH] using (induction_ltof1 _ (@length Z)).
  unfold ltof in IH. intros m Hm.
  destruct l as [|b0 [|b1 [|b2 [|b3 rest]]]]; cbn [length] in Hm; try lia.
  - cbn [pack_be length]. lia.
  - cbn [pack_be length]. rewrite (IH rest) with (m := (m - 1)%nat).
    + lia.
    + cbn [length]. lia.
    + lia.
Qed.

Lemma capture_clean_split x :
  capture_wf x -> capture_clean x ->
  retval x = capture_seq x ++ replicate (256 - Z.to_nat (retval_i x))%nat 0.
Proof.
  intros _ Hc. unfold capture_seq. rewrite <- Hc. symmetry. apply take_drop.
Qed.

(** C7, as stated, fails: with five captured bits, -B prints two nibbles,
    the second one for the partial group, and reads the cells 5, 6 and 7,
    which were never captured; -L reads the subscripts -1, -2 and -3,
    which are outside the array. *)
Lemma C7_partial_group_not_ignored :
  let x := captured [1; 1; 1; 1; 1] in
  print_retval 2 x = Some [Out_0x; Out_hex 15; Out_hex 8; Out_newline] /\
  print_retval 2 x <> Some [Out_0x; Out_hex 15; Out_newline] /\
  hex_index 2 x <$> [4; 5; 6; 7] = [4; 5; 6; 7] /\
  hex_index 1 x <$> [4; 5; 6; 7] = [0; -1; -2; -3] /\
  retval_read x (-1) = None /\
  print_retval 1 x = None.
Proof.
  cbv zeta. split; [reflexivity|]. split; [discriminate|].
  repeat split.
Qed.

(** C7, amended. -B renders every group, the trailing partial one too: for
    n captured bits it prints ceil(n/4) nibbles, packing the captured bits
    followed by as many zero bits as it takes to fill the last group; the
    zeros are the cells of the capture array past the fill level, so every
    read stays inside the array. *)
Theorem C7_big_endian_pads_partial_group (x : udata_s) :
  capture_wf x -> capture_clean x -> Forall is_bit (capture_seq x) ->
  0 < retval_i x ->
  let pad := Z.to_nat ((- retval_i x) mod 4) in
  let nibbles := pack_be (capture_seq x ++ replicate pad 0) in
  print_retval 2 x = Some ([Out_0x] ++ (Out_hex <$> nibbles) ++ [Out_newline]) /\
  Z.of_nat (length nibbles) = (retval_i x + 3) / 4.
Proof.
  intros Hwf Hclean Hbits Hpos pad nibbles.
  pose proof (capture_seq_length x Hwf) as Hlen.
  pose proof (capture_clean_split x Hwf Hclean) as Hsplit.
  destruct Hwf as [Hcells Hi].
  assert (Hpad : 0 <= (- retval_i x) mod 4 < 4) by (apply Z.mod_pos_bound; lia).
  assert (Hfull : (retval_i x + (- retval_i x) mod 4) mod 4 = 0).
  { rewrite Zplus_mod_idemp_r. now replace (retval_i x + - retval_i x) with 0 by lia. }
  assert (Hroom : retval_i x + (- retval_i x) mod 4 <= 256)
    by (revert Hfull; Z.div_mod_to_equations; lia).
  set (l := capture_seq x ++ replicate pad 0).
  assert (Hl : Z.of_nat (length l) = retval_i x + (- retval_i x) mod 4)
    by (unfold l, pad; rewrite length_app, length_replicate; lia).
  assert (Hgroups : exists m, length l = (4 * m)%nat).
  { exists (Z.to_nat ((retval_i x + (- retval_i x) mod 4) / 4)).
    apply Z.div_exact in Hfull; lia. }
  assert (Hprefix : exists tail, retval x = l ++ tail).
  { exists (replicate (256 - Z.to_nat (retval_i x) - pad)%nat 0).
    unfold l. rewrite <- app_assoc, <- replicate_add, Hsplit at 1.
    do 2 f_equal. unfold pad. lia. }
  destruct Hprefix as [tail Htail].
  assert (Hloop : hex_outer (Z.to_nat (retval_i x)) 2 x 0 = Some (pack_be l)).
  { apply (hex_outer_pack 2 x l) with (done := []); auto; try lia.
    - intros j b Hj. unfold hex_index, retval_read.
      cbn [Z.ltb Z.compare Pos.compare Pos.compare_cont].
      pose proof (lookup_lt_Some _ _ _ Hj) as Hlt.
      rewrite (proj2 (Z.leb_le 0 (Z.of_nat j))), (proj2 (Z.ltb_lt (Z.of_nat j) 256))
        by lia.
      cbn [andb]. rewrite Nat2Z.id, Htail, lookup_app_l by assumption. exact Hj.
    - unfold l. apply Forall_app. split; [exact Hbits|].
      apply Forall_replicate. now left. }
  split.
  - unfold print_retval. rewrite (proj2 (Z.eqb_neq _ 0)) by lia.
    cbn [Z.eqb]. now rewrite Hloop.
  - destruct Hgroups as [m Hm]. subst nibbles. fold l.
    rewrite (pack_be_length l m Hm).
    revert Hl. rewrite Hm. Z.div_mod_to_equations; lia.
Qed.

(** ** The delay routine *)

Lemma h_udelay_eq d tms n w :
  is_byte (bb_reg w) ->
  h_udelay d tms n w =
  (tt,
   let e := w_env w in
   let tv1 := wall_clock e (n_clk w) in
   let tv2 := wall_clock e (S (n_clk w)) in
   let v := 3 <=? verbose (u w) in
   if 0 <? n then
     let r := code_residual d tv1 tv2 in
     {| w_env := e; n_open := n_open w;
        n_rx := (n_rx w + 3 * Z.to_nat n)%nat; n_clk := S (S (n_clk w));
        bb_reg := drive 7 tms (bb_reg w); u := u w;
        trace := trace w ++ diag_if v (D_delay d tms n) ++
                 [Ev_gettimeofday tv1] ++
                 pulse_train e (drive 7 tms (bb_reg w)) (n_rx w) (Z.to_nat n) ++
                 [Ev_gettimeofday tv2] ++
                 diag_if v (D_delay_after_tck (Z.max 0 r)) ++
                 sleep_call (Z.max 0 r) |}
   else
     {| w_env := e; n_open := n_open w; n_rx := n_rx w; n_clk := n_clk w;
        bb_reg := bb_reg w; u := u w;
        trace := trace w ++ diag_if v (D_delay d tms n) ++
                 sleep_call (Z.max 0 d) |}).
Proof.
  intros Hr. cbv zeta. unfold h_udelay. run_prims.
  destruct (3 <=? verbose (u w)) eqn:Hv; destruct (0 <? n); run_prims;
    try (rewrite bb_tms_eq by exact Hr; run_prims;
         rewrite tck_loop_eq by (now apply drive_byte); run_prims;
         unfold code_residual; destruct (tv_sec _ <? tv_sec _); run_prims;
         rewrite Hv; run_prims);
    match goal with
    | |- context [0 <? ?z] => destruct (Z.ltb_spec 0 z)
    end;
    run_prims; unfold diag_if, sleep_call;
    rewrite ?Z.max_r by lia; rewrite ?Z.max_l by lia;
    match goal with
    | |- context [?z =? 0] => destruct (Z.eqb_spec z 0); try lia
    end;
    rewrite <- ?app_assoc, ?app_nil_r; cbn [app]; try reflexivity;
    destruct w; reflexivity.
Qed.




(** C10. The delay routine leaves the whole session state untouched: the
    clock-pulse counter, the driven-TDI and compared-TDO counters, the
    capture buffer and its fill level.  Of the pin register it changes
    nothing when the pulse count is not positive, and otherwise only
    drives TMS to the requested level. *)
Theorem C10_delay_frame (d tms n : Z) (w : world) :
  is_byte (bb_reg w) ->
  let w' := (h_udelay d tms n w).2 in
  u w' = u w /\
  clockcount (u w') = clockcount (u w) /\
  bitcount_tdi (u w') = bitcount_tdi (u w) /\
  bitcount_tdo (u w') = bitcount_tdo (u w) /\
  retval_i (u w') = retval_i (u w) /\
  retval (u w') = retval (u w) /\
  bb_reg w' = (if 0 <? n then drive 7 tms (bb_reg w) else bb_reg w) /\
  forall j, j <> 7 -> Z.testbit (bb_reg w') j = Z.testbit (bb_reg w) j.
Proof.
  intros Hr w'. subst w'. rewrite h_udelay_eq by assumption.
  cbv zeta. cbn [snd].
  destruct (0 <? n); cbn [u bb_reg]; repeat split.
  intros j Hj. unfold drive.
  destruct (tms =? 0).
  - rewrite Z.clearbit_eqb. destruct (Z.eqb_spec 7 j); [congruence|].
    apply andb_true_r.
  - rewrite Z.setbit_eqb by lia. destruct (Z.eqb_spec 7 j); [congruence|].
    reflexivity.
Qed.

(** ** The clocked-bit exchange *)

Lemma sampled_tdo_bit e k : is_bit (sampled_tdo e k).
Proof. unfold sampled_tdo, is_bit. destruct (Z.testbit _ 6); auto. Qed.

Lemma sampled_tdo_nonneg e k : (0 <=? sampled_tdo e k) = true.
Proof. destruct (sampled_tdo_bit e k) as [-> | ->]; reflexivity. Qed.

Lemma h_pulse_tck_eq tms tdi tdo rmask sync w :
  is_byte (bb_reg w) ->
  let e := w_env w in
  let reg := exchange_reg tms tdi (bb_reg w) in
  let line := sampled_tdo e (n_rx w) in
  let rc := exchange_rc tdo line in
  h_pulse_tck tms tdi tdo rmask sync w =
  (rc,
   {| w_env := e; n_open := n_open w; n_rx := (n_rx w + 3)%nat;
      n_clk := n_clk w; bb_reg := reg;
      u := exchange_udata tdi tdo rmask line (u w);
      trace := trace w ++ pulse_events e reg (n_rx w) ++
               diag_if (4 <=? verbose (u w))
                 (D_pulse tms tdi tdo line rmask rc) |}).
Proof.
  intros Hr. cbv zeta.
  unfold h_pulse_tck, exchange_reg, exchange_udata, exchange_rc. run_prims.
  rewrite bb_tms_eq by exact Hr. run_prims.
  assert (Hr7 : is_byte (drive 7 tms (bb_reg w))) by (apply drive_byte; auto; lia).
  destruct (0 <=? tdi); run_prims;
    [rewrite bb_tdi_eq by exact Hr7; run_prims;
     rewrite bb_pulse_tck_eq by (apply drive_byte; auto; lia)
    |rewrite bb_pulse_tck_eq by exact Hr7];
    run_prims; rewrite sampled_tdo_nonneg;
    destruct (rmask =? 1); cbn [andb];
    try destruct (retval_i _ <? 256); run_prims;
    destruct (0 <=? tdo); cbn [andb]; run_prims;
    try destruct (tdo =? _); cbn [negb];
    destruct (4 <=? verbose (u w)) eqn:Hv;
    cbn [verbose set_clockcount set_bitcount_tdi set_bitcount_tdo push_retval];
    rewrite ?Hv; run_prims; unfold diag_if;
    rewrite <- ?app_assoc, ?app_nil_r; reflexivity.
Qed.

(** C5. One clocked-bit exchange always drives TMS to the requested
    level.  With [tdi >= 0] it counts one more driven bit and drives TDI,
    otherwise it leaves both that counter and the TDI pin alone.  The
    sampled bit is always 0 or 1; with [tdo >= 0] the exchange counts one
    more compared bit and returns -1 when the sampled bit differs from
    [tdo] and the sampled bit when they agree; with [tdo < 0] it leaves
    the counter alone and returns the sampled bit.  A mismatch does not
    cut the call short: the pulse has been issued and the clock counter is
    incremented all the same.  (Counters are taken below [INT_MAX].) *)
Theorem C5_clocked_bit_exchange (tms tdi tdo rmask sync : Z) (w : world) :
  is_byte (bb_reg w) ->
  can_incr (bitcount_tdi (u w)) -> can_incr (bitcount_tdo (u w)) ->
  can_incr (clockcount (u w)) ->
  let line := sampled_tdo (w_env w) (n_rx w) in
  let rc := (h_pulse_tck tms tdi tdo rmask sync w).1 in
  let w' := (h_pulse_tck tms tdi tdo rmask sync w).2 in
  Z.testbit (bb_reg w') 7 = negb (tms =? 0) /\
  (0 <= tdi ->
     bitcount_tdi (u w') = bitcount_tdi (u w) + 1 /\
     Z.testbit (bb_reg w') 3 = negb (tdi =? 0)) /\
  (tdi < 0 ->
     bitcount_tdi (u w') = bitcount_tdi (u w) /\
     Z.testbit (bb_reg w') 3 = Z.testbit (bb_reg w) 3) /\
  (line = 0 \/ line = 1) /\
  (0 <= tdo ->
     bitcount_tdo (u w') = bitcount_tdo (u w) + 1 /\
     (tdo <> line -> rc = -1) /\ (tdo = line -> rc = line)) /\
  (tdo < 0 -> bitcount_tdo (u w') = bitcount_tdo (u w) /\ rc = line) /\
  clockcount (u w') = clockcount (u w) + 1 /\
  length (written_bytes (trace w')) = (length (written_bytes (trace w)) + 3)%nat.
Proof.
  intros Hr Hi Ho Hc line rc w'. subst rc w'.
  rewrite h_pulse_tck_eq by assumption. cbv zeta. cbn [fst snd bb_reg u trace].
  fold line. unfold can_incr, INT_MIN, INT_MAX in *.
  assert (W : forall c, -2147483648 <= c < 2147483647 -> wrap_int (c + 1) = c + 1)
    by (intros c Hcr; apply wrap_int_small; unfold INT_MIN, INT_MAX; lia).
  assert (H7 : forall r, Z.testbit (drive 7 tms r) 7 = negb (tms =? 0))
    by (intros r; bit_rewrite; destruct (tms =? 0);
        [rewrite Z.clearbit_eqb; apply andb_false_r
        |rewrite Z.setbit_eqb by lia; reflexivity]).
  assert (H37 : forall v r, Z.testbit (drive 3 v r) 7 = Z.testbit r 7)
    by (intros v r; unfold drive; destruct (v =? 0);
        [rewrite Z.clearbit_eqb; apply andb_true_r
        |rewrite Z.setbit_eqb by lia; reflexivity]).
  assert (H73 : forall v r, Z.testbit (drive 7 v r) 3 = Z.testbit r 3)
    by (intros v r; unfold drive; destruct (v =? 0);
        [rewrite Z.clearbit_eqb; apply andb_true_r
        |rewrite Z.setbit_eqb by lia; reflexivity]).
  assert (H3 : forall r, Z.testbit (drive 3 tdi r) 3 = negb (tdi =? 0))
    by (intros r; unfold drive; destruct (tdi =? 0);
        [rewrite Z.clearbit_eqb; apply andb_false_r
        |rewrite Z.setbit_eqb by lia; reflexivity]).
  unfold exchange_reg, exchange_udata, exchange_rc.
  repeat apply conj.
  - destruct (0 <=? tdi); [rewrite H37|]; apply H7.
  - intros Hd. rewrite (proj2 (Z.leb_le 0 tdi)) by assumption.
    split; [|apply H3].
    destruct (_ && _), (0 <=? tdo);
      cbn [bitcount_tdi set_clockcount set_bitcount_tdo set_bitcount_tdi push_retval];
      now apply W.
  - intros Hd. rewrite (proj2 (Z.leb_gt 0 tdi)) by assumption.
    split; [|apply H73].
    destruct (_ && _), (0 <=? tdo); reflexivity.
  - apply sampled_tdo_bit.
  - intros Hd. rewrite (proj2 (Z.leb_le 0 tdo)) by assumption.
    cbn [andb]. repeat apply conj.
    + destruct (0 <=? tdi), (_ && _);
        cbn [bitcount_tdo set_clockcount set_bitcount_tdo set_bitcount_tdi push_retval];
        now apply W.
    + intros Hne. now rewrite (proj2 (Z.eqb_neq tdo line)) by assumption.
    + intros ->. now rewrite Z.eqb_refl.
  - intros Hd. rewrite (proj2 (Z.leb_gt 0 tdo)) by assumption.
    split; [|reflexivity].
    destruct (0 <=? tdi), (_ && _); reflexivity.
  - destruct (0 <=? tdi), (_ && _), (0 <=? tdo);
      cbn [clockcount set_clockcount set_bitcount_tdo set_bitcount_tdi push_retval];
      now apply W.
  - unfold written_bytes, pulse_events, diag_if. rewrite !flat_map_app.
    destruct (4 <=? verbose (u w)); cbn [flat_map app]; rewrite !length_app;
      cbn [length]; lia.
Qed.

(** ** The capture buffer *)

Lemma take_take_app {A} (n : nat) (l k : list A) :
  take n (take n l ++ k) = take n (l ++ k).
Proof.
  destruct (Nat.le_gt_cases (length l) n) as [Hle | Hgt].
  - now rewrite (take_ge l n) by assumption.
  - rewrite take_app_le by (rewrite length_take; lia).
    rewrite take_take, Nat.min_id. now rewrite take_app_le by lia.
Qed.

Lemma exchange_capture tdi tdo line x :
  capture_wf x ->
  let x' := exchange_udata tdi tdo 1 line x in
  capture_wf x' /\
  capture_seq x' = take 256 (capture_seq x ++ [line]) /\
  retval_i x' = Z.min 256 (retval_i x + 1).
Proof.
  intros [Hlen Hi]. cbv zeta. unfold exchange_udata, capture_wf, capture_seq.
  cbn [Z.eqb Pos.eqb andb].
  assert (Hsame : retval_i (if 0 <=? tdi
            then set_bitcount_tdi (wrap_int (bitcount_tdi x + 1)) x else x) =
            retval_i x) by (destruct (0 <=? tdi); reflexivity).
  rewrite Hsame. clear Hsame.
  destruct (Z.ltb_spec (retval_i x) 256) as [Hlt | Hge].
  - assert (Hw : wrap_int (retval_i x + 1) = retval_i x + 1)
      by (apply wrap_int_small; unfold INT_MIN, INT_MAX; lia).
    assert (Hcap :
      take (Z.to_nat (retval_i x + 1))
           (<[Z.to_nat (retval_i x) := line]> (retval x)) =
      take (Z.to_nat (retval_i x)) (retval x) ++ [line]).
    { replace (Z.to_nat (retval_i x + 1)) with (S (Z.to_nat (retval_i x))) by lia.
      rewrite (take_S_r _ _ line) by (apply list_lookup_insert_eq; lia).
      now rewrite take_insert_ge by lia. }
    destruct (0 <=? tdi), (0 <=? tdo);
      cbn [retval retval_i set_clockcount set_bitcount_tdo set_bitcount_tdi
           push_retval];
      rewrite Hw, (proj2 (Z.leb_le 0 (retval_i x))), Hcap, length_insert by lia;
      (repeat apply conj; try lia;
       rewrite (take_ge _ 256) by (rewrite length_app, length_take; cbn [length]; lia);
       reflexivity).
  - assert (Hfull : retval_i x = 256) by lia.
    destruct (0 <=? tdi), (0 <=? tdo);
      cbn [retval retval_i set_clockcount set_bitcount_tdo set_bitcount_tdi];
      (repeat apply conj; try lia;
       rewrite take_app_le by (rewrite length_take; lia);
       rewrite take_take; f_equal; lia).
Qed.

Lemma exchange_reg_byte tms tdi r : is_byte r -> is_byte (exchange_reg tms tdi r).
Proof.
  intros Hr. unfold exchange_reg.
  destruct (0 <=? tdi); repeat apply drive_byte; auto; lia.
Qed.

Lemma run_capture_requests args : forall w,
  is_byte (bb_reg w) -> capture_wf (u w) ->
  let sampled := sampled_bits (w_env w) (n_rx w) (length args) in
  let r := run_calls (capture_request <$> args) w in
  capture_wf (u r.2) /\
  capture_seq (u r.2) = take 256 (capture_seq (u w) ++ sampled) /\
  retval_i (u r.2) = Z.min 256 (retval_i (u w) + Z.of_nat (length args)) /\
  r.1 = zip_with (fun a line => exchange_rc (expected_tdo a) line) args sampled.
Proof.
  induction args as [|[[[tms tdi] tdo] sync] args IH]; intros w Hr Hwf; cbv zeta.
  - cbn [fmap list_fmap run_calls length sampled_bits zip_with]. run_prims.
    rewrite app_nil_r. unfold capture_seq at 2.
    rewrite take_take. destruct Hwf as [Hlen Hi].
    split; [split; assumption|]. repeat apply conj; auto; try lia.
    unfold capture_seq. f_equal. lia.
  - cbn [fmap list_fmap run_calls length sampled_bits zip_with capture_request
         dispatch expected_tdo].
    unfold mbind, M_bind.
    rewrite h_pulse_tck_eq by assumption. cbv beta iota zeta.
    destruct (exchange_capture tdi tdo (sampled_tdo (w_env w) (n_rx w)) (u w) Hwf)
      as (Hwf1 & Hseq1 & Hi1).
    match goal with
    | |- context [run_calls _ ?w1] =>
        specialize (IH w1); cbn [bb_reg u w_env n_rx] in IH;
        specialize (IH (exchange_reg_byte _ _ _ Hr) Hwf1);
        cbv zeta in IH; destruct IH as (IHwf & IHseq & IHi & IHrc);
        destruct (run_calls _ w1) as [rs w2]
    end.
    cbn [fst snd] in *. run_prims.
    split; [exact IHwf|]. repeat apply conj.
    + rewrite IHseq, Hseq1, take_take_app, <- app_assoc. reflexivity.
    + rewrite IHi, Hi1. destruct Hwf as [_ Hi]. lia.
    + now rewrite IHrc.
Qed.

(** C6. Starting from any state of the capture buffer (256 cells, fill
    level between 0 and 256), after any sequence of exchanges that ask for
    capture the fill level is the old one plus the number of requests,
    capped at 256; the captured sequence is the old one followed by the
    sampled bits in order, cut after the first 256; and every exchange
    returns what the expected and the sampled bit alone determine, whether
    or not its bit found room. *)
Theorem C6_capture_bounded (args : list (Z * Z * Z * Z)) (w : world) :
  is_byte (bb_reg w) -> capture_wf (u w) ->
  let sampled := sampled_bits (w_env w) (n_rx w) (length args) in
  let rcs := (run_calls (capture_request <$> args) w).1 in
  let w' := (run_calls (capture_request <$> args) w).2 in
  retval_i (u w') <= 256 /\
  length (capture_seq (u w')) = Z.to_nat (retval_i (u w')) /\
  retval_i (u w') = Z.min 256 (retval_i (u w) + Z.of_nat (length args)) /\
  capture_seq (u w') = take 256 (capture_seq (u w) ++ sampled) /\
  rcs = zip_with (fun a line => exchange_rc (expected_tdo a) line) args sampled.
Proof.
  intros Hr Hwf sampled rcs w'. subst sampled rcs w'.
  destruct (run_capture_requests args w Hr Hwf) as (Hwf' & Hseq & Hi & Hrc).
  pose proof (capture_seq_length _ Hwf') as Hlen.
  destruct Hwf' as [_ Hb].
  repeat apply conj; auto; lia.
Qed.

(** ** Only output pins are ever written *)

Lemma only_pins_0 : only_pins 0.
Proof. intros k _. rewrite Z.bits_0. discriminate. Qed.

Lemma only_pins_clearbit r n : only_pins r -> only_pins (Z.clearbit r n).
Proof.
  intros H k Hk. rewrite Z.clearbit_eqb. intros [Hb _]%andb_true_iff. auto.
Qed.

Lemma only_pins_setbit r n :
  n = 3 \/ n = 5 \/ n = 7 -> only_pins r -> only_pins (Z.setbit r n).
Proof.
  intros Hn H k Hk. rewrite Z.setbit_eqb by lia.
  intros [Heq | Hb]%orb_true_iff; [|auto].
  apply Z.eqb_eq in Heq. subst k. exact Hn.
Qed.

Lemma only_pins_drive n v r :
  n = 3 \/ n = 7 -> only_pins r -> only_pins (drive n v r).
Proof.
  intros Hn H. unfold drive. destruct (v =? 0).
  - now apply only_pins_clearbit.
  - apply only_pins_setbit; [lia | assumption].
Qed.

Lemma only_pins_within_mask b :
  only_pins b -> Z.land b (Z.lnot MASK_IO) = 0 /\ Z.land b MASK_TDO = 0.
Proof.
  intros H. split; apply Z.bits_inj'; intros k Hk; rewrite Z.bits_0; bit_rewrite.
  - destruct (Z.testbit b k) eqn:Hb; [|reflexivity].
    destruct (H k Hk Hb) as [-> | [-> | ->]]; reflexivity.
  - destruct (Z.testbit b k) eqn:Hb; [|reflexivity].
    destruct (H k Hk Hb) as [-> | [-> | ->]]; reflexivity.
Qed.

Lemma written_bytes_app tr1 tr2 :
  written_bytes (tr1 ++ tr2) = written_bytes tr1 ++ written_bytes tr2.
Proof. apply flat_map_app. Qed.

Lemma written_bytes_diag b d : written_bytes (diag_if b d) = [].
Proof. now destruct b. Qed.

Lemma written_bytes_sleep t : written_bytes (sleep_call t) = [].
Proof. unfold sleep_call. now destruct (t =? 0). Qed.

Lemma pulse_events_pins e reg k :
  only_pins reg -> Forall only_pins (written_bytes (pulse_events e reg k)).
Proof.
  intros H. cbn [pulse_events written_bytes flat_map app].
  assert (Hc := only_pins_clearbit reg 5 H).
  assert (Hs : only_pins (Z.setbit (Z.clearbit reg 5) 5))
    by (apply only_pins_setbit; [lia | assumption]).
  do 3 (constructor; [assumption|]). constructor.
Qed.

Lemma pulse_train_pins e reg n : forall k,
  only_pins reg -> Forall only_pins (written_bytes (pulse_train e reg k n)).
Proof.
  induction n as [|n IH]; intros k H; cbn [pulse_train].
  - constructor.
  - rewrite written_bytes_app. apply Forall_app. split.
    + now apply pulse_events_pins.
    + now apply IH.
Qed.

Ltac pins_side :=
  unfold pins_inv; cbn [bb_reg trace];
  rewrite ?written_bytes_app, ?written_bytes_diag, ?written_bytes_sleep;
  cbn [written_bytes flat_map app]; rewrite ?app_nil_r.

Lemma dispatch_pins c w : pins_inv w -> pins_inv (dispatch c w).2.
Proof.
  intros (Hr & Hp & Hw).
  destruct c; cbn [dispatch].
  - unfold h_setup, bb_setup. run_prims.
    destruct (2 <=? verbose (u w)); run_prims;
      destruct (dev_present _ _); cbn [Z.ltb Z.compare]; run_prims; pins_side;
      auto using only_pins_0; (split; [unfold is_byte; lia | auto using only_pins_0]).
  - unfold h_shutdown, bb_shutdown. run_prims.
    destruct (2 <=? verbose (u w)); run_prims; pins_side; auto.
  - unfold mbind, M_bind. rewrite h_udelay_eq by assumption.
    cbv zeta. run_prims.
    destruct (0 <? num_tck); pins_side; [|auto].
    split; [apply drive_byte; auto; lia|].
    split; [apply only_pins_drive; auto|].
    apply Forall_app. split; [assumption|].
    apply pulse_train_pins, only_pins_drive; auto.
  - unfold h_getbyte. run_prims. destruct (f (u w)) as [[|? ?]|]; run_prims; pins_side; auto.
  - rewrite h_pulse_tck_eq by assumption. cbv zeta. cbn [snd]. pins_side.
    assert (Hx : only_pins (exchange_reg tms tdi (bb_reg w)))
      by (unfold exchange_reg; destruct (0 <=? tdi);
          repeat apply only_pins_drive; auto).
    split; [now apply exchange_reg_byte|]. split; [assumption|].
    apply Forall_app. split; [assumption|].
    now apply (pulse_events_pins (w_env w) _ (n_rx w)).
  - unfold h_pulse_sck. run_prims. pins_side. auto.
  - unfold h_set_trst. run_prims. pins_side. auto.
  - unfold h_set_frequency. run_prims. pins_side. auto.
  - unfold h_report_device. run_prims. pins_side. auto.
  - unfold h_report_status. run_prims.
    destruct (2 <=? verbose (u w)); run_prims; pins_side; auto.
  - unfold h_report_error. run_prims. pins_side. auto.
Qed.

Lemma run_calls_pins cs : forall w, pins_inv w -> pins_inv (run_calls cs w).2.
Proof.
  induction cs as [|c cs IH]; intros w Hinv; cbn [run_calls].
  - exact Hinv.
  - unfold mbind, M_bind. pose proof (dispatch_pins c w Hinv) as H1.
    destruct (dispatch c w) as [r w1]. cbn [snd] in H1.
    specialize (IH w1 H1). destruct (run_calls cs w1) as [rs w2].
    exact IH.
Qed.

(** C8. Whatever the environment answers, whatever the session state at
    the start and whatever sequence of calls the engine makes through the
    callback table, every byte this layer queues for the device has its
    set bits inside the direction mask [MASK_IO] (TMS, TDI and TCK only);
    in particular the TDO bit is clear in every written byte. *)
Theorem C8_only_output_pins_written
    (e : env) (x : udata_s) (cs : list host_call) :
  let w := (run_calls cs (world_boot e x)).2 in
  Forall (fun b => Z.land b (Z.lnot MASK_IO) = 0 /\ Z.land b MASK_TDO = 0)
         (written_bytes (trace w)).
Proof.
  cbv zeta.
  assert (H0 : pins_inv (world_boot e x)).
  { unfold pins_inv, world_boot, is_byte. cbn [bb_reg trace written_bytes flat_map].
    split; [lia|]. split; [apply only_pins_0 | constructor]. }
  destruct (run_calls_pins cs _ H0) as (_ & _ & Hw).
  eapply Forall_impl; [exact Hw|]. intros b. apply only_pins_within_mask.
Qed.

(** ** Reachable states

    The side conditions of the theorems above ([is_byte] of the pin
    register, [capture_wf] of the capture buffer, captured values that are
    bits) hold in every state the program can reach from its start. *)

Lemma exchange_capture_inv tdi tdo rmask line x :
  is_bit line -> capture_wf x -> Forall is_bit (capture_seq x) ->
  capture_wf (exchange_udata tdi tdo rmask line x) /\
  Forall is_bit (capture_seq (exchange_udata tdi tdo rmask line x)).
Proof.
  intros Hl Hwf Hb. destruct (Z.eqb_spec rmask 1) as [-> | Hne].
  - destruct (exchange_capture tdi tdo line x Hwf) as (Hwf' & Hseq & _).
    split; [exact Hwf'|]. rewrite Hseq. apply Forall_take, Forall_app.
    split; [exact Hb | now constructor].
  - unfold exchange_udata, capture_wf, capture_seq in *.
    rewrite (proj2 (Z.eqb_neq rmask 1)) by assumption. cbn [andb].
    destruct (0 <=? tdi), (0 <=? tdo);
      cbn [retval retval_i set_clockcount set_bitcount_tdo set_bitcount_tdi];
      auto.
Qed.

Lemma exchange_capture_clean tdi tdo rmask line x :
  capture_wf x -> capture_clean x ->
  capture_clean (exchange_udata tdi tdo rmask line x).
Proof.
  intros [Hlen Hi] Hc. unfold exchange_udata, capture_clean in *.
  assert (Hsame : retval_i (if 0 <=? tdi
            then set_bitcount_tdi (wrap_int (bitcount_tdi x + 1)) x else x) =
            retval_i x) by (destruct (0 <=? tdi); reflexivity).
  rewrite Hsame. clear Hsame.
  destruct ((rmask =? 1) && (retval_i x <? 256)) eqn:Hcond.
  - apply andb_true_iff in Hcond. destruct Hcond as [_ Hlt%Z.ltb_lt].
    assert (Hw : wrap_int (retval_i x + 1) = retval_i x + 1)
      by (apply wrap_int_small; unfold INT_MIN, INT_MAX; lia).
    assert (Hstep :
      drop (Z.to_nat (retval_i x + 1))
           (<[Z.to_nat (retval_i x) := line]> (retval x)) =
      replicate (256 - Z.to_nat (retval_i x + 1))%nat 0).
    { rewrite drop_insert_lt by lia.
      replace (Z.to_nat (retval_i x + 1)) with (Z.to_nat (retval_i x) + 1)%nat
        by lia.
      rewrite <- drop_drop, Hc, drop_replicate. f_equal. lia. }
    destruct (0 <=? tdi), (0 <=? tdo);
      cbn [retval retval_i set_clockcount set_bitcount_tdo set_bitcount_tdi
           push_retval];
      rewrite Hw, (proj2 (Z.leb_le 0 (retval_i x))) by lia; exact Hstep.
  - destruct (0 <=? tdi), (0 <=? tdo);
      cbn [retval retval_i set_clockcount set_bitcount_tdo set_bitcount_tdi];
      exact Hc.
Qed.

Lemma dispatch_session c w : session_inv w -> session_inv (dispatch c w).2.
Proof.
  intros (Hp & Hwf & Hb & Hc). split; [now apply dispatch_pins|].
  destruct Hp as (Hr & _ & _).
  destruct c; cbn [dispatch].
  - unfold h_setup, bb_setup. run_prims.
    destruct (2 <=? verbose (u w)); run_prims;
      destruct (dev_present _ _); cbn [Z.ltb Z.compare]; run_prims; auto.
  - unfold h_shutdown, bb_shutdown. run_prims.
    destruct (2 <=? verbose (u w)); run_prims; auto.
  - unfold mbind, M_bind. rewrite h_udelay_eq by assumption.
    cbv zeta. run_prims. destruct (0 <? num_tck); cbn [u]; auto.
  - unfold h_getbyte. run_prims. destruct (f (u w)) as [[|? ?]|]; run_prims; auto.
  - rewrite h_pulse_tck_eq by assumption. cbv zeta. cbn [snd u].
    destruct (exchange_capture_inv tdi tdo rmask
                (sampled_tdo (w_env w) (n_rx w)) (u w)) as [H1 H2];
      auto using sampled_tdo_bit.
    auto using exchange_capture_clean.
  - unfold h_pulse_sck. run_prims. auto.
  - unfold h_set_trst. run_prims. auto.
  - unfold h_set_frequency. run_prims. auto.
  - unfold h_report_device. run_prims. auto.
  - unfold h_report_status. run_prims.
    destruct (2 <=? verbose (u w)); run_prims; auto.
  - unfold h_report_error. run_prims. auto.
Qed.

Lemma run_calls_session cs : forall w,
  session_inv w -> session_inv (run_calls cs w).2.
Proof.
  induction cs as [|c cs IH]; intros w Hinv; cbn [run_calls].
  - exact Hinv.
  - unfold mbind, M_bind. pose proof (dispatch_session c w Hinv) as H1.
    destruct (dispatch c w) as [r w1]. cbn [snd] in H1.
    specialize (IH w1 H1). destruct (run_calls cs w1) as [rs w2].
    exact IH.
Qed.

Lemma world_start_session e v input :
  session_inv (world_boot e (u_start v input)).
Proof.
  unfold session_inv, pins_inv, capture_wf, capture_clean, capture_seq,
    world_boot, u_start, is_byte.
  cbn [bb_reg trace u retval retval_i written_bytes flat_map Z.to_nat
       take drop].
  repeat apply conj; try lia.
  - apply only_pins_0.
  - constructor.
  - apply length_replicate.
  - constructor.
  - reflexivity.
Qed.

Lemma reachable_session e v input cs :
  session_inv (run_calls cs (world_boot e (u_start v input))).2.
Proof. apply run_calls_session, world_start_session. Qed.

Lemma retval_i_bounds e v input cs :
  0 <= retval_i (u (run_calls cs (world_boot e (u_start v input))).2) <= 256.
Proof. destruct (reachable_session e v input cs) as (_ & [_ H] & _). exact H. Qed.

(** ** What the summary counts *)

(** Of all the callbacks, only the clocked-bit exchange moves the
    clock-pulse counter; the pulses of the delay routine are not counted. *)
Lemma dispatch_clockcount c w :
  is_byte (bb_reg w) ->
  clockcount (u (dispatch c w).2) =
  match c with
  | Call_pulse_tck _ _ _ _ _ => wrap_int (clockcount (u w) + 1)
  | _ => clockcount (u w)
  end.
Proof.
  intros Hr. destruct c; cbn [dispatch].
  - unfold h_setup, bb_setup. run_prims.
    destruct (2 <=? verbose (u w)); run_prims;
      destruct (dev_present _ _); cbn [Z.ltb Z.compare]; run_prims; reflexivity.
  - unfold h_shutdown, bb_shutdown. run_prims.
    destruct (2 <=? verbose (u w)); run_prims; reflexivity.
  - unfold mbind, M_bind. rewrite h_udelay_eq by assumption.
    cbv zeta. run_prims. destruct (0 <? num_tck); reflexivity.
  - unfold h_getbyte. run_prims. destruct (f (u w)) as [[|? ?]|]; run_prims; reflexivity.
  - rewrite h_pulse_tck_eq by assumption. cbv zeta. cbn [snd u].
    unfold exchange_udata.
    destruct (0 <=? tdi), (_ && _), (0 <=? tdo); reflexivity.
  - unfold h_pulse_sck. run_prims. reflexivity.
  - unfold h_set_trst. run_prims. reflexivity.
  - unfold h_set_frequency. run_prims. reflexivity.
  - unfold h_report_device. run_prims. reflexivity.
  - unfold h_report_status. run_prims.
    destruct (2 <=? verbose (u w)); run_prims; reflexivity.
  - unfold h_report_error. run_prims. reflexivity.
Qed.

Lemma exchanges_nonneg cs : 0 <= exchanges cs.
Proof.
  induction cs as [|c cs IH]; cbn [exchanges]; [lia|]. destruct c; lia.
Qed.

(** The clock-pulse total of the summary is the number of clocked-bit
    exchanges made since the counter was last known, as long as it fits
    an [int]. *)
Lemma summary_counts_exchanges cs : forall w,
  pins_inv w -> INT_MIN <= clockcount (u w) ->
  clockcount (u w) + exchanges cs <= INT_MAX ->
  clockcount (u (run_calls cs w).2) = clockcount (u w) + exchanges cs.
Proof.
  induction cs as [|c cs IH]; intros w Hinv Hlo Hhi; cbn [run_calls exchanges].
  - run_prims. lia.
  - unfold mbind, M_bind.
    pose proof (dispatch_pins c w Hinv) as Hinv1.
    pose proof (dispatch_clockcount c w (proj1 Hinv)) as Hc.
    pose proof (exchanges_nonneg cs) as Hnn.
    destruct (dispatch c w) as [r w1]. cbn [snd] in Hinv1, Hc.
    specialize (IH w1 Hinv1).
    destruct (run_calls cs w1) as [rs w2]. cbn [snd] in IH |- *. run_prims.
    destruct c; cbn [exchanges] in Hhi |- *;
      try (rewrite IH, Hc by lia; lia).
    rewrite wrap_int_small in Hc by lia.
    rewrite IH, Hc by lia. lia.
Qed.

(** ** Concrete runs *)

Ltac concrete_byte := vm_compute; split; [discriminate | reflexivity].

(** C1 at [w_demo]: the register holds 0x88, the pulse queues 0x88, 0xA8,
    0x88 and samples TDO = 1. *)
Lemma C1_pulse_three_phases_witness :
  is_byte (bb_reg w_demo) /\
  written_bytes (trace (bb_pulse_tck w_demo).2) =
    written_bytes (trace w_demo) ++ [0x88; 0xA8; 0x88] /\
  (bb_pulse_tck w_demo).1 = 1.
Proof.
  assert (H : is_byte (bb_reg w_demo)) by concrete_byte.
  split; [exact H|].
  pose proof (C1_pulse_three_phases w_demo H) as T. cbv zeta in T.
  destruct (bb_pulse_tck w_demo) as [tdo w'].
  destruct T as (_ & Hw & _ & _ & _ & _ & Ht & _).
  split; [exact Hw | exact Ht].
Defined.

(** C2 on the eight captured bits 1,0,0,0,0,1,1,0. *)
Lemma C2_hex_rendering_witness :
  let x := captured [1; 0; 0; 0; 0; 1; 1; 0] in
  capture_wf x /\ 0 < retval_i x /\ retval_i x mod 4 = 0 /\
  Forall is_bit (capture_seq x) /\
  print_retval 2 x = Some [Out_0x; Out_hex 8; Out_hex 6; Out_newline] /\
  print_retval 1 x = Some [Out_0x; Out_hex 6; Out_hex 1; Out_newline].
Proof.
  cbv zeta.
  assert (H1 : capture_wf (captured [1; 0; 0; 0; 0; 1; 1; 0]))
    by (split; [reflexivity | split; discriminate]).
  assert (H2 : 0 < retval_i (captured [1; 0; 0; 0; 0; 1; 1; 0])) by reflexivity.
  assert (H3 : retval_i (captured [1; 0; 0; 0; 0; 1; 1; 0]) mod 4 = 0)
    by reflexivity.
  assert (H4 : Forall is_bit (capture_seq (captured [1; 0; 0; 0; 0; 1; 1; 0])))
    by (repeat (constructor; [(left; reflexivity) || (right; reflexivity)|]);
        constructor).
  destruct (proj2 C2_hex_rendering _ H1 H2 H3 H4) as [HB HL].
  split; [exact H1|]. split; [exact H2|]. split; [exact H3|].
  split; [exact H4|]. split; [exact HB | exact HL].
Defined.

(** C7 on five captured ones: -B prints f and 8. *)
Lemma C7_big_endian_pads_partial_group_witness :
  let x := captured [1; 1; 1; 1; 1] in
  capture_wf x /\ capture_clean x /\ Forall is_bit (capture_seq x) /\
  0 < retval_i x /\
  print_retval 2 x = Some [Out_0x; Out_hex 15; Out_hex 8; Out_newline].
Proof.
  cbv zeta.
  assert (H1 : capture_wf (captured [1; 1; 1; 1; 1]))
    by (split; [reflexivity | split; discriminate]).
  assert (H2 : capture_clean (captured [1; 1; 1; 1; 1])) by reflexivity.
  assert (H3 : Forall is_bit (capture_seq (captured [1; 1; 1; 1; 1])))
    by (repeat (constructor; [right; reflexivity|]); constructor).
  assert (H4 : 0 < retval_i (captured [1; 1; 1; 1; 1])) by reflexivity.
  destruct (C7_big_endian_pads_partial_group _ H1 H2 H3 H4) as [HB _].
  split; [exact H1|]. split; [exact H2|]. split; [exact H3|].
  split; [exact H4 | exact HB].
Defined.

(** C3 at the start of the process, with no device attached. *)
Lemma C3_setup_without_device_witness :
  let w := world_init env_no_device in
  dev_present (w_env w) (n_open w) = false /\
  (h_setup w).1 = 0 /\
  trace (h_setup w).2 =
    [Ev_ftdi_init; Ev_usb_open 0x0403 0x6001 false; Ev_puts "Can't open device"] /\
  bb_reg (h_setup w).2 = 0.
Proof.
  cbv zeta.
  assert (H : dev_present (w_env (world_init env_no_device))
                          (n_open (world_init env_no_device)) = false)
    by reflexivity.
  destruct (C3_setup_without_device _ H) as (Hrc & _ & Htr & Hreg & _).
  split; [exact H|]. split; [exact Hrc|]. split; [exact Htr | exact Hreg].
Defined.


(** C5 at [w_demo], where the next sampled bit is 1: expecting 0 gives the
    mismatch value, expecting 1 or nothing gives the bit. *)
Lemma C5_clocked_bit_exchange_witness :
  is_byte (bb_reg w_demo) /\
  can_incr (bitcount_tdi (u w_demo)) /\ can_incr (bitcount_tdo (u w_demo)) /\
  can_incr (clockcount (u w_demo)) /\
  sampled_tdo (w_env w_demo) (n_rx w_demo) = 1 /\
  (h_pulse_tck 0 1 0 1 0 w_demo).1 = -1 /\
  (h_pulse_tck 0 1 1 1 0 w_demo).1 = 1 /\
  (h_pulse_tck 0 1 (-1) 1 0 w_demo).1 = 1 /\
  bitcount_tdi (u (h_pulse_tck 0 1 0 1 0 w_demo).2) = 2 /\
  bitcount_tdo (u (h_pulse_tck 0 1 0 1 0 w_demo).2) = 1 /\
  clockcount (u (h_pulse_tck 0 1 0 1 0 w_demo).2) = 2.
Proof.
  assert (Hb : is_byte (bb_reg w_demo)) by concrete_byte.
  assert (Hi : can_incr (bitcount_tdi (u w_demo))) by concrete_byte.
  assert (Ho : can_incr (bitcount_tdo (u w_demo))) by concrete_byte.
  assert (Hc : can_incr (clockcount (u w_demo))) by concrete_byte.
  assert (L : sampled_tdo (w_env w_demo) (n_rx w_demo) = 1)
    by (vm_compute; reflexivity).
  do 4 (split; [assumption|]). split; [exact L|].
  destruct (C5_clocked_bit_exchange 0 1 0 1 0 w_demo Hb Hi Ho Hc)
    as (_ & Hdi & _ & _ & Hdo & _ & Hcc & _).
  destruct (C5_clocked_bit_exchange 0 1 1 1 0 w_demo Hb Hi Ho Hc)
    as (_ & _ & _ & _ & Hdo1 & _).
  destruct (C5_clocked_bit_exchange 0 1 (-1) 1 0 w_demo Hb Hi Ho Hc)
    as (_ & _ & _ & _ & _ & Hno & _).
  assert (P1 : 0 <= 1) by lia. assert (P0 : 0 <= 0) by lia.
  assert (N1 : -1 < 0) by lia.
  destruct (Hdi P1) as [Hdi' _]. destruct (Hdo P0) as (Hdo' & Hne & _).
  destruct (Hdo1 P1) as (_ & _ & Heq). destruct (Hno N1) as [_ Hno'].
  rewrite L in Hne, Heq, Hno'.
  split; [apply Hne; discriminate|].
  split; [exact (Heq eq_refl)|].
  split; [exact Hno'|].
  split; [exact Hdi'|].
  split; [exact Hdo' | exact Hcc].
Defined.

(** C6 with 300 capture requests on an empty buffer. *)
Lemma C6_capture_bounded_witness :
  let args := replicate 300 (0, 1, -1, 0) in
  let w := world_init env_demo in
  is_byte (bb_reg w) /\ capture_wf (u w) /\
  retval_i (u (run_calls (capture_request <$> args) w).2) = 256 /\
  capture_seq (u (run_calls (capture_request <$> args) w).2) =
    take 256 (sampled_bits env_demo 0 300).
Proof.
  cbv zeta.
  assert (Hb : is_byte (bb_reg (world_init env_demo))) by concrete_byte.
  assert (Hw : capture_wf (u (world_init env_demo)))
    by (split; [reflexivity | split; discriminate]).
  split; [exact Hb|]. split; [exact Hw|].
  destruct (C6_capture_bounded (replicate 300 (0, 1, -1, 0)) _ Hb Hw)
    as (_ & _ & Hi & Hs & _).
  split; [exact Hi | exact Hs].
Defined.

(** C10 at [w_demo]: a delay with three pulses at TMS = 0 turns the
    register from 0x88 into 0x08, a delay without pulses leaves it. *)
Lemma C10_delay_frame_witness :
  is_byte (bb_reg w_demo) /\
  u (h_udelay 100 0 3 w_demo).2 = u w_demo /\
  bb_reg w_demo = 0x88 /\
  bb_reg (h_udelay 100 0 3 w_demo).2 = 0x08 /\
  bb_reg (h_udelay 100 0 0 w_demo).2 = 0x88.
Proof.
  assert (Hb : is_byte (bb_reg w_demo)) by concrete_byte.
  split; [exact Hb|].
  destruct (C10_delay_frame 100 0 3 w_demo Hb) as (Hu & _ & _ & _ & _ & _ & Hr & _).
  destruct (C10_delay_frame 100 0 0 w_demo Hb) as (_ & _ & _ & _ & _ & _ & Hr0 & _).
  split; [exact Hu|]. split; [reflexivity|]. split; [exact Hr | exact Hr0].
Defined.

(** * Further properties of the program *)

(** ** Printing the captured bits: the decimal list and the -L overrun *)

Lemma capture_lookup x (i : nat) :
  capture_wf x -> (Z.of_nat i < retval_i x) ->
  exists b, capture_seq x !! i = Some b /\ retval_read x (Z.of_nat i) = Some b.
Proof.
  intros Hwf Hi. pose proof (capture_seq_length x Hwf) as Hlen.
  destruct (lookup_lt_is_Some_2 (capture_seq x) i) as [b Hb]; [lia|].
  exists b. split; [exact Hb | now apply retval_read_capture].
Qed.

Lemma dec_loop_capture x :
  capture_wf x ->
  forall (fuel i : nat),
    Z.of_nat i <= retval_i x -> retval_i x - Z.of_nat i <= Z.of_nat fuel ->
    dec_loop fuel x (Z.of_nat i) = Some (drop i (capture_seq x)).
Proof.
  intros Hwf. pose proof (capture_seq_length x Hwf) as Hlen.
  induction fuel as [|k IH]; intros i Hi Hfuel; cbn [dec_loop].
  - now rewrite drop_ge by lia.
  - destruct (Z.ltb_spec (Z.of_nat i) (retval_i x)) as [Hlt | Hge].
    + destruct (capture_lookup x i Hwf Hlt) as (b & Hb & Hrd).
      rewrite Hrd. cbn [mbind option_bind].
      replace (Z.of_nat i + 1) with (Z.of_nat (S i)) by lia.
      rewrite IH by lia. cbn [mbind option_bind].
      now rewrite (drop_S _ _ _ Hb).
    + now rewrite drop_ge by lia.
Qed.

(** X1. Without -L or -B, [main] prints nothing when no bit was captured,
    and otherwise the number of captured bits followed by exactly the
    captured bits in capture order; whatever the fill level, it reads no
    cell outside the captured part of the array. *)
Theorem X1_decimal_rendering (x : udata_s) :
  capture_wf x ->
  print_retval 0 x =
    if retval_i x =? 0 then Some []
    else Some ([Out_count (retval_i x)] ++ (Out_bit <$> capture_seq x) ++
               [Out_newline]).
Proof.
  intros Hwf. unfold print_retval. destruct (retval_i x =? 0); [reflexivity|].
  cbn [Z.eqb]. pose proof Hwf as [Hlen Hi].
  assert (H := dec_loop_capture x Hwf (Z.to_nat (retval_i x)) 0).
  change (Z.of_nat 0) with 0 in H. rewrite H by lia. reflexivity.
Qed.

Lemma hex_inner_overrun mode x i jbad :
  retval_read x (hex_index mode x jbad) = None ->
  forall (fuel : nat) j val,
    j <= jbad < i + 4 -> jbad - j < Z.of_nat fuel ->
    hex_inner fuel mode x i j val = None.
Proof.
  intros Hbad. induction fuel as [|k IH]; intros j val Hj Hfuel; [lia|].
  cbn [hex_inner]. rewrite (proj2 (Z.ltb_lt j (i + 4))) by lia.
  destruct (retval_read x (hex_index mode x j)) as [b|] eqn:Hrd;
    cbn [mbind option_bind]; [|reflexivity].
  apply IH; [|lia].
  assert (j <> jbad) by (intros ->; congruence). lia.
Qed.

Lemma hex_outer_overrun mode x ibad :
  ibad < retval_i x ->
  hex_inner 4 mode x ibad ibad 0 = None ->
  forall (fuel t : nat) i,
    ibad = i + 4 * Z.of_nat t -> (t < fuel)%nat ->
    hex_outer fuel mode x i = None.
Proof.
  intros Hin Hbad. induction fuel as [|k IH]; intros t i Hi Hfuel; [lia|].
  cbn [hex_outer]. rewrite (proj2 (Z.ltb_lt i (retval_i x))) by lia.
  destruct t as [|t].
  - replace i with ibad by lia. now rewrite Hbad.
  - destruct (hex_inner 4 mode x i i 0); cbn [mbind option_bind]; [|reflexivity].
    now rewrite (IH t (i + 4)) by lia.
Qed.

(** X2. With -L, whenever the number of captured bits is not a multiple
    of 4 the loop reaches a subscript below zero: printing reads outside
    [u.retval], for every such fill level and whatever was captured. *)
Theorem X2_little_endian_overrun (x : udata_s) :
  capture_wf x -> retval_i x mod 4 <> 0 -> print_retval 1 x = None.
Proof.
  intros [Hlen Hi] Hm.
  assert (Hq : retval_i x = 4 * (retval_i x / 4) + retval_i x mod 4)
    by (apply Z.div_mod; lia).
  assert (Hr : 0 <= retval_i x mod 4 < 4) by (apply Z.mod_pos_bound; lia).
  assert (Hq0 : 0 <= retval_i x / 4) by (apply Z.div_pos; lia).
  set (q := retval_i x / 4) in *. set (r := retval_i x mod 4) in *.
  assert (Hbad : hex_inner 4 1 x (4 * q) (4 * q) 0 = None).
  { apply (hex_inner_overrun 1 x (4 * q) (4 * q + r)); try lia.
    unfold hex_index. cbn [Z.ltb Z.compare Pos.compare Pos.compare_cont].
    rewrite (wrap_int_small (retval_i x - (4 * q + r)))
      by (unfold INT_MIN, INT_MAX; lia).
    rewrite wrap_int_small by (unfold INT_MIN, INT_MAX; lia).
    replace (retval_i x - (4 * q + r) - 1) with (-1) by lia. reflexivity. }
  unfold print_retval.
  rewrite (proj2 (Z.eqb_neq (retval_i x) 0)) by lia. cbn [Z.eqb].
  rewrite (hex_outer_overrun 1 x (4 * q)) with (t := Z.to_nat q); try lia.
  - reflexivity.
  - exact Hbad.
Qed.

(** ** What each callback does to the session state and the pin register *)

Lemma dispatch_u c w :
  is_byte (bb_reg w) ->
  u (dispatch c w).2 =
  match c with
  | Call_pulse_tck tms tdi tdo rmask sync =>
      exchange_udata tdi tdo rmask (sampled_tdo (w_env w) (n_rx w)) (u w)
  | Call_getbyte =>
      match f (u w) with
      | Some (_ :: rest) => set_f (Some rest) (u w)
      | _ => u w
      end
  | _ => u w
  end.
Proof.
  intros Hr. destruct c; cbn [dispatch].
  - unfold h_setup, bb_setup. run_prims.
    destruct (2 <=? verbose (u w)); run_prims;
      destruct (dev_present _ _); cbn [Z.ltb Z.compare]; run_prims; reflexivity.
  - unfold h_shutdown, bb_shutdown. run_prims.
    destruct (2 <=? verbose (u w)); run_prims; reflexivity.
  - unfold mbind, M_bind. rewrite h_udelay_eq by assumption.
    cbv zeta. run_prims. destruct (0 <? num_tck); reflexivity.
  - unfold h_getbyte. run_prims. destruct (f (u w)) as [[|? ?]|]; run_prims; reflexivity.
  - rewrite h_pulse_tck_eq by assumption. reflexivity.
  - unfold h_pulse_sck. run_prims. reflexivity.
  - unfold h_set_trst. run_prims. reflexivity.
  - unfold h_set_frequency. run_prims. reflexivity.
  - unfold h_report_device. run_prims. reflexivity.
  - unfold h_report_status. run_prims.
    destruct (2 <=? verbose (u w)); run_prims; reflexivity.
  - unfold h_report_error. run_prims. reflexivity.
Qed.

Lemma dispatch_reg c w :
  is_byte (bb_reg w) ->
  bb_reg (dispatch c w).2 =
  match c with
  | Call_setup => if dev_present (w_env w) (n_open w) then 0 else bb_reg w
  | Call_udelay _ tms num_tck =>
      if 0 <? num_tck then drive 7 tms (bb_reg w) else bb_reg w
  | Call_pulse_tck tms tdi _ _ _ => exchange_reg tms tdi (bb_reg w)
  | _ => bb_reg w
  end.
Proof.
  intros Hr. destruct c; cbn [dispatch].
  - unfold h_setup, bb_setup. run_prims.
    destruct (2 <=? verbose (u w)); run_prims;
      destruct (dev_present _ _); cbn [Z.ltb Z.compare]; run_prims; reflexivity.
  - unfold h_shutdown, bb_shutdown. run_prims.
    destruct (2 <=? verbose (u w)); run_prims; reflexivity.
  - unfold mbind, M_bind. rewrite h_udelay_eq by assumption.
    cbv zeta. run_prims. destruct (0 <? num_tck); reflexivity.
  - unfold h_getbyte. run_prims. destruct (f (u w)) as [[|? ?]|]; run_prims; reflexivity.
  - rewrite h_pulse_tck_eq by assumption. reflexivity.
  - unfold h_pulse_sck. run_prims. reflexivity.
  - unfold h_set_trst. run_prims. reflexivity.
  - unfold h_set_frequency. run_prims. reflexivity.
  - unfold h_report_device. run_prims. reflexivity.
  - unfold h_report_status. run_prims.
    destruct (2 <=? verbose (u w)); run_prims; reflexivity.
  - unfold h_report_error. run_prims. reflexivity.
Qed.

Lemma dispatch_byte c w : is_byte (bb_reg w) -> is_byte (bb_reg (dispatch c w).2).
Proof.
  intros Hr. rewrite dispatch_reg by assumption.
  destruct c; try assumption.
  - destruct (dev_present _ _); [unfold is_byte; lia | assumption].
  - destruct (0 <? num_tck); [apply drive_byte; auto; lia | assumption].
  - now apply exchange_reg_byte.
Qed.

(** Induction over a run of calls, for any property of the state that
    every single call keeps. *)
Lemma run_calls_keeps (P : world -> Prop) :
  (forall c w, P w -> P (dispatch c w).2) ->
  forall cs w, P w -> P (run_calls cs w).2.
Proof.
  intros Hstep. induction cs as [|c cs IH]; intros w Hw; cbn [run_calls].
  - exact Hw.
  - unfold mbind, M_bind. pose proof (Hstep c w Hw) as H1.
    destruct (dispatch c w) as [r w1]. cbn [snd] in H1.
    specialize (IH w1 H1). destruct (run_calls cs w1) as [rs w2].
    exact IH.
Qed.

Lemma run_calls_cons c cs w :
  (run_calls (c :: cs) w).2 = (run_calls cs (dispatch c w).2).2.
Proof.
  cbn [run_calls]. unfold mbind, M_bind.
  destruct (dispatch c w) as [r w1]. cbn [snd].
  destruct (run_calls cs w1) as [rs w2]. reflexivity.
Qed.

(** ** The capture buffer under arbitrary calls *)

Lemma exchange_appends tdi tdo rmask line x :
  capture_wf x ->
  capture_wf (exchange_udata tdi tdo rmask line x) /\
  capture_seq x `prefix_of` capture_seq (exchange_udata tdi tdo rmask line x) /\
  retval_i x <= retval_i (exchange_udata tdi tdo rmask line x).
Proof.
  intros Hwf. destruct (Z.eqb_spec rmask 1) as [-> | Hne].
  - destruct (exchange_capture tdi tdo line x Hwf) as (Hwf' & Hseq & Hi).
    pose proof (capture_seq_length x Hwf) as Hlen. destruct Hwf as [_ Hb].
    split; [exact Hwf'|]. split; [|lia].
    rewrite Hseq, take_app_ge by lia. now eexists.
  - unfold exchange_udata, capture_wf, capture_seq in *.
    rewrite (proj2 (Z.eqb_neq rmask 1)) by assumption. cbn [andb].
    destruct (0 <=? tdi), (0 <=? tdo);
      cbn [retval retval_i set_clockcount set_bitcount_tdo set_bitcount_tdi];
      (split; [assumption|]); (split; [reflexivity | lia]).
Qed.

(** X3. Whatever calls the engine makes, and in whatever order, the bits
    already captured are never overwritten, moved or dropped: the captured
    sequence before a run of calls is a prefix of the captured sequence
    after it, and the fill level only grows, up to 256. *)
Theorem X3_capture_is_append_only (cs : list host_call) (w : world) :
  is_byte (bb_reg w) -> capture_wf (u w) ->
  let w' := (run_calls cs w).2 in
  capture_seq (u w) `prefix_of` capture_seq (u w') /\
  retval_i (u w) <= retval_i (u w') <= 256.
Proof.
  intros Hr Hwf. cbv zeta.
  set (P := fun w' : world =>
    is_byte (bb_reg w') /\ capture_wf (u w') /\
    capture_seq (u w) `prefix_of` capture_seq (u w') /\
    retval_i (u w) <= retval_i (u w')).
  assert (Hstep : forall c w1, P w1 -> P (dispatch c w1).2).
  { intros c w1 (Hr1 & Hwf1 & Hpre & Hle). unfold P.
    split; [now apply dispatch_byte|].
    rewrite dispatch_u by assumption.
    destruct c; auto.
    - destruct (f (u w1)) as [[|? ?]|]; auto.
    - destruct (exchange_appends tdi tdo rmask
                  (sampled_tdo (w_env w1) (n_rx w1)) (u w1) Hwf1)
        as (Hwf2 & Hpre2 & Hle2).
      split; [exact Hwf2|]. split; [|lia].
      now transitivity (capture_seq (u w1)). }
  assert (H0 : P w).
  { unfold P. split; [exact Hr|]. split; [exact Hwf|].
    split; [reflexivity | lia]. }
  destruct (run_calls_keeps P Hstep cs w H0) as (_ & [_ Hb] & Hpre & Hle).
  split; [exact Hpre | lia].
Qed.

(** ** The counters of the summary *)

Lemma count_calls_cons p c cs :
  count_calls p (c :: cs) = (if p c then 1 else 0) + count_calls p cs.
Proof.
  unfold count_calls. rewrite filter_cons.
  destruct (p c); case_decide; try congruence; cbn [length]; lia.
Qed.

Lemma count_calls_nil p : count_calls p [] = 0.
Proof. reflexivity. Qed.

Lemma count_calls_nonneg p cs : 0 <= count_calls p cs.
Proof. unfold count_calls. lia. Qed.

Lemma exchange_counters tdi tdo rmask line x :
  let x' := exchange_udata tdi tdo rmask line x in
  clockcount x' = wrap_int (clockcount x + 1) /\
  bitcount_tdi x' =
    (if 0 <=? tdi then wrap_int (bitcount_tdi x + 1) else bitcount_tdi x) /\
  bitcount_tdo x' =
    (if 0 <=? tdo then wrap_int (bitcount_tdo x + 1) else bitcount_tdo x).
Proof.
  cbv zeta. unfold exchange_udata.
  destruct (0 <=? tdi), (_ && _), (0 <=? tdo); repeat split.
Qed.

Lemma exchange_fill tdi tdo rmask line x :
  capture_wf x ->
  retval_i (exchange_udata tdi tdo rmask line x) =
  Z.min 256 (retval_i x + (if rmask =? 1 then 1 else 0)).
Proof.
  intros Hwf. destruct (Z.eqb_spec rmask 1) as [-> | Hne].
  - now destruct (exchange_capture tdi tdo line x Hwf) as (_ & _ & Hi).
  - destruct Hwf as [_ Hb]. unfold exchange_udata.
    rewrite (proj2 (Z.eqb_neq rmask 1)) by assumption. cbn [andb].
    destruct (0 <=? tdi), (0 <=? tdo);
      cbn [retval_i set_clockcount set_bitcount_tdo set_bitcount_tdi]; lia.
Qed.

Lemma run_counters cs : forall w,
  is_byte (bb_reg w) -> capture_wf (u w) ->
  0 <= bitcount_tdi (u w) <= clockcount (u w) ->
  0 <= bitcount_tdo (u w) <= clockcount (u w) ->
  clockcount (u w) + exchanges cs <= INT_MAX ->
  let x := u (run_calls cs w).2 in
  clockcount x = clockcount (u w) + exchanges cs /\
  bitcount_tdi x = bitcount_tdi (u w) + count_calls drives_tdi cs /\
  bitcount_tdo x = bitcount_tdo (u w) + count_calls compares_tdo cs /\
  retval_i x = Z.min 256 (retval_i (u w) + count_calls asks_capture cs) /\
  bitcount_tdi x <= clockcount x /\ bitcount_tdo x <= clockcount x.
Proof.
  induction cs as [|c cs IH]; intros w Hr Hwf Hi Ho Hmax; cbv zeta.
  - cbn [run_calls exchanges]. run_prims. rewrite !count_calls_nil.
    destruct Hwf as [_ Hb]. lia.
  - rewrite run_calls_cons, !count_calls_cons.
    pose proof (exchanges_nonneg cs) as Hnn.
    pose proof (dispatch_byte c w Hr) as Hr1.
    pose proof (dispatch_u c w Hr) as Hu.
    specialize (IH (dispatch c w).2 Hr1). cbv zeta in IH.
    destruct c; cbn [exchanges drives_tdi compares_tdo asks_capture] in *;
      try (rewrite Hu in IH; specialize (IH Hwf Hi Ho Hmax); lia).
    + assert (Hu' : u (dispatch Call_getbyte w).2 = u w \/
                    exists rest, u (dispatch Call_getbyte w).2 = set_f rest (u w))
        by (rewrite Hu; destruct (f (u w)) as [[|? ?]|]; eauto).
      destruct Hu' as [E | [rest E]]; rewrite E in IH;
        [specialize (IH Hwf Hi Ho Hmax); lia|].
      specialize (IH Hwf Hi Ho Hmax). cbn [set_f clockcount bitcount_tdi
        bitcount_tdo retval_i] in IH. lia.
    + rewrite Hu in IH.
      destruct (exchange_counters tdi tdo rmask
                  (sampled_tdo (w_env w) (n_rx w)) (u w)) as (Hc & Hdi & Hdo).
      pose proof (exchange_fill tdi tdo rmask
                    (sampled_tdo (w_env w) (n_rx w)) (u w) Hwf) as Hfill.
      destruct (exchange_appends tdi tdo rmask
                  (sampled_tdo (w_env w) (n_rx w)) (u w) Hwf) as (Hwf' & _ & _).
      rewrite wrap_int_small in Hc by (unfold INT_MIN, INT_MAX in *; lia).
      assert (Hdi' : bitcount_tdi (exchange_udata tdi tdo rmask
                  (sampled_tdo (w_env w) (n_rx w)) (u w)) =
                bitcount_tdi (u w) + (if 0 <=? tdi then 1 else 0)).
      { rewrite Hdi. destruct (0 <=? tdi); [|lia].
        apply wrap_int_small. unfold INT_MIN, INT_MAX in *; lia. }
      assert (Hdo' : bitcount_tdo (exchange_udata tdi tdo rmask
                  (sampled_tdo (w_env w) (n_rx w)) (u w)) =
                bitcount_tdo (u w) + (if 0 <=? tdo then 1 else 0)).
      { rewrite Hdo. destruct (0 <=? tdo); [|lia].
        apply wrap_int_small. unfold INT_MIN, INT_MAX in *; lia. }
      rewrite Hc, Hdi', Hdo', Hfill in IH.
      assert (H1 : 0 <= bitcount_tdi (u w) + (if 0 <=? tdi then 1 else 0)
                     <= clockcount (u w) + 1) by (destruct (0 <=? tdi); lia).
      assert (H2 : 0 <= bitcount_tdo (u w) + (if 0 <=? tdo then 1 else 0)
                     <= clockcount (u w) + 1) by (destruct (0 <=? tdo); lia).
      specialize (IH Hwf' H1 H2).
      pose proof (count_calls_nonneg asks_capture cs) as Hcap.
      destruct Hwf as [_ Hb].
      destruct (rmask =? 1), (0 <=? tdi), (0 <=? tdo); lia.
Qed.

(** X4. From the start of the process and over any calls of the engine,
    as long as the number of clocked-bit exchanges fits an [int]: the
    clock-cycle total of the summary is the number of exchanges, the
    number of significant TDI bits is the number of exchanges with
    [tdi >= 0], the number of significant TDO bits is the number of
    exchanges with [tdo >= 0], and the fill level of the capture buffer is
    the number of exchanges with [rmask == 1], capped at 256.  So neither
    bit count ever exceeds the clock-cycle total. *)
Theorem X4_summary_counters
    (e : env) (v : Z) (input : option (list Z)) (cs : list host_call) :
  exchanges cs <= INT_MAX ->
  let x := u (run_calls cs (world_boot e (u_start v input))).2 in
  clockcount x = exchanges cs /\
  bitcount_tdi x = count_calls drives_tdi cs /\
  bitcount_tdo x = count_calls compares_tdo cs /\
  retval_i x = Z.min 256 (count_calls asks_capture cs) /\
  bitcount_tdi x <= clockcount x /\ bitcount_tdo x <= clockcount x.
Proof.
  intros Hmax. cbv zeta.
  destruct (world_start_session e v input) as ((Hr & _) & Hwf & _).
  destruct (run_counters cs (world_boot e (u_start v input)) Hr Hwf)
    as (H1 & H2 & H3 & H4 & H5 & H6);
    cbn [world_boot u u_start clockcount bitcount_tdi bitcount_tdo retval_i] in *;
    lia.
Qed.

(** ** The byte source *)

Lemma h_getbyte_eq w :
  h_getbyte w =
  match f (u w) with
  | Some [] => (-1, w)
  | Some (c :: rest) =>
      (c, {| w_env := w_env w; n_open := n_open w; n_rx := n_rx w;
             n_clk := n_clk w; bb_reg := bb_reg w;
             u := set_f (Some rest) (u w); trace := trace w |})
  | None =>
      (-1, {| w_env := w_env w; n_open := n_open w; n_rx := n_rx w;
              n_clk := n_clk w; bb_reg := bb_reg w; u := u w;
              trace := trace w ++ [Ev_fgetc_no_stream] |})
  end.
Proof.
  unfold h_getbyte. run_prims. destruct (f (u w)) as [[|? ?]|]; reflexivity.
Qed.

(** ** Setup with a device, and the pin register *)

Lemma reg_values_byte r : In r reg_values -> is_byte r.
Proof.
  unfold reg_values, is_byte. cbn [In].
  intros [<- | [<- | [<- | [<- | []]]]]; lia.
Qed.

Lemma drive_tms_values tms r :
  In r reg_values -> In (drive 7 tms r) reg_values.
Proof.
  unfold reg_values, drive. cbn [In].
  intros [<- | [<- | [<- | [<- | []]]]]; destruct (tms =? 0); cbn; auto.
Qed.

Lemma exchange_reg_values tms tdi r :
  In r reg_values -> In (exchange_reg tms tdi r) reg_values.
Proof.
  unfold reg_values, exchange_reg, drive. cbn [In].
  intros [<- | [<- | [<- | [<- | []]]]];
    destruct (0 <=? tdi), (tms =? 0), (tdi =? 0); cbn; auto 6.
Qed.

Lemma exchange_reg_of tms tdi r :
  In r reg_values -> 0 <= tdi -> exchange_reg tms tdi r = reg_of tms tdi.
Proof.
  unfold reg_values, exchange_reg, reg_of, drive. cbn [In]. intros Hr Hd.
  rewrite (proj2 (Z.leb_le 0 tdi)) by assumption.
  destruct Hr as [<- | [<- | [<- | [<- | []]]]];
    destruct (tms =? 0), (tdi =? 0); reflexivity.
Qed.

Lemma pulse_bytes_of tms tdi :
  let r := reg_of tms tdi in
  [Z.clearbit r 5; Z.setbit (Z.clearbit r 5) 5; Z.clearbit r 5] =
  [r; r + 0x20; r].
Proof.
  cbv zeta. unfold reg_of. destruct (tms =? 0), (tdi =? 0); reflexivity.
Qed.

(** X6. When the device opens, setup configures it in this order: baud
    rate 62500, latency timer 1, synchronous bit-bang mode 4 with the
    direction mask 0xA8; it returns 0, leaves the session state alone and
    clears the pin register whatever it held before.  So the first
    exchange after a successful setup, when it drives TDI, queues bytes
    that show the requested TMS and TDI levels and nothing else: the
    register value, the same with TCK (0x20) added, the register value. *)
Theorem X6_setup_with_device (w : world) :
  dev_present (w_env w) (n_open w) = true ->
  let w1 := (h_setup w).2 in
  (h_setup w).1 = 0 /\
  trace w1 = trace w ++ diag_if (2 <=? verbose (u w)) D_setup ++
             [Ev_ftdi_init; Ev_usb_open 0x0403 0x6001 true;
              Ev_set_baudrate 62500; Ev_set_latency_timer 1;
              Ev_set_bitmode 0xA8 4] /\
  bb_reg w1 = 0 /\ u w1 = u w /\
  forall tms tdi tdo rmask sync,
    0 <= tdi ->
    written_bytes (trace (h_pulse_tck tms tdi tdo rmask sync w1).2) =
    written_bytes (trace w1) ++
      [reg_of tms tdi; reg_of tms tdi + 0x20; reg_of tms tdi].
Proof.
  intros Hdev. cbv zeta. split; [apply h_setup_returns_0|].
  assert (Hw1 : (h_setup w).2 =
    {| w_env := w_env w; n_open := S (n_open w); n_rx := n_rx w;
       n_clk := n_clk w; bb_reg := 0; u := u w;
       trace := trace w ++ diag_if (2 <=? verbose (u w)) D_setup ++
                [Ev_ftdi_init; Ev_usb_open 0x0403 0x6001 true;
                 Ev_set_baudrate 62500; Ev_set_latency_timer 1;
                 Ev_set_bitmode 0xA8 4] |}).
  { unfold h_setup, bb_setup, diag_if. run_prims.
    destruct (2 <=? verbose (u w)); run_prims; rewrite Hdev;
      cbn [Z.ltb Z.compare]; run_prims; rewrite <- ?app_assoc; reflexivity. }
  rewrite Hw1. cbn [trace bb_reg u].
  do 3 (split; [reflexivity|]).
  intros tms tdi tdo rmask sync Hd.
  rewrite h_pulse_tck_eq by (cbn [bb_reg]; unfold is_byte; lia).
  cbv zeta. cbn [snd trace bb_reg w_env n_rx u].
  rewrite (exchange_reg_of tms tdi 0) by (unfold reg_values; cbn [In]; auto).
  match goal with
  | |- written_bytes (?T ++ ?P ++ ?D) = _ =>
      rewrite (written_bytes_app T (P ++ D)), (written_bytes_app P D)
  end.
  rewrite written_bytes_diag, app_nil_r. f_equal.
  unfold pulse_events. cbn [written_bytes flat_map app].
  apply pulse_bytes_of.
Qed.

(** X7. In every state the program can reach, the pin register holds one
    of four values: TMS and TDI each high or low, and TCK never stored.
    An exchange that drives TDI leaves the register showing exactly the
    two levels it was asked for, whatever the register held before. *)
Theorem X7_pin_register_values
    (e : env) (x : udata_s) (cs : list host_call) :
  let w := (run_calls cs (world_boot e x)).2 in
  In (bb_reg w) reg_values /\
  forall tms tdi tdo rmask sync,
    0 <= tdi ->
    bb_reg (h_pulse_tck tms tdi tdo rmask sync w).2 = reg_of tms tdi.
Proof.
  cbv zeta.
  assert (Hstep : forall c w, In (bb_reg w) reg_values ->
                              In (bb_reg (dispatch c w).2) reg_values).
  { intros c w Hin. rewrite dispatch_reg by now apply reg_values_byte.
    destruct c; try assumption.
    - destruct (dev_present _ _); [|assumption].
      unfold reg_values. cbn [In]. auto.
    - destruct (0 <? num_tck); [now apply drive_tms_values | assumption].
    - now apply exchange_reg_values. }
  assert (H0 : In (bb_reg (world_boot e x)) reg_values)
    by (unfold reg_values; cbn [world_boot bb_reg In]; auto).
  pose proof (run_calls_keeps (fun w => In (bb_reg w) reg_values)
                Hstep cs _ H0) as Hin.
  cbv beta in Hin. split; [exact Hin|].
  intros tms tdi tdo rmask sync Hd.
  rewrite h_pulse_tck_eq by now apply reg_values_byte.
  cbv zeta. cbn [snd bb_reg]. now apply exchange_reg_of.
Qed.

(** ** The shape of the traffic with the device *)

Lemma pulse_scan_app tr1 : forall s tr2,
  pulse_scan s (tr1 ++ tr2) = s' ← pulse_scan s tr1; pulse_scan s' tr2.
Proof.
  induction tr1 as [|ev tr1 IH]; intros s tr2; cbn [app pulse_scan].
  - reflexivity.
  - destruct (pulse_step s ev); cbn [mbind option_bind]; [apply IH | reflexivity].
Qed.

Lemma pulse_scan_idle tr1 tr2 :
  pulse_scan false tr1 = Some false -> pulse_scan false tr2 = Some false ->
  pulse_scan false (tr1 ++ tr2) = Some false.
Proof. intros H1 H2. now rewrite pulse_scan_app, H1. Qed.

Lemma pulse_scan_diag b d : pulse_scan false (diag_if b d) = Some false.
Proof. now destruct b. Qed.

Lemma pulse_scan_sleep t : pulse_scan false (sleep_call t) = Some false.
Proof. unfold sleep_call. now destruct (t =? 0). Qed.

Lemma pulse_scan_events e reg k :
  pulse_scan false (pulse_events e reg k) = Some false.
Proof.
  unfold pulse_events. cbn [pulse_scan pulse_step].
  rewrite Z.setbit_eqb, Z.clearbit_eqb, Z.eqb_refl by lia.
  rewrite andb_false_r. reflexivity.
Qed.

Lemma pulse_scan_train e reg n : forall k,
  pulse_scan false (pulse_train e reg k n) = Some false.
Proof.
  induction n as [|n IH]; intros k; cbn [pulse_train]; [reflexivity|].
  apply pulse_scan_idle; [apply pulse_scan_events | apply IH].
Qed.

Lemma pulse_scan_triples tr : forall s s',
  pulse_scan s tr = Some s' ->
  exists m : nat, length (written_bytes tr) = (3 * m)%nat.
Proof.
  induction tr as [|ev tr IH]; intros s s' Hs.
  - now exists 0%nat.
  - cbn [pulse_scan] in Hs.
    destruct (pulse_step s ev) as [s1|] eqn:Hstep; [|discriminate].
    cbn [mbind option_bind] in Hs. destruct (IH _ _ Hs) as [m Hm].
    rewrite (written_bytes_app [ev] tr : written_bytes (ev :: tr) = _).
    rewrite length_app, Hm.
    destruct ev; try (now exists m).
    destruct buf as [|a [|b [|c [|d buf]]]], s; try discriminate.
    exists (S m). cbn [written_bytes flat_map app length]. lia.
Qed.

Ltac traffic_side :=
  unfold traffic_inv; cbn [snd bb_reg trace]; rewrite <- ?app_assoc.

Lemma dispatch_traffic c w : traffic_inv w -> traffic_inv (dispatch c w).2.
Proof.
  intros (Hr & Hs).
  assert (Hone : forall ev, pulse_step false ev = Some false ->
            pulse_scan false (trace w ++ [ev]) = Some false).
  { intros ev Hev. apply pulse_scan_idle; [exact Hs|].
    cbn [pulse_scan]. now rewrite Hev. }
  destruct c; cbn [dispatch].
  - unfold h_setup, bb_setup. run_prims.
    destruct (2 <=? verbose (u w)); run_prims;
      destruct (dev_present _ _); cbn [Z.ltb Z.compare]; run_prims;
      traffic_side;
      (split; [assumption || (unfold is_byte; lia)|]);
      apply pulse_scan_idle; auto.
  - unfold h_shutdown, bb_shutdown. run_prims.
    destruct (2 <=? verbose (u w)); run_prims; traffic_side;
      (split; [assumption|]); apply pulse_scan_idle; auto.
  - unfold mbind, M_bind. rewrite h_udelay_eq by assumption.
    cbv zeta. run_prims.
    destruct (0 <? num_tck); traffic_side.
    + split; [apply drive_byte; auto; lia|].
      repeat (apply pulse_scan_idle;
              auto using pulse_scan_diag, pulse_scan_sleep, pulse_scan_train).
    + split; [assumption|].
      repeat (apply pulse_scan_idle;
              auto using pulse_scan_diag, pulse_scan_sleep).
  - rewrite h_getbyte_eq. destruct (f (u w)) as [[|? ?]|]; traffic_side; auto.
  - rewrite h_pulse_tck_eq by assumption. cbv zeta. cbn [snd]. traffic_side.
    split; [now apply exchange_reg_byte|].
    repeat (apply pulse_scan_idle;
            auto using pulse_scan_diag, pulse_scan_events).
  - unfold h_pulse_sck. run_prims. traffic_side. auto.
  - unfold h_set_trst. run_prims. traffic_side. auto.
  - unfold h_set_frequency. run_prims. traffic_side. auto.
  - unfold h_report_device. run_prims. traffic_side. auto.
  - unfold h_report_status. run_prims.
    destruct (2 <=? verbose (u w)); run_prims; traffic_side; auto.
  - unfold h_report_error. run_prims. traffic_side. auto.
Qed.

(** X8. In every trace the program can produce, the calls that exchange
    data with the device come in whole pulses only: each call of
    [ftdi_write_data] hands over three bytes with TCK low, high, low and
    is followed at once by a call of [ftdi_read_data] with a buffer of
    three bytes; no read comes without its write and nothing comes
    between the two.  So the number of bytes handed over for writing is
    a multiple of three. *)
Theorem X8_traffic_is_whole_pulses
    (e : env) (x : udata_s) (cs : list host_call) :
  let w := (run_calls cs (world_boot e x)).2 in
  pulse_scan false (trace w) = Some false /\
  exists m : nat, length (written_bytes (trace w)) = (3 * m)%nat.
Proof.
  cbv zeta.
  assert (H0 : traffic_inv (world_boot e x)).
  { unfold traffic_inv, world_boot, is_byte.
    cbn [bb_reg trace pulse_scan]. repeat split; lia. }
  destruct (run_calls_keeps traffic_inv dispatch_traffic cs _ H0)
    as (_ & Hs).
  split; [exact Hs|]. exact (pulse_scan_triples _ _ _ Hs).
Qed.

(** ** Verbosity changes nothing but the diagnostics *)

Lemma quiet_app tr1 tr2 : quiet (tr1 ++ tr2) = quiet tr1 ++ quiet tr2.
Proof.
  induction tr1 as [|ev tr1 IH]; [reflexivity|].
  destruct ev; cbn [app quiet]; now rewrite ?IH.
Qed.

Lemma quiet_quiet tr : quiet (quiet tr) = quiet tr.
Proof.
  induction tr as [|ev tr IH]; [reflexivity|].
  destruct ev; cbn [quiet]; now rewrite ?IH.
Qed.

Lemma quiet_diag b d : quiet (diag_if b d) = [].
Proof. now destruct b. Qed.

Lemma quiet_sleep t : quiet (sleep_call t) = sleep_call t.
Proof. unfold sleep_call. now destruct (t =? 0). Qed.

Lemma quiet_train e reg n : forall k,
  quiet (pulse_train e reg k n) = pulse_train e reg k n.
Proof.
  induction n as [|n IH]; intros k; cbn [pulse_train]; [reflexivity|].
  rewrite quiet_app, IH. reflexivity.
Qed.

Lemma exchange_set_verbose tdi tdo rmask line n x :
  exchange_udata tdi tdo rmask line (set_verbose n x) =
  set_verbose n (exchange_udata tdi tdo rmask line x).
Proof.
  unfold exchange_udata.
  destruct (0 <=? tdi); cbn [retval_i set_verbose set_bitcount_tdi];
    destruct ((rmask =? 1) && (retval_i x <? 256)), (0 <=? tdo); reflexivity.
Qed.

Create Rewrite HintDb quiet.
#[local] Hint Rewrite quiet_app quiet_quiet quiet_diag quiet_sleep quiet_train
  app_nil_r : quiet.

Ltac quiet_side :=
  unfold silence;
  cbn [w_env n_open n_rx n_clk bb_reg u trace verbose set_verbose f
       clockcount bitcount_tdi bitcount_tdo retval_i retval set_f fst snd];
  autorewrite with quiet; cbn [quiet app pulse_events];
  rewrite <- ?app_assoc; autorewrite with quiet.

Lemma dispatch_silence c w :
  is_byte (bb_reg w) ->
  (dispatch c (silence w)).1 = (dispatch c w).1 /\
  silence (dispatch c (silence w)).2 = silence (dispatch c w).2.
Proof.
  intros Hr.
  assert (Hrs : is_byte (bb_reg (silence w))) by exact Hr.
  destruct c; cbn [dispatch]; unfold silence.
  - unfold h_setup, bb_setup. run_prims.
    cbn [verbose set_verbose Z.leb Z.compare]; run_prims;
    destruct (2 <=? verbose (u w)); run_prims;
      destruct (dev_present _ _); cbn [Z.ltb Z.compare]; run_prims;
      quiet_side; split; reflexivity.
  - unfold h_shutdown, bb_shutdown. run_prims.
    cbn [verbose set_verbose Z.leb Z.compare]; run_prims;
    destruct (2 <=? verbose (u w)); run_prims;
      quiet_side; split; reflexivity.
  - unfold mbind, M_bind. fold (silence w).
    rewrite !h_udelay_eq by assumption.
    cbv zeta. run_prims. split; [reflexivity|].
    destruct (0 <? num_tck); quiet_side; reflexivity.
  - rewrite !h_getbyte_eq. cbn [u f set_verbose].
    destruct (f (u w)) as [[|? ?]|]; quiet_side; split; reflexivity.
  - fold (silence w). rewrite !h_pulse_tck_eq by assumption. cbv zeta.
    quiet_side. split; [reflexivity|]. now rewrite exchange_set_verbose.
  - unfold h_pulse_sck. run_prims. quiet_side. split; reflexivity.
  - unfold h_set_trst. run_prims. quiet_side. split; reflexivity.
  - unfold h_set_frequency. run_prims. quiet_side. split; reflexivity.
  - unfold h_report_device. run_prims. quiet_side. split; reflexivity.
  - unfold h_report_status. run_prims.
    cbn [verbose set_verbose Z.leb Z.compare]; run_prims;
    destruct (2 <=? verbose (u w)); run_prims;
      quiet_side; split; reflexivity.
  - unfold h_report_error. run_prims. quiet_side. split; reflexivity.
Qed.

Lemma dispatch_alike c wa wb :
  silence wa = silence wb -> is_byte (bb_reg wa) ->
  (dispatch c wa).1 = (dispatch c wb).1 /\
  silence (dispatch c wa).2 = silence (dispatch c wb).2.
Proof.
  intros Hs Hr.
  assert (Hrb : is_byte (bb_reg wb))
    by (replace (bb_reg wb) with (bb_reg (silence wb)) by reflexivity;
        now rewrite <- Hs).
  destruct (dispatch_silence c wa Hr) as [Ha1 Ha2].
  destruct (dispatch_silence c wb Hrb) as [Hb1 Hb2].
  rewrite <- Ha1, <- Ha2, Hs. split; assumption.
Qed.

(** X9. Verbosity changes nothing but the diagnostics.  Take two states
    that are the same once the verbosity level and the diagnostics already
    printed are set aside; then any calls of the engine return the same
    values in both, and lead to two states that are again the same in
    everything else: the bytes exchanged with the device, the pin
    register, the counters, the captured bits, the input stream. *)
Theorem X9_verbosity_only_changes_diagnostics
    (cs : list host_call) (wa wb : world) :
  silence wa = silence wb -> is_byte (bb_reg wa) ->
  (run_calls cs wa).1 = (run_calls cs wb).1 /\
  silence (run_calls cs wa).2 = silence (run_calls cs wb).2.
Proof.
  revert wa wb. induction cs as [|c cs IH]; intros wa wb Hs Hr.
  - cbn [run_calls]. run_prims. auto.
  - cbn [run_calls]. unfold mbind, M_bind.
    destruct (dispatch_alike c wa wb Hs Hr) as [H1 H2].
    pose proof (dispatch_byte c wa Hr) as Hr1.
    destruct (dispatch c wa) as [ra wa1], (dispatch c wb) as [rb wb1].
    cbn [fst snd] in *. subst rb.
    destruct (IH wa1 wb1 H2 Hr1) as [H3 H4].
    destruct (run_calls cs wa1) as [rsa wa2], (run_calls cs wb1) as [rsb wb2].
    cbn [fst snd] in *. run_prims. subst rsb. auto.
Qed.

(** ** The allocator profile and the generated allocator *)

Lemma h_realloc_cell size which maxsize x :
  0 <= which < Z.of_nat (length maxsize) ->
  Forall (fun t => 0 <= t) maxsize ->
  exists tbl log,
    h_realloc size which maxsize x = Some (tbl, log) /\
    length tbl = length maxsize /\ Forall (fun t => 0 <= t) tbl /\
    forall (i : nat) t, maxsize !! i = Some t ->
      tbl !! i = Some (if which =? Z.of_nat i then Z.max size t else t).
Proof.
  intros Hw Hpos. unfold h_realloc.
  rewrite (proj2 (Z.leb_le 0 which)), (proj2 (Z.ltb_lt which _)) by lia.
  cbn [andb].
  destruct (lookup_lt_is_Some_2 maxsize (Z.to_nat which)) as [cur Hcur]; [lia|].
  rewrite Hcur. cbn [mbind option_bind]. eexists _, _. split; [reflexivity|].
  assert (Hc : 0 <= cur)
    by (rewrite Forall_forall in Hpos; apply Hpos, list_elem_of_lookup; eauto).
  destruct (Z.ltb_spec cur size) as [Hlt | Hge].
  - split; [apply length_insert|]. split.
    + apply Forall_insert; [assumption | lia].
    + intros i t Hi. destruct (Z.eqb_spec which (Z.of_nat i)) as [-> | Hne].
      * rewrite Nat2Z.id in *. rewrite list_lookup_insert_eq
          by (apply lookup_lt_Some in Hi; lia).
        f_equal. replace t with cur by congruence. lia.
      * rewrite list_lookup_insert_ne by lia. exact Hi.
  - split; [reflexivity|]. split; [assumption|].
    intros i t Hi. destruct (Z.eqb_spec which (Z.of_nat i)) as [-> | Hne].
    + rewrite Nat2Z.id in Hcur. rewrite Hi. f_equal.
      replace t with cur by congruence. lia.
    + exact Hi.
Qed.

Lemma profile_run_cells x reqs : forall maxsize,
  Forall (fun r => 0 <= r.1 < Z.of_nat (length maxsize)) reqs ->
  Forall (fun t => 0 <= t) maxsize ->
  exists tbl,
    profile_run reqs maxsize x = Some tbl /\ length tbl = length maxsize /\
    forall (i : nat) t, maxsize !! i = Some t ->
      tbl !! i = Some (Z.max t (high_water reqs (Z.of_nat i))).
Proof.
  induction reqs as [|[which size] reqs IH]; intros maxsize Hin Hpos.
  - exists maxsize. cbn [profile_run high_water foldr].
    split; [reflexivity|]. split; [reflexivity|].
    intros i t Hi. rewrite Hi. f_equal.
    rewrite Forall_forall in Hpos.
    assert (0 <= t) by (apply Hpos, list_elem_of_lookup; eauto). lia.
  - apply Forall_cons in Hin. destruct Hin as [Hw Hin]. cbn [fst] in Hw.
    destruct (h_realloc_cell size which maxsize x Hw Hpos)
      as (tbl1 & log & Hstep & Hlen1 & Hpos1 & Hcell1).
    cbn [profile_run]. rewrite Hstep. cbn [mbind option_bind fst].
    rewrite <- Hlen1 in Hin.
    destruct (IH tbl1 Hin Hpos1) as (tbl & Hrun & Hlen & Hcell).
    exists tbl. split; [exact Hrun|]. split; [congruence|].
    intros i t Hi. rewrite (Hcell i _ (Hcell1 i t Hi)). f_equal.
    cbn [high_water foldr fst snd]. fold (high_water reqs (Z.of_nat i)).
    destruct (which =? Z.of_nat i); lia.
Qed.

Lemma high_water_covers reqs which size :
  (which, size) ∈ reqs -> size <= high_water reqs which.
Proof.
  induction reqs as [|r reqs IH]; [now intros ?%elem_of_nil|].
  intros [<- | Hin]%elem_of_cons; cbn [high_water foldr fst snd];
    fold (high_water reqs which).
  - rewrite Z.eqb_refl. lia.
  - specialize (IH Hin). destruct (r.1 =? which); lia.
Qed.

Lemma high_water_requested reqs i :
  0 < high_water reqs i -> exists size, (i, size) ∈ reqs /\ 0 < size.
Proof.
  induction reqs as [|[which size] reqs IH]; cbn [high_water foldr fst snd];
    [lia|].
  fold (high_water reqs i).
  intros Hpos. destruct (Z.eqb_spec which i) as [-> | Hne].
  - destruct (Z.le_gt_cases size 0) as [Hle | Hgt].
    + destruct IH as (s & Hs & Hs0); [lia|]. exists s.
      split; [now apply elem_of_cons; right | assumption].
    + exists size. split; [apply elem_of_cons; now left | lia].
  - destruct (IH Hpos) as (s & Hs & Hs0). exists s.
    split; [now apply elem_of_cons; right | assumption].
Qed.

Lemma high_water_nonneg reqs i : 0 <= high_water reqs i.
Proof.
  induction reqs as [|r reqs IH]; cbn [high_water foldr]; [lia|].
  fold (high_water reqs i). destruct (r.1 =? i); lia.
Qed.

Lemma num_loop_bounds cells : forall i num,
  num <= i ->
  num <= num_loop i cells num <= i + Z.of_nat (length cells) /\
  forall (k : nat) m, cells !! k = Some m -> 0 < m ->
    i + Z.of_nat k < num_loop i cells num.
Proof.
  induction cells as [|c cells IH]; intros i num Hnum; cbn [num_loop length].
  - split; [lia|]. intros k m Hk. now rewrite lookup_nil in Hk.
  - destruct (IH (i + 1) (if 0 <? c then i + 1 else num)) as [Hb Hk];
      [destruct (0 <? c); lia|].
    split; [destruct (0 <? c); lia|].
    intros [|k] m Hm Hpos; cbn [lookup list_lookup] in Hm.
    + injection Hm as ->.
      rewrite (proj2 (Z.ltb_lt 0 m)) in Hb |- * by assumption. lia.
    + specialize (Hk k m Hm Hpos). lia.
Qed.

Lemma buflist_lookup cells : forall i (k : nat),
  buflist_loop i cells !! k =
  (fun m => if 0 <? m then Some (i + Z.of_nat k) else None) <$> cells !! k.
Proof.
  induction cells as [|c cells IH]; intros i k; cbn [buflist_loop].
  - now rewrite !lookup_nil.
  - destruct k as [|k]; cbn [lookup list_lookup fmap option_fmap option_map].
    + now rewrite Z.add_0_r.
    + rewrite IH. destruct (cells !! k); cbn; [|reflexivity].
      now replace (i + 1 + Z.of_nat k) with (i + Z.pos (Pos.of_succ_nat k)) by lia.
Qed.

Lemma sizelist_lookup cells (k : nat) :
  sizelist_loop cells !! k = (fun m => if 0 <? m then m else 0) <$> cells !! k.
Proof.
  revert k. induction cells as [|c cells IH]; intros k; cbn [sizelist_loop].
  - now rewrite !lookup_nil.
  - destruct k as [|k]; cbn [lookup list_lookup]; [reflexivity | apply IH].
Qed.

Lemma buf_loop_elem cells : forall i j m,
  (j, m) ∈ buf_loop i cells <->
  exists k : nat, j = i + Z.of_nat k /\ cells !! k = Some m /\ 0 < m.
Proof.
  induction cells as [|c cells IH]; intros i j m; cbn [buf_loop].
  - split; [now intros ?%elem_of_nil|]. intros (k & _ & Hk & _).
    now rewrite lookup_nil in Hk.
  - rewrite elem_of_app, IH. split.
    + intros [Hhd | (k & -> & Hk & Hpos)].
      * destruct (Z.ltb_spec 0 c); [|now apply elem_of_nil in Hhd].
        apply list_elem_of_singleton in Hhd. injection Hhd as -> ->.
        exists 0%nat. repeat split; [lia | assumption].
      * exists (S k). repeat split; [lia | assumption..].
    + intros ([|k] & -> & Hk & Hpos); cbn [lookup list_lookup] in Hk.
      * injection Hk as ->. left.
        rewrite (proj2 (Z.ltb_lt 0 m)) by assumption.
        apply list_elem_of_singleton. f_equal. lia.
      * right. exists k. repeat split; [lia | assumption..].
Qed.

(** X10. Profiling and the generated allocator fit together.  Start from
    the zeroed table and let the engine make any requests for classes
    inside the table.  Then the dump declares a buffer exactly for the
    classes that saw a request of positive size, each as large as the
    largest request for its class; and for every such request the class
    is below the bound [num] the generated function tests, [buflist]
    holds the buffer of that class and [sizelist] a size the request fits
    in. *)
Theorem X10_allocator_covers_profile
    (realloc_name : string) (x : udata_s) (n : nat) (reqs : list (Z * Z)) :
  Forall (fun r => 0 <= r.1 < Z.of_nat n) reqs ->
  exists tbl,
    profile_run reqs (replicate n 0) x = Some tbl /\
    let g := dump_allocator realloc_name tbl in
    0 <= gen_num g <= Z.of_nat n /\
    (forall which size, (which, size) ∈ reqs -> 0 < size ->
       which < gen_num g /\
       gen_buflist g !! Z.to_nat which = Some (Some which) /\
       gen_sizelist g !! Z.to_nat which = Some (high_water reqs which) /\
       size <= high_water reqs which /\
       (which, high_water reqs which) ∈ gen_bufs g) /\
    (forall i cap, (i, cap) ∈ gen_bufs g ->
       cap = high_water reqs i /\ exists size, (i, size) ∈ reqs /\ 0 < size).
Proof.
  intros Hin.
  destruct (profile_run_cells x reqs (replicate n 0)) as (tbl & Hrun & Hlen & Hcell).
  { now rewrite length_replicate. }
  { apply Forall_replicate. lia. }
  rewrite length_replicate in Hlen.
  assert (Hcells : forall i : nat, (i < n)%nat ->
            tbl !! i = Some (high_water reqs (Z.of_nat i))).
  { intros i Hi. rewrite (Hcell i 0) by (apply lookup_replicate; auto).
    f_equal. pose proof (high_water_nonneg reqs (Z.of_nat i)). lia. }
  exists tbl. split; [exact Hrun|]. cbv zeta. unfold dump_allocator.
  cbn [gen_num gen_buflist gen_sizelist gen_bufs].
  destruct (num_loop_bounds tbl 0 0) as [Hnum Hpos]; [lia|].
  rewrite Hlen in Hnum. set (num := num_loop 0 tbl 0) in *.
  split; [lia|]. split.
  - intros which size Hreq Hsize.
    rewrite Forall_forall in Hin. pose proof (Hin _ Hreq) as Hw. cbn [fst] in Hw.
    pose proof (high_water_covers reqs which size Hreq) as Hcov.
    assert (Hcell' : tbl !! Z.to_nat which = Some (high_water reqs which)).
    { rewrite Hcells by lia. do 2 f_equal. lia. }
    assert (Hlt : which < num).
    { specialize (Hpos _ _ Hcell'). lia. }
    assert (Htake : take (Z.to_nat num) tbl !! Z.to_nat which =
                    Some (high_water reqs which)).
    { rewrite lookup_take. case_decide; [exact Hcell' | lia]. }
    split; [exact Hlt|]. split.
    { rewrite buflist_lookup, Htake. cbn [fmap option_fmap option_map].
      rewrite (proj2 (Z.ltb_lt 0 _)) by lia. do 2 f_equal. lia. }
    split.
    { rewrite sizelist_lookup, Htake. cbn [fmap option_fmap option_map].
      now rewrite (proj2 (Z.ltb_lt 0 _)) by lia. }
    split; [exact Hcov|].
    apply buf_loop_elem. exists (Z.to_nat which).
    split; [lia|]. split; [exact Htake | lia].
  - intros i cap (k & -> & Hk & Hcap)%buf_loop_elem.
    rewrite lookup_take in Hk. case_decide; [|discriminate].
    rewrite Hcells in Hk by lia. injection Hk as <-.
    rewrite Z.add_0_l in *. split; [reflexivity|].
    now apply high_water_requested.
Qed.

(** ** The exit status of [main] *)

Ltac main_vars_side :=
  cbn [mv_rc mv_gotaction mv_hex_mode mv_realloc_name mv_already_printed
       mv_stderr say set_rc set_gotaction set_hex_mode set_realloc_name
       opt_is_other opt_fails opt_is_action fst snd].

Lemma copyleft_vars v :
  mv_rc (copyleft v) = mv_rc v /\ mv_gotaction (copyleft v) = mv_gotaction v.
Proof. unfold copyleft. destruct (mv_already_printed v); split; reflexivity. Qed.

Lemma main_opt_ctl o v w :
  match (main_opt o v w).1 with
  | Running v1 =>
      opt_is_other o = false /\
      mv_rc v1 = (if opt_fails o then 1 else mv_rc v) /\
      mv_gotaction v1 = (if opt_is_action o then 1 else mv_gotaction v)
  | Exited status _ => opt_is_other o = true /\ status = 1
  end.
Proof.
  destruct o; unfold main_opt, libxsvf_play, help; run_prims; main_vars_side.
  - repeat split.
  - destruct (copyleft_vars v) as [H1 H2]. auto.
  - destruct (String.eqb optarg "-"), opened; cbn [negb orb]; run_prims;
      try (destruct (run_calls calls _) as [rs w2]; cbn [fst snd]; run_prims);
      destruct (play_rc <? 0), (verbose (u w) =? 0); main_vars_side;
      repeat split.
  - destruct (run_calls calls w) as [rs w2]. cbn [fst snd].
    destruct (play_rc <? 0); main_vars_side; repeat split.
  - repeat split.
  - repeat split.
  - repeat split.
Qed.

Lemma main_loop_ctl opts : forall v w,
  match (main_loop opts v w).1 with
  | Running v1 =>
      existsb opt_is_other opts = false /\
      mv_rc v1 = (if existsb opt_fails opts then 1 else mv_rc v) /\
      mv_gotaction v1 =
        (if existsb opt_is_action opts then 1 else mv_gotaction v)
  | Exited status _ => existsb opt_is_other opts = true /\ status = 1
  end.
Proof.
  induction opts as [|o opts IH]; intros v w; cbn [main_loop existsb].
  - run_prims. repeat split.
  - unfold mbind, M_bind. pose proof (main_opt_ctl o v w) as Ho.
    destruct (main_opt o v w) as [[v1 | status v1] w1]; cbn [fst] in Ho.
    + destruct Ho as (Hother & Hrc & Hact). rewrite Hother. cbn [orb].
      specialize (IH v1 w1).
      destruct (main_loop opts v1 w1) as [[v2 | status v2] w2]; cbn [fst] in *.
      * destruct IH as (H1 & H2 & H3). rewrite H2, H3, Hrc, Hact.
        split; [assumption|].
        destruct (opt_fails o), (existsb opt_fails opts),
          (opt_is_action o), (existsb opt_is_action opts); auto.
      * exact IH.
    + destruct Ho as [-> ->]. run_prims. auto.
Qed.

Lemma main_loop_other pre post : forall v w,
  existsb opt_is_other pre = false ->
  exists v1,
    (main_loop pre v w).1 = Running v1 /\
    main_loop (pre ++ Opt_other :: post) v w =
      (help v1, (main_loop pre v w).2).
Proof.
  induction pre as [|o pre IH]; intros v w Hpre.
  - exists v. cbn [app main_loop main_opt]. unfold help. run_prims.
    split; reflexivity.
  - cbn [existsb] in Hpre. apply orb_false_iff in Hpre as [Ho Hpre].
    cbn [app main_loop]. unfold mbind, M_bind.
    pose proof (main_opt_ctl o v w) as Hctl.
    destruct (main_opt o v w) as [[v1 | status v1] w1]; cbn [fst] in Hctl.
    + destruct (IH v1 w1 Hpre) as (v2 & Hrun & Hall).
      exists v2. rewrite Hall.
      destruct (main_loop pre v1 w1) as [c w2]. cbn [fst snd] in *.
      subst c. split; reflexivity.
    + destruct Hctl as [Hx _]. congruence.
Qed.

(** X11. The exit status of [main].  An option [getopt] does not know
    ends the process at once with status 1: the options after it are not
    looked at, so nothing is played, scanned or printed for them, the
    state is the one the options before it left, and the usage text is
    the last thing said.  A command line without any file to play or
    chain to scan ends with status 1 as well.  Otherwise every option is
    processed, and the status is 1 as soon as one file could not be opened
    or one run of the engine returned a negative value, however many other
    actions went well, and 0 when every action went well.  The line with
    the captured bits is printed exactly when the process does not leave
    through the usage text. *)
Theorem X11_exit_status (opts : list cli_opt) (w : world) :
  let r := (main opts w).1 in
  exit_status r =
    (if existsb opt_is_other opts then 1
     else if existsb opt_is_action opts
          then (if existsb opt_fails opts then 1 else 0)
          else 1) /\
  (retval_line r = None <->
   existsb opt_is_other opts || negb (existsb opt_is_action opts) = true) /\
  (forall pre post,
     opts = pre ++ Opt_other :: post -> existsb opt_is_other pre = false ->
     main opts w = main (pre ++ [Opt_other]) w /\
     (main opts w).2 = (main_loop pre main_vars_init w).2 /\
     last (mv_stderr (final_vars r)) = Some Msg_usage) /\
  (existsb opt_is_other opts = false -> existsb opt_is_action opts = false ->
     (main opts w).2 = (main_loop opts main_vars_init w).2 /\
     last (mv_stderr (final_vars r)) = Some Msg_usage).
Proof.
  cbv zeta. split; [|split; [|split]].
  - unfold main, mbind, M_bind.
    pose proof (main_loop_ctl opts main_vars_init w) as H.
    destruct (main_loop opts main_vars_init w) as [[v | status v] w1];
      cbn [fst] in H.
    + destruct H as (Ho & Hrc & Hact). rewrite Ho.
      cbn [main_vars_init mv_rc mv_gotaction] in Hrc, Hact.
      rewrite Hact. destruct (existsb opt_is_action opts); cbn [Z.eqb].
      * run_prims. destruct (verbose (u w1) =? 0);
          cbn [exit_status mv_rc say]; rewrite Hrc; reflexivity.
      * unfold help. run_prims. reflexivity.
    + destruct H as [-> ->]. run_prims. reflexivity.
  - unfold main, mbind, M_bind.
    pose proof (main_loop_ctl opts main_vars_init w) as H.
    destruct (main_loop opts main_vars_init w) as [[v | status v] w1];
      cbn [fst] in H.
    + destruct H as (Ho & Hrc & Hact). rewrite Ho. cbn [orb].
      cbn [main_vars_init mv_rc mv_gotaction] in Hrc, Hact.
      rewrite Hact. destruct (existsb opt_is_action opts); cbn [Z.eqb negb].
      * run_prims. destruct (verbose (u w1) =? 0);
          cbn [retval_line]; split; discriminate.
      * unfold help. run_prims. cbn [retval_line]. split; reflexivity.
    + destruct H as [-> ->]. run_prims. cbn [retval_line orb].
      split; reflexivity.
  - intros pre post -> Hpre.
    destruct (main_loop_other pre post main_vars_init w Hpre)
      as (v1 & Hrun & Hall).
    destruct (main_loop_other pre [] main_vars_init w Hpre)
      as (v1' & Hrun' & Hone).
    assert (v1' = v1) by congruence. subst v1'.
    unfold main, mbind, M_bind. rewrite Hall, Hone.
    unfold help. run_prims. cbn [final_vars say mv_stderr].
    split; [reflexivity|]. split; [reflexivity|]. apply last_snoc.
  - intros Hother Hact. unfold main, mbind, M_bind.
    pose proof (main_loop_ctl opts main_vars_init w) as H.
    destruct (main_loop opts main_vars_init w) as [[v | status v] w1];
      cbn [fst snd] in *.
    + destruct H as (_ & _ & Hgot).
      cbn [main_vars_init mv_gotaction] in Hgot. rewrite Hact in Hgot.
      rewrite Hgot. cbn [Z.eqb]. unfold help. run_prims.
      cbn [final_vars say mv_stderr]. split; [reflexivity | apply last_snoc].
    + destruct H as [Hx _]. congruence.
Qed.

(** ** How long the delay routine can sleep *)

Lemma sleeps_app tr1 tr2 : sleeps (tr1 ++ tr2) = sleeps tr1 ++ sleeps tr2.
Proof. apply flat_map_app. Qed.

Lemma sleeps_diag b d : sleeps (diag_if b d) = [].
Proof. now destruct b. Qed.

Lemma sleeps_train e reg n : forall k, sleeps (pulse_train e reg k n) = [].
Proof.
  induction n as [|n IH]; intros k; cbn [pulse_train]; [reflexivity|].
  rewrite sleeps_app, IH. reflexivity.
Qed.

Lemma sleeps_sleep_call t :
  sleeps (sleep_call t) = if t =? 0 then [] else [to_useconds t].
Proof. unfold sleep_call. now destruct (t =? 0). Qed.

Lemma to_useconds_bound t :
  0 <= t -> 0 <= to_useconds t < 2 ^ 32 /\ to_useconds t <= t.
Proof.
  intros Ht. unfold to_useconds. split.
  - apply Z.mod_pos_bound. reflexivity.
  - apply Z.mod_le; [exact Ht | reflexivity].
Qed.

Lemma code_residual_bound d tv1 tv2 :
  clock_readable d tv1 tv2 ->
  code_residual d tv1 tv2 < d + 1000000 /\
  (tv_sec tv1 < tv_sec tv2 -> code_residual d tv1 tv2 <= d) /\
  (tv_sec tv2 <= tv_sec tv1 ->
   code_residual d tv1 tv2 = d - (tv_usec tv2 - tv_usec tv1)).
Proof.
  unfold clock_readable, code_residual.
  intros (Hu1 & Hu2 & Hs1 & Hs2 & Hd).
  assert (H40 : 2 ^ 40 = 1099511627776) by reflexivity.
  assert (H62 : 2 ^ 62 = 4611686018427387904) by reflexivity.
  destruct (Z.ltb_spec (tv_sec tv1) (tv_sec tv2));
    repeat match goal with
      | |- context [wrap_long ?z] =>
          rewrite (wrap_long_small z) by (unfold LONG_MIN, LONG_MAX; lia)
      end; lia.
Qed.

(** X12. The delay routine never oversleeps by a second.  Whatever the
    two readings of the clock are, even when the clock was set back
    between them, a call asks for at most one sleep, and the value
    [usleep] receives is less than max(0, d) plus one million
    microseconds; when the pulses took it into a later second, it is at
    most d.  When the second reading is not in a later second than the
    first, only the microsecond fields are compared, so the time spent is
    counted as less than one second. *)
Theorem X12_delay_never_oversleeps_by_a_second (d tms n : Z) (w : world) :
  is_byte (bb_reg w) ->
  let tv1 := wall_clock (w_env w) (n_clk w) in
  let tv2 := wall_clock (w_env w) (S (n_clk w)) in
  clock_readable d tv1 tv2 ->
  let w' := (h_udelay d tms n w).2 in
  exists s : list Z,
    sleeps (trace w') = sleeps (trace w) ++ s /\ (length s <= 1)%nat /\
    Forall (fun t => 0 <= t < 2 ^ 32 /\ t < Z.max 0 d + 1000000) s /\
    (0 < n -> tv_sec tv1 < tv_sec tv2 -> Forall (fun t => t <= d) s) /\
    (0 < n -> tv_sec tv2 <= tv_sec tv1 ->
     s = sleeps (sleep_call (Z.max 0 (d - (tv_usec tv2 - tv_usec tv1))))).
Proof.
  intros Hr tv1 tv2 Hclk w'. subst w'.
  rewrite h_udelay_eq by assumption. cbv zeta. cbn [snd]. fold tv1 tv2.
  destruct (code_residual_bound d tv1 tv2 Hclk) as (Hlt & Hle & Heq).
  destruct (Z.ltb_spec 0 n) as [Hn | Hn]; cbn [trace].
  - exists (sleeps (sleep_call (Z.max 0 (code_residual d tv1 tv2)))).
    split.
    { rewrite !sleeps_app, !sleeps_diag, sleeps_train. reflexivity. }
    split; [|split; [|split]].
    + rewrite sleeps_sleep_call. destruct (_ =? 0); cbn [length]; lia.
    + rewrite sleeps_sleep_call.
      destruct (Z.eqb_spec (Z.max 0 (code_residual d tv1 tv2)) 0);
        constructor; [|constructor].
      destruct (to_useconds_bound (Z.max 0 (code_residual d tv1 tv2)));
        lia.
    + intros _ Hfw. specialize (Hle Hfw). rewrite sleeps_sleep_call.
      destruct (Z.eqb_spec (Z.max 0 (code_residual d tv1 tv2)) 0);
        constructor; [|constructor].
      destruct (to_useconds_bound (Z.max 0 (code_residual d tv1 tv2)));
        lia.
    + intros _ Hback. now rewrite (Heq Hback).
  - exists (sleeps (sleep_call (Z.max 0 d))).
    split.
    { rewrite !sleeps_app, !sleeps_diag. reflexivity. }
    split; [|split; [|split]].
    + rewrite sleeps_sleep_call. destruct (_ =? 0); cbn [length]; lia.
    + rewrite sleeps_sleep_call.
      destruct (Z.eqb_spec (Z.max 0 d) 0); constructor; [|constructor].
      destruct (to_useconds_bound (Z.max 0 d)); lia.
    + intros; lia.
    + intros; lia.
Qed.

(** ** What the summary of [main] reports *)

Lemma exchanges_app cs1 cs2 :
  exchanges (cs1 ++ cs2) = exchanges cs1 + exchanges cs2.
Proof.
  induction cs1 as [|c cs1 IH]; cbn [app exchanges]; [lia|].
  destruct c; lia.
Qed.

Lemma count_calls_app p cs1 cs2 :
  count_calls p (cs1 ++ cs2) = count_calls p cs1 + count_calls p cs2.
Proof. unfold count_calls. rewrite filter_app, length_app. lia. Qed.

Lemma advanced_by_run cs w :
  session_inv w -> counters_inv (u w) ->
  clockcount (u w) + exchanges cs <= INT_MAX ->
  let w' := (run_calls cs w).2 in
  session_inv w' /\ counters_inv (u w') /\ advanced_by cs (u w) (u w').
Proof.
  intros Hinv [Hi Ho] Hmax. cbv zeta.
  split; [now apply run_calls_session|].
  destruct Hinv as ((Hr & _) & Hwf & _).
  destruct (run_counters cs w Hr Hwf Hi Ho Hmax) as (H1 & H2 & H3 & H4 & H5 & H6).
  pose proof (count_calls_nonneg drives_tdi cs).
  pose proof (count_calls_nonneg compares_tdo cs).
  unfold counters_inv, advanced_by. repeat split; lia.
Qed.

Lemma main_opt_advances o v w :
  opt_is_other o = false ->
  session_inv w -> counters_inv (u w) ->
  clockcount (u w) + exchanges (opt_calls o) <= INT_MAX ->
  let w' := (main_opt o v w).2 in
  session_inv w' /\ counters_inv (u w') /\
  advanced_by (opt_calls o) (u w) (u w').
Proof.
  intros Hother Hinv Hc Hmax.
  assert (Hstay : forall w', session_inv w' -> counters_inv (u w') ->
            clockcount (u w') = clockcount (u w) ->
            bitcount_tdi (u w') = bitcount_tdi (u w) ->
            bitcount_tdo (u w') = bitcount_tdo (u w) ->
            retval_i (u w') = retval_i (u w) ->
            session_inv w' /\ counters_inv (u w') /\ advanced_by [] (u w) (u w')).
  { intros w' H1 H2 H3 H4 H5 H6. split; [assumption|]. split; [assumption|].
    unfold advanced_by. rewrite !count_calls_nil. cbn [exchanges].
    destruct H1 as (_ & [_ Hb] & _). lia. }
  destruct o; try discriminate Hother; cbv zeta;
    unfold main_opt, libxsvf_play; cbn [opt_calls] in *.
  - run_prims. now apply Hstay.
  - run_prims. apply Hstay; try reflexivity; assumption.
  - run_prims. destruct (String.eqb optarg "-"), opened; cbn [orb] in *;
      run_prims;
      try (match goal with
           | |- context [run_calls calls ?w0] =>
               pose proof (advanced_by_run calls w0 Hinv Hc Hmax) as H;
               destruct (run_calls calls w0) as [rs w2]
           end;
           run_prims; exact H).
    apply Hstay; try reflexivity; assumption.
  - run_prims.
    pose proof (advanced_by_run calls w Hinv Hc Hmax) as H.
    destruct (run_calls calls w) as [rs w2]. exact H.
  - run_prims. now apply Hstay.
  - run_prims. now apply Hstay.
Qed.

Lemma main_loop_advances opts : forall v w,
  existsb opt_is_other opts = false ->
  session_inv w -> counters_inv (u w) ->
  clockcount (u w) + exchanges (calls_played opts) <= INT_MAX ->
  let w' := (main_loop opts v w).2 in
  session_inv w' /\ counters_inv (u w') /\
  advanced_by (calls_played opts) (u w) (u w').
Proof.
  induction opts as [|o opts IH]; intros v w Hother Hinv Hc Hmax; cbv zeta.
  - cbn [main_loop calls_played flat_map]. run_prims.
    split; [assumption|]. split; [assumption|].
    unfold advanced_by. rewrite !count_calls_nil. cbn [exchanges].
    destruct Hinv as (_ & [_ Hb] & _). lia.
  - cbn [existsb] in Hother. apply orb_false_iff in Hother as [Ho Hrest].
    unfold calls_played in *. cbn [flat_map] in *.
    fold (calls_played opts) in *.
    rewrite exchanges_app in Hmax.
    pose proof (exchanges_nonneg (opt_calls o)) as Hn1.
    pose proof (exchanges_nonneg (calls_played opts)) as Hn2.
    assert (Hmax1 : clockcount (u w) + exchanges (opt_calls o) <= INT_MAX) by lia.
    destruct (main_opt_advances o v w Ho Hinv Hc Hmax1) as (Hinv1 & Hc1 & Ha1).
    pose proof (main_opt_ctl o v w) as Hctl.
    cbn [main_loop]. unfold mbind, M_bind.
    destruct (main_opt o v w) as [[v1 | status v1] w1]; cbn [fst snd] in *.
    + assert (Hmax2 : clockcount (u w1) + exchanges (calls_played opts) <= INT_MAX)
        by (destruct Ha1 as (E & _); lia).
      destruct (IH v1 w1 Hrest Hinv1 Hc1 Hmax2) as (Hinv2 & Hc2 & Ha2).
      pose proof (main_loop_ctl opts v1 w1) as Hctl2.
      destruct (main_loop opts v1 w1) as [[v2 | status v2] w2]; cbn [fst snd] in *.
      * split; [assumption|]. split; [assumption|].
        unfold advanced_by in *. rewrite exchanges_app, !count_calls_app.
        pose proof (count_calls_nonneg asks_capture (opt_calls o)).
        pose proof (count_calls_nonneg asks_capture (calls_played opts)).
        destruct Hinv as (_ & [_ Hb] & _). lia.
      * destruct Hctl2 as [Hx _]. congruence.
    + destruct Hctl as [Hx _]. congruence.
Qed.

(** X13. The session is never reset between the files of one command
    line.  When every option is known and the exchanges of all runs of
    the engine together fit an [int], the counters [main] ends with are
    totals over everything played by the whole command line: the clock
    cycles are all the exchanges, the significant TDI and TDO bits all the
    exchanges that drove TDI resp. compared TDO, and the captured bits
    those of all files together, up to 256.  With an action and a
    verbosity other than zero the last message on the standard error is
    the summary with these totals, and it says "without errors" exactly
    when no action failed. *)
Theorem X13_summary_totals_over_all_files (e : env) (opts : list cli_opt) :
  existsb opt_is_other opts = false ->
  exchanges (calls_played opts) <= INT_MAX ->
  let r := main opts (world_init e) in
  let cs := calls_played opts in
  let x := u r.2 in
  clockcount x = exchanges cs /\
  bitcount_tdi x = count_calls drives_tdi cs /\
  bitcount_tdo x = count_calls compares_tdo cs /\
  retval_i x = Z.min 256 (count_calls asks_capture cs) /\
  (existsb opt_is_action opts = true -> verbose x <> 0 ->
   last (mv_stderr (final_vars r.1)) =
     Some (Msg_summary (exchanges cs) (count_calls drives_tdi cs)
             (count_calls compares_tdo cs) (negb (existsb opt_fails opts)))).
Proof.
  intros Hother Hmax. cbv zeta.
  assert (Hc0 : counters_inv (u (world_init e)))
    by (unfold counters_inv; cbn; lia).
  destruct (main_loop_advances opts main_vars_init (world_init e) Hother
              (world_start_session e 0 None) Hc0 Hmax) as (_ & _ & Ha).
  pose proof (main_loop_ctl opts main_vars_init (world_init e)) as Hctl.
  unfold main, mbind, M_bind.
  destruct (main_loop opts main_vars_init (world_init e))
    as [[v | status v] w1]; cbn [fst snd] in *.
  - destruct Hctl as (_ & Hrc & Hact).
    cbn [main_vars_init mv_rc mv_gotaction] in Hrc, Hact.
    destruct Ha as (H1 & H2 & H3 & H4).
    cbn [world_init world_boot u u_init u_start clockcount bitcount_tdi
         bitcount_tdo retval_i] in H1, H2, H3, H4.
    rewrite Hact.
    destruct (existsb opt_is_action opts); cbn [Z.eqb].
    + run_prims. repeat (split; [assumption|]).
      intros _ Hv. apply Z.eqb_neq in Hv. rewrite Hv.
      cbn [final_vars say mv_stderr]. rewrite last_snoc.
      rewrite Hrc, H1, H2, H3.
      now destruct (existsb opt_fails opts).
    + unfold help. run_prims. repeat (split; [assumption|]).
      intros Habs. discriminate Habs.
  - destruct Hctl as [Hx _]. congruence.
Qed.

(** ** Concrete runs of the further properties *)

(** X1 on the three captured bits 1,0,1. *)
Lemma X1_decimal_rendering_witness :
  let x := captured [1; 0; 1] in
  capture_wf x /\
  print_retval 0 x =
    Some [Out_count 3; Out_bit 1; Out_bit 0; Out_bit 1; Out_newline].
Proof.
  cbv zeta.
  assert (H1 : capture_wf (captured [1; 0; 1]))
    by (split; [reflexivity | split; discriminate]).
  split; [exact H1|].
  exact (X1_decimal_rendering _ H1).
Defined.

(** X2 on five captured ones. *)
Lemma X2_little_endian_overrun_witness :
  let x := captured [1; 1; 1; 1; 1] in
  capture_wf x /\ retval_i x mod 4 <> 0 /\ print_retval 1 x = None.
Proof.
  cbv zeta.
  assert (H1 : capture_wf (captured [1; 1; 1; 1; 1]))
    by (split; [reflexivity | split; discriminate]).
  assert (H2 : retval_i (captured [1; 1; 1; 1; 1]) mod 4 <> 0) by discriminate.
  split; [exact H1|]. split; [exact H2|].
  exact (X2_little_endian_overrun _ H1 H2).
Defined.

(** X3 from a session that already captured 1,0: two more captures, a
    delay and an SCK request in between. *)
Lemma X3_capture_is_append_only_witness :
  let w := world_boot env_demo (captured [1; 0]) in
  let cs := [Call_pulse_tck 0 1 (-1) 1 0; Call_udelay 10 1 1; Call_pulse_sck;
             Call_pulse_tck 0 0 (-1) 1 0] in
  is_byte (bb_reg w) /\ capture_wf (u w) /\
  capture_seq (u w) `prefix_of` capture_seq (u (run_calls cs w).2) /\
  retval_i (u w) <= retval_i (u (run_calls cs w).2) <= 256.
Proof.
  cbv zeta.
  assert (Hb : is_byte (bb_reg (world_boot env_demo (captured [1; 0]))))
    by concrete_byte.
  assert (Hw : capture_wf (u (world_boot env_demo (captured [1; 0]))))
    by (split; [reflexivity | split; discriminate]).
  split; [exact Hb|]. split; [exact Hw|].
  exact (X3_capture_is_append_only
           [Call_pulse_tck 0 1 (-1) 1 0; Call_udelay 10 1 1; Call_pulse_sck;
            Call_pulse_tck 0 0 (-1) 1 0] _ Hb Hw).
Defined.

(** X4 on a setup and three exchanges: three clock cycles, two TDI bits,
    one TDO bit, one captured bit. *)
Lemma X4_summary_counters_witness :
  let cs := [Call_setup; Call_pulse_tck 1 1 (-1) 0 0;
             Call_pulse_tck 0 (-1) 1 1 0; Call_pulse_tck 0 0 (-1) 0 0] in
  let x := u (run_calls cs (world_boot env_demo (u_start 0 None))).2 in
  exchanges cs <= INT_MAX /\
  clockcount x = 3 /\ bitcount_tdi x = 2 /\ bitcount_tdo x = 1 /\
  retval_i x = 1.
Proof.
  cbv zeta.
  assert (H : exchanges [Call_setup; Call_pulse_tck 1 1 (-1) 0 0;
                         Call_pulse_tck 0 (-1) 1 1 0;
                         Call_pulse_tck 0 0 (-1) 0 0] <= INT_MAX)
    by (vm_compute; discriminate).
  split; [exact H|].
  destruct (X4_summary_counters env_demo 0 None _ H) as (H1 & H2 & H3 & H4 & _).
  split; [exact H1|]. split; [exact H2|]. split; [exact H3 | exact H4].
Defined.

(** X6 at the start of the process with the device attached: after setup,
    an exchange with TMS = 1 and TDI = 1 queues 0x88, 0xA8, 0x88. *)
Lemma X6_setup_with_device_witness :
  let w := world_init env_demo in
  dev_present (w_env w) (n_open w) = true /\
  (h_setup w).1 = 0 /\
  trace (h_setup w).2 =
    [Ev_ftdi_init; Ev_usb_open 0x0403 0x6001 true; Ev_set_baudrate 62500;
     Ev_set_latency_timer 1; Ev_set_bitmode 0xA8 4] /\
  bb_reg (h_setup w).2 = 0 /\
  written_bytes (trace (h_pulse_tck 1 1 (-1) 0 0 (h_setup w).2).2) =
    [0x88; 0xA8; 0x88].
Proof.
  cbv zeta.
  assert (H : dev_present (w_env (world_init env_demo))
                          (n_open (world_init env_demo)) = true)
    by reflexivity.
  split; [exact H|].
  destruct (X6_setup_with_device _ H) as (Hrc & Htr & Hreg & _ & Hnext).
  split; [exact Hrc|]. split; [exact Htr|]. split; [exact Hreg|].
  assert (P : 0 <= 1) by lia.
  exact (Hnext 1 1 (-1) 0 0 P).
Defined.

(** X9 on the same session run at verbosity 0 and at verbosity 3. *)
Lemma X9_verbosity_only_changes_diagnostics_witness :
  let wa := world_boot env_demo (u_start 0 (Some [65])) in
  let wb := world_boot env_demo (u_start 3 (Some [65])) in
  let cs := [Call_setup; Call_pulse_tck 1 1 0 1 0; Call_udelay 100 0 1;
             Call_getbyte; Call_report_status "done"; Call_shutdown] in
  silence wa = silence wb /\ is_byte (bb_reg wa) /\
  (run_calls cs wa).1 = (run_calls cs wb).1 /\
  silence (run_calls cs wa).2 = silence (run_calls cs wb).2.
Proof.
  cbv zeta.
  assert (Hs : silence (world_boot env_demo (u_start 0 (Some [65]))) =
               silence (world_boot env_demo (u_start 3 (Some [65]))))
    by reflexivity.
  assert (Hb : is_byte (bb_reg (world_boot env_demo (u_start 0 (Some [65])))))
    by concrete_byte.
  split; [exact Hs|]. split; [exact Hb|].
  exact (X9_verbosity_only_changes_diagnostics
           [Call_setup; Call_pulse_tck 1 1 0 1 0; Call_udelay 100 0 1;
            Call_getbyte; Call_report_status "done"; Call_shutdown]
           _ _ Hs Hb).
Defined.

(** X10 on a table of three cells and three requests, two of them for
    class 0: the larger one, of 10 bytes, fits the size the generated
    allocator keeps for class 0. *)
Lemma X10_allocator_covers_profile_witness :
  let reqs := [(0, 10); (2, 3); (0, 4)] in
  Forall (fun r : Z * Z => 0 <= r.1 < Z.of_nat 3) reqs /\
  exists tbl,
    profile_run reqs (replicate 3 0) u_init = Some tbl /\
    let g := dump_allocator "my_realloc" tbl in
    0 <= gen_num g <= 3 /\
    gen_sizelist g !! Z.to_nat 0 = Some (high_water reqs 0) /\
    10 <= high_water reqs 0.
Proof.
  cbv zeta.
  assert (H : Forall (fun r : Z * Z => 0 <= r.1 < Z.of_nat 3)
                     [(0, 10); (2, 3); (0, 4)])
    by (repeat (constructor; [cbn; lia|]); constructor).
  split; [exact H|].
  destruct (X10_allocator_covers_profile "my_realloc" u_init 3 _ H)
    as (tbl & Hrun & Hnum & Hreq & _).
  exists tbl. split; [exact Hrun|]. cbv zeta. split; [exact Hnum|].
  assert (Hin : ((0, 10) : Z * Z) ∈ [(0, 10); (2, 3); (0, 4)]) by constructor.
  assert (Hpos : 0 < 10) by lia.
  destruct (Hreq 0 10 Hin Hpos) as (_ & _ & Hsz & Hfit & _).
  split; [exact Hsz | exact Hfit].
Defined.

(** X12 at the start of the process: two pulses take the clock from
    10.999000 s to 11.001000 s, and of the 5000 microseconds asked for
    the routine sleeps at most 5000. *)
Lemma X12_delay_never_oversleeps_by_a_second_witness :
  let w := world_init env_demo in
  is_byte (bb_reg w) /\
  clock_readable 5000 (Timeval 10 999000) (Timeval 11 1000) /\
  exists s : list Z,
    sleeps (trace (h_udelay 5000 1 2 w).2) = sleeps (trace w) ++ s /\
    (length s <= 1)%nat /\
    Forall (fun t => 0 <= t < 2 ^ 32 /\ t < Z.max 0 5000 + 1000000) s /\
    Forall (fun t => t <= 5000) s.
Proof.
  cbv zeta.
  assert (Hb : is_byte (bb_reg (world_init env_demo))) by concrete_byte.
  assert (Hc : clock_readable 5000 (Timeval 10 999000) (Timeval 11 1000))
    by (unfold clock_readable; cbn [tv_sec tv_usec]; lia).
  split; [exact Hb|]. split; [exact Hc|].
  destruct (X12_delay_never_oversleeps_by_a_second 5000 1 2 _ Hb Hc)
    as (s & Hs & Hlen & Hall & Hfw & _).
  exists s. split; [exact Hs|]. split; [exact Hlen|]. split; [exact Hall|].
  apply Hfw; [lia | cbn; lia].
Defined.

(** X13 on a command line that plays two files and scans the chain in
    between, at verbosity 1: four exchanges in all, of which the summary
    reports three TDI bits, one TDO bit, and an error for the file that
    did not open. *)
Lemma X13_summary_totals_over_all_files_witness :
  let opts := [Opt_v;
               Opt_file true "a.svf" true [1; 2]
                 [Call_setup; Call_pulse_tck 1 1 (-1) 0 0;
                  Call_pulse_tck 0 1 1 1 0; Call_shutdown] 0;
               Opt_file false "b.xsvf" false [] [Call_pulse_tck 0 0 0 0 0] 0;
               Opt_c [Call_setup; Call_pulse_tck 1 (-1) (-1) 1 0;
                      Call_pulse_tck 0 0 (-1) 0 0] 0] in
  let r := main opts (world_init env_demo) in
  existsb opt_is_other opts = false /\
  exchanges (calls_played opts) <= INT_MAX /\
  clockcount (u r.2) = 4 /\ retval_i (u r.2) = 2 /\
  last (mv_stderr (final_vars r.1)) = Some (Msg_summary 4 3 1 false).
Proof.
  cbv zeta.
  set (opts := [Opt_v;
               Opt_file true "a.svf" true [1; 2]
                 [Call_setup; Call_pulse_tck 1 1 (-1) 0 0;
                  Call_pulse_tck 0 1 1 1 0; Call_shutdown] 0;
               Opt_file false "b.xsvf" false [] [Call_pulse_tck 0 0 0 0 0] 0;
               Opt_c [Call_setup; Call_pulse_tck 1 (-1) (-1) 1 0;
                      Call_pulse_tck 0 0 (-1) 0 0] 0]).
  assert (H1 : existsb opt_is_other opts = false) by reflexivity.
  assert (H2 : exchanges (calls_played opts) <= INT_MAX)
    by (vm_compute; discriminate).
  split; [exact H1|]. split; [exact H2|].
  destruct (X13_summary_totals_over_all_files env_demo opts H1 H2)
    as (Hc & _ & _ & Hi & Hmsg).
  split; [exact Hc|]. split; [exact Hi|].
  apply Hmsg; [reflexivity | vm_compute; discriminate].
Defined.

(** X11 on a command line with an unknown option between [-v] and [-c]:
    the scan is never started, nothing reaches the device, and the
    status is 1. *)
Lemma X11_exit_status_witness :
  let opts := [Opt_v; Opt_other;
               Opt_c [Call_setup; Call_pulse_tck 1 1 (-1) 0 0] 0] in
  let r := main opts (world_init env_demo) in
  exit_status r.1 = 1 /\ retval_line r.1 = None /\
  trace r.2 = [] /\
  mv_stderr (final_vars r.1) = [Msg_copyleft; Msg_usage].
Proof.
  cbv zeta.
  destruct (X11_exit_status
              [Opt_v; Opt_other;
               Opt_c [Call_setup; Call_pulse_tck 1 1 (-1) 0 0] 0]
              (world_init env_demo)) as (Hst & Hline & Hstop & _).
  destruct (Hstop [Opt_v]
              [Opt_c [Call_setup; Call_pulse_tck 1 1 (-1) 0 0] 0]
              eq_refl eq_refl) as (Hsame & _ & _).
  split; [exact Hst|].
  split; [apply (proj2 Hline); reflexivity|].
  rewrite Hsame. split; reflexivity.
Defined.
